(** * MHwPlistSplitter: a shallow embedding of [MHwPlistSplitter.py]

    The script reads a property list describing the sprites of a sprite
    sheet, crops every sprite out of the sheet and saves it as a PNG file.
    This development embeds

    - the Python built-ins the script relies on ([str.strip], [str.split],
      [float], [int], the [in] and subscript operators, the paths of
      [pathlib] on POSIX systems and on Windows, [print]),
    - [parse_plist], [parse_rect_string], [split_sprites] and [main],

    and proves the properties claimed about them.  Exceptions are explicit:
    every function that can raise returns a [result]. *)

From Stdlib Require Import ZArith List String Ascii Bool Lia.
From Stdlib Require Import Floats.SpecFloat.
From stdpp Require Import base option list gmap strings.

Set Default Proof Using "Type".
Local Open Scope Z_scope.

(** ** Exceptions and results *)

Inductive exn_class : Set :=
  | ValueError | TypeError | AttributeError | KeyError | OverflowError
  | OSError | SystemError.

(** An exception is its class and its message.  The messages of the
    exceptions raised by the script itself are the script's; those of the
    interpreter are abbreviated. *)
Inductive exn : Set := Exn (cls : exn_class) (msg : string).

Inductive result (A : Type) : Type :=
  | Ok (a : A)
  | Raise (e : exn).
Arguments Ok {A} a.
Arguments Raise {A} e.

Definition bind {A B : Type} (c : result A) (k : A -> result B) : result B :=
  match c with
  | Ok a => k a
  | Raise e => Raise e
  end.

Notation "'let*' x ':=' c 'in' k" := (bind c (fun x => k))
  (at level 10, x pattern, c at level 100, k at level 200).

Definition is_ok {A : Type} (c : result A) : bool :=
  match c with Ok _ => true | Raise _ => false end.

(** ** Python strings

    A [str] is modelled by [string]; a character is its 8-bit code. *)
Module Str.

Definition in_chars (chars : string) (c : ascii) : bool :=
  existsb (Ascii.eqb c) (list_ascii_of_string chars).

(** Removal of the leading characters that satisfy [p]. *)
Fixpoint lstrip_by (p : ascii -> bool) (s : string) : string :=
  match s with
  | EmptyString => EmptyString
  | String c s' => if p c then lstrip_by p s' else s
  end.

(** Removal of the trailing characters that satisfy [p]. *)
Fixpoint rstrip_by (p : ascii -> bool) (s : string) : string :=
  match s with
  | EmptyString => EmptyString
  | String c s' =>
      match rstrip_by p s' with
      | EmptyString => if p c then EmptyString else String c EmptyString
      | r => String c r
      end
  end.

Definition strip_by (p : ascii -> bool) (s : string) : string :=
  rstrip_by p (lstrip_by p s).

(** [s.strip(chars)]: every leading and every trailing character that
    occurs in [chars] is removed. *)
Definition strip (chars s : string) : string := strip_by (in_chars chars) s.

(** [s.split(sep)] for a non-empty [sep]: the pieces between the
    occurrences of [sep], found from left to right without overlap.
    [skip] counts the characters of a separator still to be passed. *)
Fixpoint split_from (sep : string) (skip : nat) (s : string) : list string :=
  match s with
  | EmptyString => [EmptyString]
  | String c s' =>
      match skip with
      | S k => split_from sep k s'
      | O =>
          if String.prefix sep s
          then EmptyString :: split_from sep (String.length sep - 1) s'
          else match split_from sep 0 s' with
               | p :: ps => String c p :: ps
               | [] => [String c EmptyString]
               end
      end
  end.

Definition split (sep s : string) : list string := split_from sep 0 s.

(** [s.rfind(c)] for a one-character [c]. *)
Fixpoint rfind (c : ascii) (s : string) : option nat :=
  match s with
  | EmptyString => None
  | String a s' =>
      match rfind c s' with
      | Some i => Some (S i)
      | None => if Ascii.eqb a c then Some O else None
      end
  end.

(** The lower case of the letters A-Z: [inf], [infinity] and [nan] are
    recognized in any case. *)
Definition lower_char (c : ascii) : ascii :=
  let n := nat_of_ascii c in
  if ((65 <=? n) && (n <=? 90))%nat then ascii_of_nat (n + 32) else c.

Fixpoint lower (s : string) : string :=
  match s with
  | EmptyString => EmptyString
  | String c s' => String (lower_char c) (lower s')
  end.

Fixpoint all_chars (p : ascii -> bool) (s : string) : bool :=
  match s with
  | EmptyString => true
  | String c s' => p c && all_chars p s'
  end.

(** [s.replace(old, new)] for one-character [old] and [new]. *)
Fixpoint replace_char (old new : ascii) (s : string) : string :=
  match s with
  | EmptyString => EmptyString
  | String c s' =>
      String (if Ascii.eqb c old then new else c) (replace_char old new s')
  end.

(** [s.find(c, start)] for a one-character [c]. *)
Fixpoint find (c : ascii) (start : nat) (s : string) : option nat :=
  match s with
  | EmptyString => None
  | String a s' =>
      match start with
      | S k => option_map S (find c k s')
      | O => if Ascii.eqb a c then Some O else option_map S (find c 0 s')
      end
  end.

(** [s[n:]] *)
Fixpoint drop (n : nat) (s : string) : string :=
  match n, s with
  | S k, String _ s' => drop k s'
  | _, _ => s
  end.

(** The longest prefix of characters satisfying [p], and what follows. *)
Fixpoint span (p : ascii -> bool) (s : string) : string * string :=
  match s with
  | EmptyString => (EmptyString, EmptyString)
  | String c s' =>
      if p c then let '(a, b) := span p s' in (String c a, b)
      else (EmptyString, s)
  end.

End Str.

(** ** Python floats: [float(str)] and [int(float)]

    A [float] is an IEEE 754 binary64 number, [spec_float] at precision 53
    and maximal exponent 1024. *)
Module Float.

Definition prec : Z := 53.
Definition emax : Z := 1024.

(** White space as [float] strips it: tab, line feed, vertical tab, form
    feed, carriage return and space, and the two further spaces among the
    8-bit codes, next line and no-break space. *)
Definition is_space (c : ascii) : bool :=
  let n := nat_of_ascii c in
  (((9 <=? n) && (n <=? 13)) || (n =? 32) || (n =? 133) || (n =? 160))%nat.

Definition is_digit (c : ascii) : bool :=
  let n := nat_of_ascii c in ((48 <=? n) && (n <=? 57))%nat.

Definition digit_value (c : ascii) : Z := Z.of_nat (nat_of_ascii c) - 48.

(** The number written by a string of decimal digits. *)
Fixpoint digits_value (acc : Z) (s : string) : Z :=
  match s with
  | EmptyString => acc
  | String c s' => digits_value (10 * acc + digit_value c) s'
  end.

(** White space is removed at both ends. *)
Definition strip_space (s : string) : string := Str.strip_by is_space s.

(** An underscore is allowed only between two digits: [prev] is the
    character before [s]. *)
Fixpoint underscores_ok (prev : option ascii) (s : string) : bool :=
  match s with
  | EmptyString =>
      match prev with
      | Some c => negb (Ascii.eqb c "_")
      | None => true
      end
  | String c s' =>
      let prev_digit := match prev with Some d => is_digit d | None => false end in
      let prev_under := match prev with Some d => Ascii.eqb d "_" | None => false end in
      (if Ascii.eqb c "_" then prev_digit
       else negb (prev_under && negb (is_digit c)))
      && underscores_ok (Some c) s'
  end.

Fixpoint remove_underscores (s : string) : string :=
  match s with
  | EmptyString => EmptyString
  | String c s' =>
      if Ascii.eqb c "_" then remove_underscores s'
      else String c (remove_underscores s')
  end.

(** An optional sign: [true] for a minus. *)
Definition read_sign (s : string) : bool * string :=
  match s with
  | String "-" s' => (true, s')
  | String "+" s' => (false, s')
  | _ => (false, s)
  end.

(** The binary64 number nearest to [m * 10 ^ e] (ties to even), for
    [0 <= m]: the quotient of two integers, rounded once. *)
Definition of_decimal (neg : bool) (m e : Z) : spec_float :=
  if m =? 0 then S754_zero neg
  else
    let num := if 0 <=? e then m * 10 ^ e else m in
    let den := if 0 <=? e then 1 else 10 ^ (- e) in
    SFdiv prec emax (S754_finite neg (Z.to_pos num) 0)
                    (S754_finite false (Z.to_pos den) 0).

(** The exponent part of a number: nothing, or [e] or [E], an optional
    sign and at least one digit, up to the end of the string. *)
Definition read_exponent (s : string) : option Z :=
  match s with
  | EmptyString => Some 0
  | String c s' =>
      if Ascii.eqb c "e" || Ascii.eqb c "E" then
        let '(eneg, r) := read_sign s' in
        let '(ds, rest) := Str.span is_digit r in
        match ds, rest with
        | String _ _, EmptyString =>
            Some (if eneg then - digits_value 0 ds else digits_value 0 ds)
        | _, _ => None
        end
      else None
  end.

(** A number without white space and underscores: sign, then [inf],
    [infinity] or [nan] in any case, or digits with an optional point
    and an optional exponent. *)
Definition read_number (s : string) : option spec_float :=
  let '(neg, r) := read_sign s in
  let lr := Str.lower r in
  if String.eqb lr "inf" || String.eqb lr "infinity" then Some (S754_infinity neg)
  else if String.eqb lr "nan" then Some S754_nan
  else
    let '(ip, r1) := Str.span is_digit r in
    let '(fp, r2) :=
      match r1 with
      | String "." r' => Str.span is_digit r'
      | _ => (EmptyString, r1)
      end in
    match ip, fp with
    | EmptyString, EmptyString => None
    | _, _ =>
        match read_exponent r2 with
        | Some e =>
            Some (of_decimal neg (digits_value 0 (ip +:+ fp))
                             (e - Z.of_nat (String.length fp)))
        | None => None
        end
    end.

(** A string without white space at its ends: the underscores are checked
    and removed, then the number is read. *)
Definition of_stripped (t : string) : option spec_float :=
  if underscores_ok None t then read_number (remove_underscores t) else None.

(** [float(s)] *)
Definition of_str (s : string) : result spec_float :=
  match of_stripped (strip_space s) with
  | Some f => Ok f
  | None => Raise (Exn ValueError ("could not convert string to float: " +:+ s))
  end.

Definition is_finite (f : spec_float) : bool :=
  match f with
  | S754_zero _ | S754_finite _ _ _ => true
  | S754_infinity _ | S754_nan => false
  end.

(** The integer part of a finite [f], rounding toward zero. *)
Definition trunc (f : spec_float) : Z :=
  match f with
  | S754_finite s m e =>
      cond_Zopp s (if 0 <=? e then Z.shiftl (Zpos m) e
                   else Z.shiftr (Zpos m) (- e))
  | _ => 0
  end.

(** [int(f)]: the integer part of [f]; infinities and NaN have none. *)
Definition to_int (f : spec_float) : result Z :=
  match f with
  | S754_zero _ | S754_finite _ _ _ => Ok (trunc f)
  | S754_infinity _ =>
      Raise (Exn OverflowError "cannot convert float infinity to integer")
  | S754_nan => Raise (Exn ValueError "cannot convert float NaN to integer")
  end.

End Float.

(** ** [pathlib]: paths, their final component and its stem

    [Path] is [PosixPath] or [WindowsPath] with the system the script runs
    on; both are modelled, as CPython 3.11 parses, joins and writes
    them. *)
Module Pathlib.

Inductive flavour : Set := Posix | Windows.
Existing Class flavour.

(** A parsed path: its drive, its root, and the components that follow
    them ([_parts] without the anchor). *)
Record path : Set := Parsed {
  drv : string;
  root : string;
  tail : list string
}.

Definition backslash : ascii := "092".

(** The prefix of an extended path, two backslashes, a question mark and
    a backslash. *)
Definition ext_namespace_prefix : string :=
  String backslash (String backslash (String "?" (String backslash ""))).

Definition is_drive_letter (c : string) : bool :=
  match c with
  | String a EmptyString =>
      let n := nat_of_ascii a in
      (((65 <=? n) && (n <=? 90)) || ((97 <=? n) && (n <=? 122)))%nat
  | _ => false
  end.

(** [_WindowsFlavour._split_extended_path] *)
Definition split_extended_path (s : string) : string * string :=
  if String.prefix ext_namespace_prefix s then
    let prefix := String.substring 0 4 s in
    let s := Str.drop 4 s in
    if String.prefix (String "U" (String "N" (String "C" (String backslash "")))) s
    then (prefix +:+ String.substring 0 3 s, String backslash (Str.drop 3 s))
    else (prefix, s)
  else ("", s).

(** [_PosixFlavour.splitroot]: exactly two leading slashes are a root of
    their own. *)
Definition splitroot_posix (part : string) : string * string * string :=
  if String.eqb (String.substring 0 1 part) "/" then
    let stripped_part := Str.lstrip_by (Ascii.eqb "/") part in
    if Nat.eqb (String.length part - String.length stripped_part) 2
    then ("", "//", stripped_part)
    else ("", "/", stripped_part)
  else ("", "", part).

(** [_WindowsFlavour.splitroot]: an extended prefix, then a UNC drive
    (machine and mount point) or a drive letter with its colon, then the
    root. *)
Definition splitroot_windows (part : string) : string * string * string :=
  let sep := String backslash "" in
  let first := String.substring 0 1 part in
  let second := String.substring 1 1 part in
  let '(prefix, part) :=
    if String.eqb second sep && String.eqb first sep
    then split_extended_path part else ("", part) in
  let first := String.substring 0 1 part in
  let second := String.substring 1 1 part in
  let third := String.substring 2 1 part in
  let unc :=
    if String.eqb second sep && String.eqb first sep && negb (String.eqb third sep)
    then
      match Str.find backslash 2 part with
      | Some index =>
          let found := Str.find backslash (index + 1) part in
          if decide (found = Some (index + 1)%nat) then None
          else
            let index2 := default (String.length part) found in
            Some (if String.eqb prefix "" then String.substring 0 index2 part
                  else prefix +:+ String.substring 1 (index2 - 1) part,
                  sep, Str.drop (index2 + 1) part)
      | None => None
      end
    else None in
  match unc with
  | Some r => r
  | None =>
      let '(drv, part, first) :=
        if String.eqb second ":" && is_drive_letter first
        then (String.substring 0 2 part, Str.drop 2 part, third)
        else ("", part, first) in
      let '(root, part) :=
        if String.eqb first sep
        then (first, Str.lstrip_by (Ascii.eqb backslash) part)
        else ("", part) in
      (prefix +:+ drv, root, part)
  end.

Section Flavour.

Context {fl : flavour}.

Definition sep : ascii :=
  match fl with Posix => "/" | Windows => backslash end.

(** A character that separates components: the separator, and on Windows
    the slash, which is read as a backslash. *)
Definition is_sep (c : ascii) : bool :=
  match fl with
  | Posix => Ascii.eqb c "/"
  | Windows => Ascii.eqb c "/" || Ascii.eqb c backslash
  end.

Definition splitroot (part : string) : string * string * string :=
  match fl with
  | Posix => splitroot_posix part
  | Windows => splitroot_windows (Str.replace_char "/" backslash part)
  end.

Definition casefold (s : string) : string :=
  match fl with Posix => s | Windows => Str.lower s end.

(** [Path(s)]: [parse_parts] of the one string [s].  The components that
    are empty or a single dot are dropped. *)
Definition Path (s : string) : path :=
  match s with
  | EmptyString => Parsed "" "" []
  | _ =>
      let '(drv, root, rel) := splitroot s in
      Parsed drv root
        (List.filter (fun x => negb (String.eqb x "" || String.eqb x "."))
                     (Str.split (String sep "") rel))
  end.

(** [p.name]: the last component, the empty string when there is none
    after the anchor. *)
Definition name (p : path) : string := List.last (tail p) "".

(** [p.stem]: the name without its last suffix. *)
Definition stem (p : path) : string :=
  let name := name p in
  match Str.rfind "." name with
  | Some i =>
      if ((0 <? i) && (i <? String.length name - 1))%nat
      then String.substring 0 i name
      else name
  | None => name
  end.

(** [p / key], [join_parsed_parts]: a [key] with a root, or with another
    drive, replaces [p]; otherwise its components follow those of [p]. *)
Definition truediv (p : path) (key : string) : path :=
  let q := Path key in
  if negb (String.eqb (root q) "") then
    if String.eqb (drv q) "" && negb (String.eqb (drv p) "")
    then Parsed (drv p) (root q) (tail q)
    else q
  else if negb (String.eqb (drv q) "") then
    if String.eqb (drv q) (drv p) || String.eqb (casefold (drv q)) (casefold (drv p))
    then Parsed (drv p) (root p) (tail p ++ tail q)
    else q
  else Parsed (drv p) (root p) (tail p ++ tail q).

(** [str(p)] *)
Definition str (p : path) : string :=
  if String.eqb (drv p) "" && String.eqb (root p) "" then
    match tail p with
    | [] => "."
    | _ => String.concat (String sep "") (tail p)
    end
  else drv p +:+ root p +:+ String.concat (String sep "") (tail p).

(** [str(dir / file)] *)
Definition joinpath (dir : path) (file : string) : string :=
  str (truediv dir file).

End Flavour.

End Pathlib.

(** ** Property lists

    What [plistlib.load] returns.  A [dict] is the list of its items in
    insertion order; its keys are strings. *)
#[warnings="-register-all"] Inductive PValue : Type :=
  | PStr (s : string)
  | PInt (n : Z)
  | PReal (f : spec_float)
  | PBool (b : bool)
  | PData (bytes : string)
  | PDate (seconds : Z)
  | PArray (elems : list PValue)
  | PDict (items : list (string * PValue)).

Module Dict.

(** [d.get(key)] *)
Fixpoint get (key : string) (items : list (string * PValue)) : option PValue :=
  match items with
  | [] => None
  | (k, v) :: rest => if String.eqb k key then Some v else get key rest
  end.

(** [key in d] *)
Definition mem (key : string) (items : list (string * PValue)) : bool :=
  match get key items with Some _ => true | None => false end.

End Dict.

(** [key in v] for a string [key]: a key of a [dict], an element of a
    [list], a substring of a [str]; a [TypeError] on the other values. *)
Definition contains (key : string) (v : PValue) : result bool :=
  match v with
  | PDict items => Ok (Dict.mem key items)
  | PArray elems =>
      Ok (existsb (fun x => match x with PStr s => String.eqb s key | _ => false end)
                  elems)
  | PStr s => Ok (match String.index 0 key s with Some _ => true | None => false end)
  | PData _ => Raise (Exn TypeError "a bytes-like object is required, not 'str'")
  | PInt _ | PReal _ | PBool _ | PDate _ =>
      Raise (Exn TypeError "argument is not iterable")
  end.

(** [v[key]] for a string [key]. *)
Definition getitem (v : PValue) (key : string) : result PValue :=
  match v with
  | PDict items =>
      match Dict.get key items with
      | Some x => Ok x
      | None => Raise (Exn KeyError key)
      end
  | PArray _ | PStr _ | PData _ =>
      Raise (Exn TypeError "indices must be integers")
  | PInt _ | PReal _ | PBool _ | PDate _ =>
      Raise (Exn TypeError "object is not subscriptable")
  end.

(** ** [parse_rect_string] *)

(** [a, b = map(float, tokens)]: the tokens are converted one by one while
    the two targets are filled, and one more is asked for to see that
    there is none. *)
Definition unpack2_float (tokens : list string) : result (spec_float * spec_float) :=
  match tokens with
  | [] => Raise (Exn ValueError "not enough values to unpack (expected 2, got 0)")
  | a :: rest =>
      let* fa := Float.of_str a in
      match rest with
      | [] => Raise (Exn ValueError "not enough values to unpack (expected 2, got 1)")
      | b :: rest' =>
          let* fb := Float.of_str b in
          match rest' with
          | [] => Ok (fa, fb)
          | c :: _ =>
              let* _ := Float.of_str c in
              Raise (Exn ValueError "too many values to unpack (expected 2)")
          end
      end
  end.

Definition rect : Type := Z * Z * Z * Z.

Definition parse_rect_string (rect_str : PValue) : result rect :=
  match rect_str with
  | PStr s =>
      let rect_str := Str.strip "{}" s in
      let parts := Str.split "},{" rect_str in
      match parts with
      | [p0; p1] =>
          let* (x, y) := unpack2_float (Str.split "," (Str.strip "{}" p0)) in
          let* (w, h) := unpack2_float (Str.split "," (Str.strip "{}" p1)) in
          let* ix := Float.to_int x in
          let* iy := Float.to_int y in
          let* iw := Float.to_int w in
          let* ih := Float.to_int h in
          Ok (ix, iy, iw, ih)
      | _ => Raise (Exn ValueError ("Cannot parse rect string: " +:+ rect_str))
      end
  | PData _ => Raise (Exn TypeError "a bytes-like object is required, not 'str'")
  | _ => Raise (Exn AttributeError "object has no attribute 'strip'")
  end.

(** ** The script *)

Definition is_dict (v : PValue) : bool :=
  match v with PDict _ => true | _ => false end.

Definition unsupported : exn := Exn ValueError "Unsupported plist format".

(** Lines 56-61 of [parse_plist]: the frames of a loaded document. *)
Definition select_frames (plist_data : PValue) : result PValue :=
  let* flat := contains "frames" plist_data in
  if flat then getitem plist_data "frames"
  else
    let* has_metadata := contains "metadata" plist_data in
    let* nested :=
      (if has_metadata
       then let* metadata := getitem plist_data "metadata" in
            contains "frames" metadata
       else Ok false) in
    if nested
    then let* metadata := getitem plist_data "metadata" in
         getitem metadata "frames"
    else Raise unsupported.

(** Lines 101-110: the rectangle string of a frame-info value, or [None]
    when the entry is skipped. *)
Definition frame_str_of (sprite_data : PValue) : option PValue :=
  match sprite_data with
  | PDict items =>
      if Dict.mem "frame" items then Dict.get "frame" items
      else if Dict.mem "textureRect" items then Dict.get "textureRect" items
      else None
  | _ => Some sprite_data
  end.

(** The entries of the frames that are not skipped: those with a
    rectangle string. *)
Definition has_frame (item : string * PValue) : bool :=
  match frame_str_of (snd item) with Some _ => true | None => false end.

(** Line 119: [Path(sprite_name).stem + ".png"]. *)
Definition sprite_filename_of {fl : Pathlib.flavour} (sprite_name : string)
  : string :=
  Pathlib.stem (Pathlib.Path sprite_name) +:+ ".png".

(** How the [try] block of an entry ends: the sprite is saved, an
    exception is caught, or the entry is skipped. *)
Inductive outcome (A : Type) : Type :=
  | Saved (sprite_filename : string) (sprite : A)
  | Failed (e : exn)
  | Skipped.
Arguments Saved {A} sprite_filename sprite.
Arguments Failed {A} e.
Arguments Skipped {A}.

(** What the script prints. *)
Inductive line : Type :=
  | Reading_plist (plist_path : string)
  | Reading_PNG (png_path : string)
  | Output_directory (output_dir : string)
  | Skipping (sprite_name : string)
  | Saved_line (sprite_filename : string)
  | Error_processing (sprite_name : string) (e : exn)
  | Done (count : nat) (output_dir : string).

Definition line_of {A : Type} (entry : string * outcome A) : line :=
  match entry with
  | (sprite_name, Saved sprite_filename _) => Saved_line sprite_filename
  | (sprite_name, Failed e) => Error_processing sprite_name e
  | (sprite_name, Skipped) => Skipping sprite_name
  end.

Definition is_saved {A : Type} (entry : string * outcome A) : bool :=
  match entry with (_, Saved _ _) => true | _ => false end.

Definition is_skipped {A : Type} (entry : string * outcome A) : bool :=
  match entry with (_, Skipped) => true | _ => false end.

Definition is_result {A : Type} (entry : string * outcome A) : bool :=
  negb (is_skipped entry).

(** The system, the imaging library and the file system are the script's
    environment: the flavour of [pathlib.Path], decoded images,
    [Image.open], [Image.crop], the refusal of [Image.save] to write a
    buffer at a path, [plistlib.load] of a file, the home directory and
    [mkdir]. *)
Class Env : Type := {
  os_name : Pathlib.flavour;
  Image : Type;
  Image_open : string -> result Image;
  crop : Image -> rect -> result Image;
  write_error : Image -> string -> gmap string Image -> option exn;
  plistlib_load : string -> result PValue;
  home : string;
  mkdir : string -> result unit
}.
#[global] Existing Instance os_name.

Section Script.

Context `{Env}.

(** The files written so far: path to image. *)
Abbreviation FS := (gmap string Image).

(** Modelled from the spec: [Image.save] of the imaging library, which is
    not part of the repository.  A save that succeeds binds the path to
    the buffer, replacing a file already there ("silently overwrite each
    other"); one that fails raises and is taken to leave the files as they
    were. *)
Definition save (sprite : Image) (sprite_path : string) (files : FS)
  : FS * result unit :=
  match write_error sprite sprite_path files with
  | Some e => (files, Raise e)
  | None => (<[sprite_path := sprite]> files, Ok tt)
  end.

Definition parse_plist (plist_path : string) : result PValue :=
  let* plist_data := plistlib_load plist_path in
  select_frames plist_data.

(** Lines 112-124: the rectangle is parsed, cropped out of the sheet and
    saved under the name derived from the sprite's. *)
Definition extract_sprite (img : Image) (output_dir : Pathlib.path) (files : FS)
    (sprite_name : string) (frame_str : PValue) : FS * outcome Image :=
  match parse_rect_string frame_str with
  | Raise e => (files, Failed e)
  | Ok (x, y, w, h) =>
      match crop img (x, y, x + w, y + h) with
      | Raise e => (files, Failed e)
      | Ok sprite =>
          let sprite_filename := sprite_filename_of sprite_name in
          let sprite_path := Pathlib.joinpath output_dir sprite_filename in
          match save sprite sprite_path files with
          | (files', Raise e) => (files', Failed e)
          | (files', Ok _) => (files', Saved sprite_filename sprite)
          end
      end
  end.

(** The body of the loop, lines 99-127: what the [try] block does to the
    files and how it ends.  What is printed, and what happens when
    [print] raises, is in [Console.process_sprite]. *)
Definition process_sprite (img : Image) (output_dir : Pathlib.path) (files : FS)
    (sprite_name : string) (sprite_data : PValue) : FS * outcome Image :=
  match frame_str_of sprite_data with
  | None => (files, Skipped)
  | Some frame_str => extract_sprite img output_dir files sprite_name frame_str
  end.

(** The loop over [frames.items()] on a console that takes every line:
    the files at the end and how each entry ended, in the order of the
    items. *)
Fixpoint process_frames (img : Image) (output_dir : Pathlib.path) (files : FS)
    (items : list (string * PValue)) : FS * list (string * outcome Image) :=
  match items with
  | [] => (files, [])
  | (sprite_name, sprite_data) :: rest =>
      let '(files1, o) := process_sprite img output_dir files sprite_name sprite_data in
      let '(files2, os) := process_frames img output_dir files1 rest in
      (files2, (sprite_name, o) :: os)
  end.

(** The files after the sprites saved by a list of entries have been
    written, one after the other. *)
Definition written (output_dir : Pathlib.path)
    (os : list (string * outcome Image))
    (files : FS) : FS :=
  List.fold_left
    (fun fs entry =>
       match entry with
       | (_, Saved sprite_filename sprite) =>
           <[Pathlib.joinpath output_dir sprite_filename := sprite]> fs
       | _ => fs
       end)
    os files.

(** A run: the files, what was printed, how every entry ended, and
    whether the run returned or raised. *)
Record run : Type := Run {
  files : FS;
  stdout : list line;
  entries : list (string * outcome Image);
  status : result unit
}.

(** Lines 81-83: the output directory, a path. *)
Definition output_path_of (plist_path : string) : Pathlib.path :=
  let plist_name := Pathlib.stem (Pathlib.Path plist_path) in
  let user_docs := Pathlib.truediv (Pathlib.Path home) "Documents" in
  Pathlib.truediv (Pathlib.truediv user_docs "MHwPlistSplitter") plist_name.

(** Its string, as it is printed and as [mkdir] gets it. *)
Definition output_dir_of (plist_path : string) : string :=
  Pathlib.str (output_path_of plist_path).

(** [split_sprites], lines 78-129, on a console that takes every line;
    [Console.split_sprites] below is the run on any console. *)
Definition split_sprites (plist_path png_path : string) (files0 : FS) : run :=
  let output_dir := output_dir_of plist_path in
  match mkdir output_dir with
  | Raise e => Run files0 [] [] (Raise e)
  | Ok _ =>
      let head := [Reading_plist plist_path; Reading_PNG png_path;
                   Output_directory output_dir] in
      match parse_plist plist_path with
      | Raise e => Run files0 head [] (Raise e)
      | Ok frames =>
          match Image_open png_path with
          | Raise e => Run files0 head [] (Raise e)
          | Ok img =>
              match frames with
              | PDict items =>
                  let '(files1, os) :=
                    process_frames img (output_path_of plist_path) files0 items in
                  let count := List.length (List.filter is_saved os) in
                  Run files1 (head ++ List.map line_of os ++ [Done count output_dir])
                      os (Ok tt)
              | _ => Run files0 head []
                         (Raise (Exn AttributeError "object has no attribute 'items'"))
              end
          end
      end
  end.

End Script.

(** ** The imaging library's crop *)
Module Pillow.

(** An RGBA pixel. *)
Definition pixel : Type := Z * Z * Z * Z.

Definition transparent : pixel := (0, 0, 0, 0).

(** A decoded image: its rows of pixels, from the top. *)
Abbreviation bitmap := (list (list pixel)).

Definition height (im : bitmap) : Z := Z.of_nat (List.length im).

Definition width (im : bitmap) : Z :=
  match im with
  | [] => 0
  | row :: _ => Z.of_nat (List.length row)
  end.

Definition pixel_count (im : bitmap) : nat :=
  List.length (List.concat im).

(** The pixel in column [i] of row [j]; outside the image, a transparent
    one. *)
Definition getpixel (im : bitmap) (i j : Z) : pixel :=
  if (0 <=? i) && (0 <=? j) then
    match im !! Z.to_nat j with
    | Some row => default transparent (row !! Z.to_nat i)
    | None => transparent
    end
  else transparent.

(** Modelled from the spec: [Image.crop] of the imaging library, which is
    not part of the repository.  "Crop the rectangle (x, y, x+width,
    y+height) out of the source image, producing a new image buffer of
    exactly width x height pixels"; "crop regions extending past the source
    produce transparent/undefined pixels in the overflow area", and the
    crop does not raise. *)
Definition crop (im : bitmap) (box : rect) : result bitmap :=
  let '(x0, y0, x1, y1) := box in
  Ok (List.map
        (fun j => List.map (fun i => getpixel im (x0 + i) (y0 + j))
                           (seqZ 0 (x1 - x0)))
        (seqZ 0 (y1 - y0))).

End Pillow.

(** The script's environment when the images are bitmaps cropped in this
    way. *)
Definition pillow_env {fl : Pathlib.flavour}
    (Image_open : string -> result Pillow.bitmap)
    (write_error : Pillow.bitmap -> string -> gmap string Pillow.bitmap -> option exn)
    (plistlib_load : string -> result PValue) (home : string)
    (mkdir : string -> result unit) : Env := {|
  os_name := fl;
  Image := Pillow.bitmap;
  Image_open := Image_open;
  crop := Pillow.crop;
  write_error := write_error;
  plistlib_load := plistlib_load;
  home := home;
  mkdir := mkdir
|}.



(** ** Documents *)

(** A key path "resolves to a mapping", in the specification's words: the
    flat path [frames], or the nested path [metadata], [frames]. *)
Definition flat_mapping (doc : PValue) : bool :=
  match doc with
  | PDict d => match Dict.get "frames" d with Some (PDict _) => true | _ => false end
  | _ => false
  end.

Definition nested_mapping (doc : PValue) : bool :=
  match doc with
  | PDict d =>
      match Dict.get "metadata" d with
      | Some (PDict m) =>
          match Dict.get "frames" m with Some (PDict _) => true | _ => false end
      | _ => false
      end
  | _ => false
  end.

(** ** Rectangle strings *)

(** A non-negative numeral: digits, with an optional point and fractional
    digits, and at least one digit in all. *)
Definition is_numeral (s : string) : bool :=
  let '(ip, r) := Str.span Float.is_digit s in
  match r with
  | EmptyString => negb (String.eqb ip "")
  | String c fp =>
      Ascii.eqb c "." && Str.all_chars Float.is_digit fp
      && negb (String.eqb ip "" && String.eqb fp "")
  end.

(** The inner body [X,Y},{W,H] of a rectangle string. *)
Definition rect_body (tx ty tw th : string) : string :=
  tx +:+ "," +:+ ty +:+ "},{" +:+ tw +:+ "," +:+ th.

(** The canonical form ["{{X,Y},{W,H}}"]. *)
Definition rect_text (tx ty tw th : string) : string :=
  "{{" +:+ rect_body tx ty tw th +:+ "}}".

Definition is_brace (c : ascii) : bool := Str.in_chars "{}" c.

(** The character [c] does not occur in [s]. *)
Definition no_char (c : ascii) (s : string) : bool :=
  Str.all_chars (fun x => negb (Ascii.eqb x c)) s.

(** A component in which no brace and no comma occurs. *)
Definition is_component (t : string) : bool :=
  Str.all_chars (fun c => negb (Str.in_chars "{}," c)) t.

(** The float a numeral denotes: its digits over a power of ten, rounded
    to the nearest binary64 number. *)
Definition numeral_float (s : string) : spec_float :=
  let '(ip, r) := Str.span Float.is_digit s in
  let fp := match r with String _ fp => fp | EmptyString => "" end in
  Float.of_decimal false (Float.digits_value 0 (ip +:+ fp))
                   (- Z.of_nat (String.length fp)).

(** [int(float(t))] *)
Definition int_of_float_str (t : string) : result Z :=
  let* f := Float.of_str t in Float.to_int f.

(** ** A small environment to run the script in *)
Module Demo.

(** A sheet of 64 by 32 pixels, each pixel marked by its position. *)
Definition sheet : Pillow.bitmap :=
  List.map (fun j => List.map (fun i => (i, j, 0, 255)) (seqZ 0 64)) (seqZ 0 32).

(** Every file can be created and written, the sheet is the image of every
    path, and [load] gives the document of a path. *)
Definition env (load : string -> result PValue) : Env :=
  @pillow_env Pathlib.Posix (fun _ => Ok sheet) (fun _ _ _ => None) load "/home/user"
             (fun _ => Ok tt).




(** The environment in which [doc] is the document of every path. *)
Definition env_of (doc : PValue) : Env := env (fun _ => Ok doc).

Definition split_sprites (doc : PValue) : @run (env_of doc) :=
  @split_sprites (env_of doc) "sheet.plist" "sheet.png" ∅.

Definition output_dir : string := "/home/user/Documents/MHwPlistSplitter/sheet".

Definition output_path : Pathlib.path := @Pathlib.Path Pathlib.Posix output_dir.

(** A flat and a nested document with the same frames. *)
Definition two_layouts (payload : PValue) (plist_path : string) : result PValue :=
  if String.eqb plist_path "flat.plist"
  then Ok (PDict [("frames", payload)])
  else Ok (PDict [("metadata", PDict [("frames", payload)])]).

(** Frames with a malformed rectangle string and an entry without a
    recognized key among good ones. *)
Definition mixed : PValue :=
  PDict [("frames",
          PDict [("first.png", PDict [("frame", PStr "{{0,0},{8,8}}")]);
                 ("broken.png", PDict [("frame", PStr "{{0,0},{8}}")]);
                 ("nokey.png", PDict [("offset", PStr "{0,0}")]);
                 ("last.png", PStr "{{8,0},{8,8}}")])].

Definition hero : PValue :=
  PDict [("frames",
          PDict [("hero_0", PDict [("textureRect", PStr "{{0,0},{32,32}}")]);
                 ("hero_1", PDict [("frame", PStr "{{32,0},{32,32}}")])])].

End Demo.

(** The sprite of the last entry saved at [path], if there is one. *)
Fixpoint saved_at {A : Type} {fl : Pathlib.flavour}
    (output_dir : Pathlib.path) (path : string)
    (os : list (string * outcome A)) : option A :=
  match os with
  | [] => None
  | (_, o) :: rest =>
      match saved_at output_dir path rest with
      | Some sprite => Some sprite
      | None =>
          match o with
          | Saved sprite_filename sprite =>
              if String.eqb (Pathlib.joinpath output_dir sprite_filename) path
              then Some sprite else None
          | _ => None
          end
      end
  end.

(** The class of an exception. *)
Definition cls_of (e : exn) : exn_class :=
  match e with Exn cls _ => cls end.

(** The lines "Saved: ..." *)
Definition is_saved_line (l : line) : bool :=
  match l with Saved_line _ => true | _ => false end.

(** A name in which no separator of the system's paths occurs. *)
Definition plain {fl : Pathlib.flavour} (s : string) : bool :=
  Str.all_chars (fun c => negb (Pathlib.is_sep c)) s.

(** A string ends with [suffix]. *)
Definition ends_with (suffix s : string) : Prop :=
  exists front, s = front +:+ suffix.

(** [float] accepts [t] and [int] accepts the float. *)
Definition converts (t : string) : bool := is_ok (int_of_float_str t).

(** A numeral without a point: one digit or more. *)
Definition is_integer (t : string) : bool :=
  Str.all_chars Float.is_digit t && negb (String.eqb t "").

(** A numeral with a minus sign before it, or as it is. *)
Definition signed (minus : bool) (t : string) : string :=
  if minus then "-" +:+ t else t.

(** [sep in s]: the string [sep] occurs somewhere in [s]. *)
Fixpoint occurs (sep s : string) : bool :=
  match s with
  | EmptyString => false
  | String _ s' => String.prefix sep s || occurs sep s'
  end.

(** ** [main] and the file dialogs *)

(** [pick_file title filetypes]: the path chosen in the dialog, the empty
    string when the dialog is cancelled, or the exception of a dialog that
    cannot be shown.  The dialogs are the user's, like the files. *)
Class Desktop : Type := {
  pick_file : string -> list (string * string) -> result string
}.

Definition newline : string := String "010" "".

(** The text printed by [show_help]. *)
Definition help_text : string :=
  newline
  +:+ "MHwPlistSplitter - PNG Sprite Sheet Splitter" +:+ newline
  +:+ "by MalikHw47" +:+ newline
  +:+ "Github: https://github.com/MalikHw" +:+ newline
  +:+ "YouTube: @MalikHw47" +:+ newline
  +:+ newline
  +:+ "Usage:" +:+ newline
  +:+ "    python mhw_plist_splitter.py" +:+ newline
  +:+ newline
  +:+ "This tool will:" +:+ newline
  +:+ "1. Prompt you to select a plist file" +:+ newline
  +:+ "2. Prompt you to select a PNG file" +:+ newline
  +:+ "3. Split the PNG based on the plist data" +:+ newline
  +:+ "4. Save sprites to: %USERPROFILE%\Documents\MHwPlistSplitter\[original-plist-filename]\"
  +:+ newline.

(** What [main] does that can be observed: its own prints, the dialogs it
    opens, the prints of [split_sprites], the error it reports and the
    traceback of an exception that nothing catches. *)
Inductive event : Type :=
  | Printed (text : string)
  | Dialog (title : string)
  | Script (l : line)
  | Printed_error (e : exn)
  | Traceback (e : exn).

Definition plist_filetypes : list (string * string) :=
  [("Plist files", "*.plist"); ("All files", "*.*")].

Definition png_filetypes : list (string * string) :=
  [("PNG files", "*.png"); ("All files", "*.*")].

(** ["-" * 40] *)
Definition rule : string :=
  String.concat "" (List.repeat "-" 40).

Section Main.

Context `{Env} `{Desktop}.

(** How the process ends: the events in order, the exit status, the files,
    and the run of [split_sprites] when there was one. *)
Record main_run : Type := Main_run {
  trace : list event;
  exit_code : Z;
  final_files : gmap string Image;
  script_run : option run
}.

Definition show_help : list event := [Printed help_text].

(** [main], for the value [help] of [args.help], on a console that takes
    every line: an exception that is not caught ends the process with
    status 1, [sys.exit(1)] does too, and a return ends it with
    status 0.  [Console.main] below is [main] on any console. *)
Definition main (help : bool) (files0 : gmap string Image) : main_run :=
  if help then Main_run show_help 0 files0 None
  else
    let t0 := [Printed "MHwPlistSplitter by MalikHw47"; Printed rule;
               Printed (newline +:+ "1. Select a plist file...");
               Dialog "Select plist file"] in
    match pick_file "Select plist file" plist_filetypes with
    | Raise e => Main_run (t0 ++ [Traceback e]) 1 files0 None
    | Ok plist_path =>
        if String.eqb plist_path ""
        then Main_run (t0 ++ [Printed "No plist file selected. Exiting."])
                      0 files0 None
        else
          let t1 := t0 ++ [Printed (newline +:+ "2. Select a PNG file...");
                           Dialog "Select PNG file"] in
          match pick_file "Select PNG file" png_filetypes with
          | Raise e => Main_run (t1 ++ [Traceback e]) 1 files0 None
          | Ok png_path =>
              if String.eqb png_path ""
              then Main_run (t1 ++ [Printed "No PNG file selected. Exiting."])
                            0 files0 None
              else
                let r := split_sprites plist_path png_path files0 in
                let t2 := t1 ++ [Printed (newline +:+ "3. Splitting sprites...")]
                             ++ List.map Script (stdout r) in
                match status r with
                | Ok _ => Main_run t2 0 (files r) (Some r)
                | Raise e =>
                    Main_run (t2 ++ [Printed_error e]) 1 (files r) (Some r)
                end
          end
    end.

End Main.

(** ** The console

    [print] can raise: the console may be closed, or lack a character of
    the line.  [process_frames], [split_sprites] and [main] above are the
    script on a console that takes every line; here is the script on any
    console. *)
Module Console.

(** [console printed l]: the exception [print] raises for [l] when
    [printed] is what has been shown so far, if the console does not take
    the line. *)
Definition t (A : Type) : Type := list A -> A -> option exn.

(** [print(l)]: the line is shown, or nothing is and [print] raises. *)
Definition print {A : Type} (console : t A) (printed : list A) (l : A)
  : list A * result unit :=
  match console printed l with
  | Some e => (printed, Raise e)
  | None => (printed ++ [l], Ok tt)
  end.

(** Several calls of [print] in a row: the first that raises ends them. *)
Fixpoint prints {A : Type} (console : t A) (printed : list A) (ls : list A)
  : list A * result unit :=
  match ls with
  | [] => (printed, Ok tt)
  | l :: rest =>
      match print console printed l with
      | (printed1, Ok _) => prints console printed1 rest
      | (printed1, Raise e) => (printed1, Raise e)
      end
  end.

Section Script.

Context `{Env} (console : t line).

(** Lines 99-127 with their prints.  The lines 107 and 124 are printed
    inside the [try]: when the console refuses one, the exception is
    caught like any other, after the file was written and counted.  The
    line 127 is printed by the handler, outside any [try]: when the
    console refuses it, the exception leaves the loop. *)
Definition process_sprite (img : Image) (output_dir : Pathlib.path)
    (files : gmap string Image) (printed : list line)
    (sprite_name : string) (sprite_data : PValue)
  : gmap string Image * list line * outcome Image * result unit :=
  let '(files1, o) := process_sprite img output_dir files sprite_name sprite_data in
  match o with
  | Failed e =>
      let '(printed1, s) := print console printed (Error_processing sprite_name e) in
      (files1, printed1, o, s)
  | _ =>
      match print console printed (line_of (sprite_name, o)) with
      | (printed1, Ok _) => (files1, printed1, o, Ok tt)
      | (printed1, Raise e) =>
          let '(printed2, s) :=
            print console printed1 (Error_processing sprite_name e) in
          (files1, printed2, o, s)
      end
  end.

(** The loop: it ends with the items, or with the exception that leaves
    it. *)
Fixpoint process_frames (img : Image) (output_dir : Pathlib.path)
    (files : gmap string Image) (printed : list line)
    (items : list (string * PValue))
  : gmap string Image * list line * list (string * outcome Image) * result unit :=
  match items with
  | [] => (files, printed, [], Ok tt)
  | (sprite_name, sprite_data) :: rest =>
      match process_sprite img output_dir files printed sprite_name sprite_data with
      | (files1, printed1, o, Raise e) =>
          (files1, printed1, [(sprite_name, o)], Raise e)
      | (files1, printed1, o, Ok _) =>
          let '(files2, printed2, os, s) :=
            process_frames img output_dir files1 printed1 rest in
          (files2, printed2, (sprite_name, o) :: os, s)
      end
  end.

(** [split_sprites], lines 78-129: [count] is incremented before the line
    124 is printed, so it counts the sprites saved. *)
Definition split_sprites (plist_path png_path : string)
    (files0 : gmap string Image) : run :=
  let output_dir := output_dir_of plist_path in
  match mkdir output_dir with
  | Raise e => Run files0 [] [] (Raise e)
  | Ok _ =>
      match prints console []
              [Reading_plist plist_path; Reading_PNG png_path;
               Output_directory output_dir] with
      | (head, Raise e) => Run files0 head [] (Raise e)
      | (head, Ok _) =>
          match parse_plist plist_path with
          | Raise e => Run files0 head [] (Raise e)
          | Ok frames =>
              match Image_open png_path with
              | Raise e => Run files0 head [] (Raise e)
              | Ok img =>
                  match frames with
                  | PDict items =>
                      match process_frames img (output_path_of plist_path)
                              files0 head items with
                      | (files1, printed, os, Raise e) =>
                          Run files1 printed os (Raise e)
                      | (files1, printed, os, Ok _) =>
                          let count := List.length (List.filter is_saved os) in
                          let '(printed1, s) :=
                            print console printed (Done count output_dir) in
                          Run files1 printed1 os s
                      end
                  | _ => Run files0 head []
                             (Raise (Exn AttributeError "object has no attribute 'items'"))
                  end
              end
          end
      end
  end.

End Script.

Section Main.

Context `{Env} `{Desktop} (console : t event).

(** An exception that nothing catches: the traceback, and status 1. *)
Definition uncaught (trace : list event) (e : exn)
    (files : gmap string Image) (r : option run) : main_run :=
  Main_run (trace ++ [Traceback e]) 1 files r.

(** The last print before [main] returns. *)
Definition print_and_return (trace : list event) (ev : event)
    (files : gmap string Image) : main_run :=
  match print console trace ev with
  | (trace1, Ok _) => Main_run trace1 0 files None
  | (trace1, Raise e) => uncaught trace1 e files None
  end.

(** [main], lines 132-173: [split_sprites] prints on the same console,
    after what [main] has shown. *)
Definition main (help : bool) (files0 : gmap string Image) : main_run :=
  if help then print_and_return [] (Printed help_text) files0
  else
    match prints console []
            [Printed "MHwPlistSplitter by MalikHw47"; Printed rule;
             Printed (newline +:+ "1. Select a plist file...")] with
    | (trace, Raise e) => uncaught trace e files0 None
    | (trace, Ok _) =>
        let t0 := trace ++ [Dialog "Select plist file"] in
        match pick_file "Select plist file" plist_filetypes with
        | Raise e => uncaught t0 e files0 None
        | Ok plist_path =>
            if String.eqb plist_path ""
            then print_and_return t0 (Printed "No plist file selected. Exiting.")
                                  files0
            else
              match print console t0
                      (Printed (newline +:+ "2. Select a PNG file...")) with
              | (trace, Raise e) => uncaught trace e files0 None
              | (trace, Ok _) =>
                  let t1 := trace ++ [Dialog "Select PNG file"] in
                  match pick_file "Select PNG file" png_filetypes with
                  | Raise e => uncaught t1 e files0 None
                  | Ok png_path =>
                      if String.eqb png_path ""
                      then print_and_return t1
                             (Printed "No PNG file selected. Exiting.") files0
                      else
                        match print console t1
                                (Printed (newline +:+ "3. Splitting sprites...")) with
                        | (trace, Raise e) => uncaught trace e files0 None
                        | (t2, Ok _) =>
                            let r :=
                              split_sprites
                                (fun printed l =>
                                   console (t2 ++ List.map Script printed) (Script l))
                                plist_path png_path files0 in
                            let t3 := t2 ++ List.map Script (stdout r) in
                            match status r with
                            | Ok _ => Main_run t3 0 (files r) (Some r)
                            | Raise e =>
                                match print console t3 (Printed_error e) with
                                | (trace, Ok _) =>
                                    Main_run trace 1 (files r) (Some r)
                                | (trace, Raise e') =>
                                    uncaught trace e' (files r) (Some r)
                                end
                            end
                        end
                  end
              end
        end
    end.

End Main.

(** The console that takes every line. *)
Definition quiet {A : Type} : t A := fun _ _ => None.

(** A console that is closed once [n] lines were shown, like a pipe whose
    reader stops reading. *)
Definition closed_after {A : Type} (n : nat) : t A :=
  fun shown _ =>
    if (n <=? List.length shown)%nat then Some (Exn OSError "Broken pipe")
    else None.

End Console.

(** ** Users for the examples *)
Module User.

(** A user who picks the same two files in every run. *)
Definition picks (plist_path png_path : string) : Desktop := {|
  pick_file := fun title _ =>
    if String.eqb title "Select plist file" then Ok plist_path else Ok png_path
|}.

(** A user who cancels the first dialog. *)
Definition cancels : Desktop := picks "" "sheet.png".

End User.

(** The events that show an error: the report of [main] and the
    traceback of the interpreter. *)
Definition is_error_event (ev : event) : bool :=
  match ev with Printed_error _ | Traceback _ => true | _ => false end.

(** * Properties *)

(** ** Strings *)
Section StrFacts.

Lemma app_cons (c : ascii) (s t : string) : String c s +:+ t = String c (s +:+ t).
Proof. reflexivity. Qed.

Lemma app_nil_r (s : string) : s +:+ "" = s.
Proof. induction s as [|c s IH]; [reflexivity|]. by rewrite app_cons, IH. Qed.

Lemma app_assoc (a b c : string) : (a +:+ b) +:+ c = a +:+ b +:+ c.
Proof. induction a as [|x a IH]; [reflexivity|]. by rewrite !app_cons, IH. Qed.

Lemma all_chars_app (p : ascii -> bool) (a b : string) :
  Str.all_chars p (a +:+ b) = Str.all_chars p a && Str.all_chars p b.
Proof.
  induction a as [|x a IH]; [reflexivity|].
  rewrite ?app_cons; simpl. rewrite IH. by rewrite andb_assoc.
Qed.

Lemma all_chars_impl (p q : ascii -> bool) (s : string) :
  (forall c, p c = true -> q c = true) ->
  Str.all_chars p s = true -> Str.all_chars q s = true.
Proof.
  intros Hpq. induction s as [|c s IH]; simpl; [done|].
  rewrite !andb_true_iff. intros [Hc Hs]. split; auto.
Qed.

Lemma lstrip_by_app (p : ascii -> bool) (a s : string) :
  Str.all_chars p a = true -> Str.lstrip_by p (a +:+ s) = Str.lstrip_by p s.
Proof.
  induction a as [|x a IH]; simpl; [done|].
  rewrite andb_true_iff. intros [Hx Ha]. rewrite ?app_cons; simpl.
  rewrite Hx. auto.
Qed.

Lemma rstrip_by_all (p : ascii -> bool) (r : string) :
  Str.all_chars p r = true -> Str.rstrip_by p r = "".
Proof.
  induction r as [|x r IH]; simpl; [done|].
  rewrite andb_true_iff. intros [Hx Hr]. by rewrite IH, Hx.
Qed.

Lemma rstrip_by_clean (p : ascii -> bool) (t r : string) :
  Str.all_chars (fun c => negb (p c)) t = true ->
  Str.all_chars p r = true ->
  Str.rstrip_by p (t +:+ r) = t.
Proof.
  intros Ht Hr. induction t as [|x t IH]; simpl in *.
  - by apply rstrip_by_all.
  - apply andb_true_iff in Ht as [Hx Ht]. rewrite ?app_cons; simpl.
    rewrite (IH Ht). apply negb_true_iff in Hx. rewrite Hx. by destruct t.
Qed.

Lemma rstrip_by_app (p : ascii -> bool) (a b : string) (c : ascii) (b' : string) :
  Str.rstrip_by p b = String c b' ->
  Str.rstrip_by p (a +:+ b) = a +:+ String c b'.
Proof.
  intros Hb. induction a as [|x a IH]; [done|].
  rewrite ?app_cons; simpl. rewrite IH. by destruct a.
Qed.

(** Stripping removes the characters of [l] and [r] and stops at a body
    whose first and last characters are kept. *)
Lemma strip_by_body (p : ascii -> bool) (l r t u v : string) (c d : ascii) :
  Str.all_chars p l = true -> Str.all_chars p r = true ->
  Str.all_chars (fun c => negb (p c)) t = true ->
  Str.all_chars (fun c => negb (p c)) v = true ->
  p c = false -> p d = false ->
  Str.strip_by p (l +:+ (t +:+ String c u +:+ String d v) +:+ r)
  = t +:+ String c u +:+ String d v.
Proof.
  intros Hl Hr Ht Hv Hc Hd. unfold Str.strip_by.
  rewrite lstrip_by_app by done.
  assert (Str.lstrip_by p ((t +:+ String c u +:+ String d v) +:+ r)
          = (t +:+ String c u +:+ String d v) +:+ r) as ->.
  { destruct t as [|x t]; rewrite ?app_cons; simpl.
    - by rewrite Hc.
    - simpl in Ht. apply andb_true_iff in Ht as [Hx _].
      apply negb_true_iff in Hx. by rewrite Hx. }
  rewrite !app_assoc. rewrite !app_cons.
  assert (Str.rstrip_by p (String d (v +:+ r)) = String d v) as Hd'.
  { rewrite <- app_cons. apply rstrip_by_clean; [|done].
    simpl. by rewrite Hc || rewrite Hd, Hv. }
  rewrite <- (app_cons c). rewrite <- app_assoc.
  by rewrite (rstrip_by_app _ _ _ _ _ Hd'), app_assoc.
Qed.

Lemma strip_by_clean (p : ascii -> bool) (t : string) :
  Str.all_chars (fun c => negb (p c)) t = true -> Str.strip_by p t = t.
Proof.
  intros Ht. unfold Str.strip_by.
  assert (Str.lstrip_by p t = t) as ->.
  { destruct t as [|x t]; simpl in *; [done|].
    apply andb_true_iff in Ht as [Hx _]. apply negb_true_iff in Hx. by rewrite Hx. }
  rewrite <- (app_nil_r t) at 1. by apply rstrip_by_clean.
Qed.

(** White space around a body free of white space is stripped. *)
Lemma strip_by_pad (p : ascii -> bool) (a t b : string) :
  Str.all_chars p a = true -> Str.all_chars p b = true ->
  Str.all_chars (fun c => negb (p c)) t = true ->
  Str.strip_by p (a +:+ t +:+ b) = t.
Proof.
  intros Ha Hb Ht. unfold Str.strip_by. rewrite lstrip_by_app by done.
  destruct t as [|x t].
  - simpl. rewrite app_nil_r || idtac.
    change ("" +:+ b) with b.
    assert (Str.lstrip_by p b = "") as ->; [|done].
    clear -Hb. induction b as [|y b IH]; simpl in *; [done|].
    apply andb_true_iff in Hb as [Hy Hb]. rewrite Hy. auto.
  - pose proof Ht as Ht'. simpl in Ht'. apply andb_true_iff in Ht' as [Hx _].
    apply negb_true_iff in Hx. rewrite ?app_cons; simpl. rewrite Hx.
    rewrite <- app_cons. by apply rstrip_by_clean.
Qed.

Lemma prefix_nil (s : string) : String.prefix "" s = true.
Proof. by destruct s. Qed.

Lemma prefix_app (a s : string) : String.prefix a (a +:+ s) = true.
Proof.
  induction a as [|x a IH]; [apply prefix_nil|].
  rewrite ?app_cons; simpl. by destruct (ascii_dec x x).
Qed.

Lemma prefix_head_ne (c0 c : ascii) (sep' s : string) :
  Ascii.eqb c c0 = false -> String.prefix (String c0 sep') (String c s) = false.
Proof.
  intros Hc. simpl. destruct (ascii_dec c0 c) as [->|]; [|done].
  by rewrite Ascii.eqb_refl in Hc.
Qed.

Lemma split_from_skip (sep a s : string) :
  Str.split_from sep (String.length a) (a +:+ s) = Str.split_from sep 0 s.
Proof. induction a as [|x a IH]; [done|]. rewrite ?app_cons; simpl. done. Qed.

Lemma split_from_sep (c0 : ascii) (sep' s : string) :
  Str.split_from (String c0 sep') 0 (String c0 sep' +:+ s)
  = "" :: Str.split_from (String c0 sep') 0 s.
Proof.
  rewrite app_cons.
  change (Str.split_from (String c0 sep') 0 (String c0 (sep' +:+ s)))
    with (if String.prefix (String c0 sep') (String c0 (sep' +:+ s))
          then "" :: Str.split_from (String c0 sep')
                       (String.length (String c0 sep') - 1) (sep' +:+ s)
          else match Str.split_from (String c0 sep') 0 (sep' +:+ s) with
               | p :: ps => String c0 p :: ps
               | [] => [String c0 ""]
               end).
  rewrite <- app_cons, prefix_app.
  replace (String.length (String c0 sep') - 1)%nat with (String.length sep')
    by (simpl; lia).
  by rewrite split_from_skip.
Qed.

Lemma split_from_cons (sep : string) (k : nat) (s : string) :
  exists p ps, Str.split_from sep k s = p :: ps.
Proof.
  revert k. induction s as [|x s IH]; intros k.
  - by exists "", [].
  - destruct k as [|k]; [|apply IH]. cbn [Str.split_from].
    destruct (String.prefix sep (String x s)).
    + by eexists _, _.
    + destruct (IH 0%nat) as (p & ps & ->). by eexists _, _.
Qed.

(** A piece in which the first character of the separator does not occur
    is passed whole. *)
Lemma split_from_piece (c0 : ascii) (sep' t s p : string) (ps : list string) :
  Str.all_chars (fun c => negb (Ascii.eqb c c0)) t = true ->
  Str.split_from (String c0 sep') 0 s = p :: ps ->
  Str.split_from (String c0 sep') 0 (t +:+ s) = (t +:+ p) :: ps.
Proof.
  intros Ht Hs. induction t as [|x t IH]; [done|].
  simpl in Ht. apply andb_true_iff in Ht as [Hx Ht].
  apply negb_true_iff in Hx. rewrite app_cons.
  change (Str.split_from (String c0 sep') 0 (String x (t +:+ s)))
    with (if String.prefix (String c0 sep') (String x (t +:+ s))
          then "" :: Str.split_from (String c0 sep')
                       (String.length (String c0 sep') - 1) (t +:+ s)
          else match Str.split_from (String c0 sep') 0 (t +:+ s) with
               | p :: ps => String x p :: ps
               | [] => [String x ""]
               end).
  by rewrite (prefix_head_ne _ _ _ _ Hx), (IH Ht).
Qed.

Lemma split_last (c0 : ascii) (sep' t : string) :
  Str.all_chars (fun c => negb (Ascii.eqb c c0)) t = true ->
  Str.split (String c0 sep') t = [t].
Proof.
  intros Ht. unfold Str.split. rewrite <- (app_nil_r t) at 1.
  rewrite (split_from_piece _ _ _ _ "" []) by done. by rewrite app_nil_r.
Qed.

(** Two pieces around one separator. *)
Lemma split_two (c0 : ascii) (sep' a b : string) :
  Str.all_chars (fun c => negb (Ascii.eqb c c0)) a = true ->
  Str.all_chars (fun c => negb (Ascii.eqb c c0)) b = true ->
  Str.split (String c0 sep') (a +:+ String c0 sep' +:+ b) = [a; b].
Proof.
  intros Ha Hb. unfold Str.split.
  rewrite (split_from_piece _ _ _ _ "" [b]); [by rewrite app_nil_r|done|].
  rewrite split_from_sep. f_equal. by apply split_last.
Qed.

End StrFacts.

(** ** Characters *)
Section CharFacts.

Lemma digit_or_point_plain (c : ascii) :
  Float.is_digit c || Ascii.eqb c "." = true ->
  Str.in_chars "{}," c = false /\ Float.is_space c = false
  /\ Ascii.eqb c "_" = false /\ Ascii.eqb c "-" = false
  /\ Ascii.eqb c "+" = false /\ Str.lower_char c = c
  /\ Ascii.eqb c "i" = false /\ Ascii.eqb c "n" = false.
Proof. destruct c as [[] [] [] [] [] [] [] []]; vm_compute; intros; done. Qed.

Lemma space_plain (c : ascii) :
  Float.is_space c = true -> Str.in_chars "{}," c = false.
Proof. destruct c as [[] [] [] [] [] [] [] []]; vm_compute; intros; done. Qed.

Lemma component_no_brace (c : ascii) :
  negb (Str.in_chars "{}," c) = true -> negb (Str.in_chars "{}" c) = true.
Proof.
  unfold Str.in_chars. simpl.
  destruct (Ascii.eqb c "{"), (Ascii.eqb c "}"), (Ascii.eqb c ","); done.
Qed.

Lemma component_no_close (c : ascii) :
  negb (Str.in_chars "{}," c) = true -> negb (Ascii.eqb c "}") = true.
Proof.
  unfold Str.in_chars. simpl.
  destruct (Ascii.eqb c "{"), (Ascii.eqb c "}"), (Ascii.eqb c ","); done.
Qed.

Lemma component_no_comma (c : ascii) :
  negb (Str.in_chars "{}," c) = true -> negb (Ascii.eqb c ",") = true.
Proof.
  unfold Str.in_chars. simpl.
  destruct (Ascii.eqb c "{"), (Ascii.eqb c "}"), (Ascii.eqb c ","); done.
Qed.

End CharFacts.

(** ** Numerals and [float] *)
Section FloatFacts.

Lemma span_spec (p : ascii -> bool) (s a b : string) :
  Str.span p s = (a, b) ->
  s = a +:+ b /\ Str.all_chars p a = true.
Proof.
  revert a b. induction s as [|c s IH]; intros a b; simpl.
  - intros [= <- <-]. done.
  - destruct (p c) eqn:Hc.
    + destruct (Str.span p s) as [a' b'] eqn:Hs. intros [= <- <-].
      destruct (IH _ _ eq_refl) as [-> Ha]. simpl. by rewrite Hc, Ha.
    + intros [= <- <-]. done.
Qed.

Lemma span_all (p : ascii -> bool) (s : string) :
  Str.all_chars p s = true -> Str.span p s = (s, "").
Proof.
  induction s as [|c s IH]; simpl; [done|].
  rewrite andb_true_iff. intros [Hc Hs]. by rewrite Hc, (IH Hs).
Qed.

(** The integer and the fractional digits of a numeral. *)
Lemma is_numeral_inv (s : string) :
  is_numeral s = true ->
  exists ip fp r,
    Str.span Float.is_digit s = (ip, r) /\ s = ip +:+ r
    /\ Str.all_chars Float.is_digit ip = true
    /\ Str.all_chars Float.is_digit fp = true
    /\ (r = "" /\ fp = "" \/ r = String "." fp)
    /\ (ip = "" -> fp = "" -> False).
Proof.
  unfold is_numeral. destruct (Str.span Float.is_digit s) as [ip r] eqn:Hs.
  destruct (span_spec _ _ _ _ Hs) as [-> Hip]. destruct r as [|c fp].
  - intros Hne. exists ip, "", "". repeat split; auto.
    intros -> _. done.
  - rewrite !andb_true_iff, negb_true_iff, andb_false_iff.
    intros [[Hc Hfp] Hne]. apply Ascii.eqb_eq in Hc as ->.
    exists ip, fp, (String "." fp). repeat split; auto.
    intros -> ->. by destruct Hne.
Qed.

Lemma numeral_chars (s : string) :
  is_numeral s = true ->
  Str.all_chars (fun c => Float.is_digit c || Ascii.eqb c ".") s = true.
Proof.
  intros (ip & fp & r & _ & -> & Hip & Hfp & Hr & _)%is_numeral_inv.
  rewrite all_chars_app. apply andb_true_iff. split.
  - eapply all_chars_impl; [|exact Hip]. intros c ->. done.
  - destruct Hr as [[-> _]| ->]; [done|]. simpl.
    eapply all_chars_impl; [|exact Hfp]. intros c ->. done.
Qed.

Lemma numeral_component (s : string) : is_numeral s = true -> is_component s = true.
Proof.
  intros Hs%numeral_chars. eapply all_chars_impl; [|exact Hs].
  intros c Hc. by destruct (digit_or_point_plain c Hc) as (-> & _).
Qed.

Lemma numeral_not_empty (s : string) : is_numeral s = true -> s <> "".
Proof.
  intros (ip & fp & r & _ & -> & _ & _ & Hr & Hne)%is_numeral_inv Hs.
  destruct ip; [|done]. destruct Hr as [[-> ->]| ->]; [by apply Hne|done].
Qed.

Lemma underscores_ok_plain (prev : option ascii) (s : string) :
  Str.all_chars (fun c => negb (Ascii.eqb c "_")) s = true ->
  match prev with Some d => Ascii.eqb d "_" = false | None => True end ->
  Float.underscores_ok prev s = true.
Proof.
  revert prev. induction s as [|c s IH]; intros prev Hs Hprev; simpl in *.
  - destruct prev; [by rewrite Hprev|done].
  - apply andb_true_iff in Hs as [Hc Hs]. apply negb_true_iff in Hc.
    rewrite Hc. rewrite IH by done.
    destruct prev as [d|]; [rewrite Hprev|]; done.
Qed.

Lemma remove_underscores_plain (s : string) :
  Str.all_chars (fun c => negb (Ascii.eqb c "_")) s = true ->
  Float.remove_underscores s = s.
Proof.
  induction s as [|c s IH]; simpl; [done|].
  rewrite andb_true_iff, negb_true_iff. intros [-> Hs]. by rewrite IH.
Qed.

Lemma read_number_numeral (s : string) :
  is_numeral s = true -> Float.read_number s = Some (numeral_float s).
Proof.
  intros Hs. pose proof (numeral_chars s Hs) as Hch.
  pose proof (numeral_not_empty s Hs) as Hne.
  destruct (is_numeral_inv s Hs) as (ip & fp & r & Hspan & Heq & Hip & Hfp & Hr & Hd).
  unfold Float.read_number, numeral_float.
  destruct s as [|c s']; [done|]. simpl in Hch.
  apply andb_true_iff in Hch as [Hc _].
  destruct (digit_or_point_plain c Hc) as (_ & _ & _ & Hm & Hp & Hl & Hi & Hn).
  assert (Float.read_sign (String c s') = (false, String c s')) as ->.
  { unfold Float.read_sign.
    destruct c as [[] [] [] [] [] [] [] []]; try done; by vm_compute in Hm, Hp. }
  assert (String.eqb (Str.lower (String c s')) "inf" = false) as ->.
  { simpl. by rewrite Hl, Hi. }
  assert (String.eqb (Str.lower (String c s')) "infinity" = false) as ->.
  { simpl. by rewrite Hl, Hi. }
  assert (String.eqb (Str.lower (String c s')) "nan" = false) as ->.
  { simpl. by rewrite Hl, Hn. }
  cbn [orb]. rewrite Hspan.
  destruct Hr as [[-> ->]| ->].
  - simpl. destruct ip; [by exfalso; apply Hd|].
    by rewrite Z.sub_0_l.
  - rewrite (span_all _ _ Hfp). simpl.
    destruct ip, fp; try (by exfalso; apply Hd); by rewrite ?Z.sub_0_l.
Qed.

Lemma of_stripped_numeral (s : string) :
  is_numeral s = true -> Float.of_stripped s = Some (numeral_float s).
Proof.
  intros Hs. unfold Float.of_stripped.
  assert (Str.all_chars (fun c => negb (Ascii.eqb c "_")) s = true) as Hu.
  { eapply all_chars_impl; [|exact (numeral_chars s Hs)].
    intros c Hc. by destruct (digit_or_point_plain c Hc) as (_ & _ & -> & _). }
  rewrite underscores_ok_plain, remove_underscores_plain by done.
  by apply read_number_numeral.
Qed.

(** [float] accepts a numeral, with or without white space around it. *)
Lemma of_str_numeral_pad (a s b : string) :
  Str.all_chars Float.is_space a = true ->
  Str.all_chars Float.is_space b = true ->
  is_numeral s = true ->
  Float.of_str (a +:+ s +:+ b) = Ok (numeral_float s).
Proof.
  intros Ha Hb Hs. unfold Float.of_str, Float.strip_space.
  rewrite strip_by_pad; [by rewrite of_stripped_numeral|done|done|].
  eapply all_chars_impl; [|exact (numeral_chars s Hs)].
  intros c Hc. by destruct (digit_or_point_plain c Hc) as (_ & -> & _).
Qed.

Lemma of_str_numeral (s : string) :
  is_numeral s = true -> Float.of_str s = Ok (numeral_float s).
Proof.
  intros Hs. rewrite <- (of_str_numeral_pad "" s "") by done.
  by rewrite app_nil_r.
Qed.

(** [int] of a finite float is its integer part: nothing is added to the
    magnitude, and less than one is dropped. *)
Lemma trunc_toward_zero (s : bool) (m : positive) (e : Z) :
  let z := Float.trunc (S754_finite s m e) in
  z = cond_Zopp s (Z.abs z)
  /\ (0 <= e -> Z.abs z = Zpos m * 2 ^ e)
  /\ (e < 0 -> Z.abs z * 2 ^ (- e) <= Zpos m < (Z.abs z + 1) * 2 ^ (- e)).
Proof.
  simpl. destruct (Z.leb_spec 0 e) as [He|He].
  - rewrite Z.shiftl_mul_pow2 by done.
    assert (0 < Zpos m * 2 ^ e) by (apply Z.mul_pos_pos; [lia|by apply Z.pow_pos_nonneg]).
    destruct s; simpl; repeat split; try lia.
  - rewrite Z.shiftr_div_pow2 by lia.
    assert (0 < 2 ^ (- e)) as Hp by (apply Z.pow_pos_nonneg; lia).
    assert (0 <= Zpos m / 2 ^ (- e)) as Hq by (apply Z.div_pos; lia).
    pose proof (Z.mul_div_le (Zpos m) _ Hp).
    pose proof (Z.mul_succ_div_gt (Zpos m) _ Hp).
    destruct s; simpl; repeat split; try lia.
Qed.

Lemma to_int_finite (f : spec_float) :
  Float.is_finite f = true -> Float.to_int f = Ok (Float.trunc f).
Proof. by destruct f. Qed.

End FloatFacts.

(** ** [parse_rect_string] *)
Section RectFacts.

Lemma rect_body_ends (tx ty tw th : string) :
  rect_body tx ty tw th
  = tx +:+ String "," (ty +:+ "},{" +:+ tw) +:+ String "," th.
Proof.
  unfold rect_body. f_equal.
  change (String "," (ty +:+ "},{" +:+ tw +:+ "," +:+ th)
          = String "," ((ty +:+ "},{" +:+ tw) +:+ "," +:+ th)).
  by rewrite !app_assoc.
Qed.

Lemma rect_body_halves (tx ty tw th : string) :
  rect_body tx ty tw th = (tx +:+ "," +:+ ty) +:+ "},{" +:+ (tw +:+ "," +:+ th).
Proof. unfold rect_body. by rewrite !app_assoc. Qed.

Lemma component_pair (p : ascii -> bool) (a b : string) :
  (forall c, negb (Str.in_chars "{}," c) = true -> p c = true) ->
  p ","%char = true ->
  is_component a = true -> is_component b = true ->
  Str.all_chars p (a +:+ "," +:+ b) = true.
Proof.
  intros Hp Hc Ha Hb. rewrite !all_chars_app.
  rewrite (all_chars_impl _ p a Hp Ha), (all_chars_impl _ p b Hp Hb).
  simpl. by rewrite Hc.
Qed.

Lemma split_pair (a b : string) :
  is_component a = true -> is_component b = true ->
  Str.split "," (Str.strip "{}" (a +:+ "," +:+ b)) = [a; b].
Proof.
  intros Ha Hb. unfold Str.strip.
  rewrite strip_by_clean
    by (apply (component_pair (fun c => negb (Str.in_chars "{}" c)));
        auto using component_no_brace).
  apply (split_two "," "").
  - eapply all_chars_impl; [|exact Ha]. apply component_no_comma.
  - eapply all_chars_impl; [|exact Hb]. apply component_no_comma.
Qed.

(** The shape of a rectangle string: any braces around the body, and four
    components without brace or comma.  The string is cut into the four
    components, which are converted in turn. *)
Lemma parse_rect_string_components (l r tx ty tw th : string) :
  Str.all_chars is_brace l = true -> Str.all_chars is_brace r = true ->
  is_component tx = true -> is_component ty = true ->
  is_component tw = true -> is_component th = true ->
  parse_rect_string (PStr (l +:+ rect_body tx ty tw th +:+ r))
  = (let* (x, y) := unpack2_float [tx; ty] in
     let* (w, h) := unpack2_float [tw; th] in
     let* ix := Float.to_int x in
     let* iy := Float.to_int y in
     let* iw := Float.to_int w in
     let* ih := Float.to_int h in
     Ok (ix, iy, iw, ih)).
Proof.
  intros Hl Hr Hx Hy Hw Hh. unfold parse_rect_string.
  assert (Str.strip "{}" (l +:+ rect_body tx ty tw th +:+ r)
          = rect_body tx ty tw th) as ->.
  { unfold Str.strip. rewrite rect_body_ends.
    apply (strip_by_body (Str.in_chars "{}")); try done.
    - eapply all_chars_impl; [|exact Hx]. apply component_no_brace.
    - eapply all_chars_impl; [|exact Hh]. apply component_no_brace. }
  rewrite rect_body_halves.
  rewrite (split_two "}" ",{")
    by (apply (component_pair (fun c => negb (Ascii.eqb c "}")));
        auto using component_no_close).
  by rewrite !split_pair.
Qed.

Lemma unpack2_float_numerals (a1 tx b1 a2 ty b2 : string) :
  Str.all_chars Float.is_space a1 = true -> Str.all_chars Float.is_space b1 = true ->
  Str.all_chars Float.is_space a2 = true -> Str.all_chars Float.is_space b2 = true ->
  is_numeral tx = true -> is_numeral ty = true ->
  unpack2_float [a1 +:+ tx +:+ b1; a2 +:+ ty +:+ b2]
  = Ok (numeral_float tx, numeral_float ty).
Proof.
  intros. unfold unpack2_float. by rewrite !of_str_numeral_pad.
Qed.

Lemma padded_component (a t b : string) :
  Str.all_chars Float.is_space a = true -> Str.all_chars Float.is_space b = true ->
  is_numeral t = true -> is_component (a +:+ t +:+ b) = true.
Proof.
  intros Ha Hb Ht. unfold is_component.
  rewrite !all_chars_app, !andb_true_iff. repeat split.
  - eapply all_chars_impl; [|exact Ha]. intros c Hc. by rewrite (space_plain c Hc).
  - exact (numeral_component t Ht).
  - eapply all_chars_impl; [|exact Hb]. intros c Hc. by rewrite (space_plain c Hc).
Qed.

(** A rectangle string whose components are numerals with white space
    around them, inside any braces. *)
Lemma parse_rect_string_padded (l r a1 tx b1 a2 ty b2 a3 tw b3 a4 th b4 : string) :
  Str.all_chars is_brace l = true -> Str.all_chars is_brace r = true ->
  Str.all_chars Float.is_space (a1 +:+ b1 +:+ a2 +:+ b2 +:+ a3 +:+ b3 +:+ a4 +:+ b4)
  = true ->
  is_numeral tx = true -> is_numeral ty = true ->
  is_numeral tw = true -> is_numeral th = true ->
  parse_rect_string
    (PStr (l +:+ rect_body (a1 +:+ tx +:+ b1) (a2 +:+ ty +:+ b2)
                           (a3 +:+ tw +:+ b3) (a4 +:+ th +:+ b4) +:+ r))
  = (let* ix := Float.to_int (numeral_float tx) in
     let* iy := Float.to_int (numeral_float ty) in
     let* iw := Float.to_int (numeral_float tw) in
     let* ih := Float.to_int (numeral_float th) in
     Ok (ix, iy, iw, ih)).
Proof.
  intros Hl Hr Hs Hx Hy Hw Hh.
  rewrite !all_chars_app, !andb_true_iff in Hs.
  destruct Hs as (?&?&?&?&?&?&?&?).
  rewrite parse_rect_string_components by auto using padded_component.
  by rewrite !unpack2_float_numerals.
Qed.

Lemma parse_rect_string_plain (tx ty tw th : string) :
  is_numeral tx = true -> is_numeral ty = true ->
  is_numeral tw = true -> is_numeral th = true ->
  parse_rect_string (PStr (rect_text tx ty tw th))
  = (let* ix := Float.to_int (numeral_float tx) in
     let* iy := Float.to_int (numeral_float ty) in
     let* iw := Float.to_int (numeral_float tw) in
     let* ih := Float.to_int (numeral_float th) in
     Ok (ix, iy, iw, ih)).
Proof.
  intros Hx Hy Hw Hh.
  pose proof (parse_rect_string_padded "{{" "}}" "" tx "" "" ty "" "" tw "" "" th "")
    as H.
  rewrite !app_nil_r in H. by apply H.
Qed.

End RectFacts.

(** C2.  For four non-negative numerals X, Y, W and H, possibly with
    fractional parts, [parse_rect_string] applied to the string
    ["{{X,Y},{W,H}}"] converts each of them with [float], which accepts
    them all, and returns the integer parts of the four floats, rounded
    toward zero by [int] ([trunc_toward_zero]): it returns exactly what
    [(int(float(X)), int(float(Y)), int(float(W)), int(float(H)))] does,
    the tuple of the truncated values whenever the four floats are finite
    (a numeral beyond the range of binary64 is read as infinity, of which
    [int] raises). *)
Theorem parse_rect_string_numerals (tx ty tw th : string) :
  is_numeral tx = true -> is_numeral ty = true ->
  is_numeral tw = true -> is_numeral th = true ->
  let fx := numeral_float tx in
  let fy := numeral_float ty in
  let fw := numeral_float tw in
  let fh := numeral_float th in
  (Float.of_str tx = Ok fx /\ Float.of_str ty = Ok fy
   /\ Float.of_str tw = Ok fw /\ Float.of_str th = Ok fh)
  /\ parse_rect_string (PStr (rect_text tx ty tw th))
     = (let* x := int_of_float_str tx in
        let* y := int_of_float_str ty in
        let* w := int_of_float_str tw in
        let* h := int_of_float_str th in
        Ok (x, y, w, h))
  /\ (Float.is_finite fx && Float.is_finite fy
      && Float.is_finite fw && Float.is_finite fh = true ->
      parse_rect_string (PStr (rect_text tx ty tw th))
      = Ok (Float.trunc fx, Float.trunc fy, Float.trunc fw, Float.trunc fh)).
Proof.
  intros Hx Hy Hw Hh fx fy fw fh.
  pose proof (parse_rect_string_plain tx ty tw th Hx Hy Hw Hh) as Hparse.
  split; [|split].
  - by rewrite !of_str_numeral.
  - rewrite Hparse. unfold int_of_float_str. by rewrite !of_str_numeral.
  - rewrite !andb_true_iff. intros [[[Fx Fy] Fw] Fh].
    rewrite Hparse. by rewrite !to_int_finite.
Qed.

(** The spec's example: ["{{1,2},{3.9,4.1}}"] parses to [(1, 2, 3, 4)]. *)
Lemma parse_rect_string_numerals_witness :
  is_numeral "1" = true /\ is_numeral "2" = true
  /\ is_numeral "3.9" = true /\ is_numeral "4.1" = true
  /\ parse_rect_string (PStr "{{1,2},{3.9,4.1}}") = Ok (1, 2, 3, 4).
Proof.
  refine (conj eq_refl (conj eq_refl (conj eq_refl (conj eq_refl _)))).
  exact (proj2 (proj2 (parse_rect_string_numerals "1" "2" "3.9" "4.1"
                         eq_refl eq_refl eq_refl eq_refl)) eq_refl).
Defined.

(** C8, as amended.  White space is accepted right around the four
    components, between a component and the brace or comma next to it,
    where [float] strips it: for numerals X, Y, W and H with any white
    space before and after each of them, [parse_rect_string] returns for
    ["{{ X , Y },{ W , H }}"] what it returns for ["{{X,Y},{W,H}}"]. *)
Theorem parse_rect_string_inner_space
    (a1 tx b1 a2 ty b2 a3 tw b3 a4 th b4 : string) :
  Str.all_chars Float.is_space (a1 +:+ b1 +:+ a2 +:+ b2 +:+ a3 +:+ b3 +:+ a4 +:+ b4)
  = true ->
  is_numeral tx = true -> is_numeral ty = true ->
  is_numeral tw = true -> is_numeral th = true ->
  parse_rect_string
    (PStr (rect_text (a1 +:+ tx +:+ b1) (a2 +:+ ty +:+ b2)
                     (a3 +:+ tw +:+ b3) (a4 +:+ th +:+ b4)))
  = parse_rect_string (PStr (rect_text tx ty tw th)).
Proof.
  intros Hs Hx Hy Hw Hh. unfold rect_text.
  rewrite (parse_rect_string_padded "{{" "}}") by done.
  symmetry. by apply parse_rect_string_plain.
Qed.

Lemma parse_rect_string_inner_space_witness :
  Str.all_chars Float.is_space (" " +:+ " " +:+ " " +:+ " " +:+ " " +:+ "" +:+ "" +:+ " ")
  = true
  /\ is_numeral "1" = true /\ is_numeral "2" = true
  /\ is_numeral "3.9" = true /\ is_numeral "4.1" = true
  /\ parse_rect_string (PStr "{{ 1 , 2 },{ 3.9,4.1 }}") = Ok (1, 2, 3, 4).
Proof.
  refine (conj eq_refl (conj eq_refl (conj eq_refl (conj eq_refl (conj eq_refl _))))).
  exact (eq_trans
           (parse_rect_string_inner_space " " "1" " " " " "2" " " " " "3.9" "" "" "4.1" " "
              eq_refl eq_refl eq_refl eq_refl eq_refl)
           eq_refl).
Defined.

(** C8, as stated, fails: white space around the braces themselves is not
    accepted.  A space before the first brace, after the last one, between
    the two opening braces or around the comma between the two pairs makes
    [parse_rect_string] raise, while the form without white space parses. *)
Lemma parse_rect_string_outer_space :
  parse_rect_string (PStr "{{1,2},{3,4}}") = Ok (1, 2, 3, 4)
  /\ is_ok (parse_rect_string (PStr " {{1,2},{3,4}}")) = false
  /\ is_ok (parse_rect_string (PStr "{{1,2},{3,4}} ")) = false
  /\ is_ok (parse_rect_string (PStr "{ {1,2},{3,4} }")) = false
  /\ is_ok (parse_rect_string (PStr "{{1,2} , {3,4}}")) = false.
Proof. repeat split; by vm_compute. Qed.

(** C10.  Every leading and every trailing brace is stripped, not one
    layer only: for a body [X,Y},{W,H] whose components contain neither
    brace nor comma, and any number of braces before and after it, none
    included, [parse_rect_string] returns what it returns for the
    canonical form ["{{X,Y},{W,H}}"]; for numerals with finite floats,
    that is the tuple of their integer parts. *)
Theorem parse_rect_string_brace_layers (l r tx ty tw th : string) :
  Str.all_chars is_brace l = true -> Str.all_chars is_brace r = true ->
  is_component tx = true -> is_component ty = true ->
  is_component tw = true -> is_component th = true ->
  parse_rect_string (PStr (l +:+ rect_body tx ty tw th +:+ r))
  = parse_rect_string (PStr (rect_text tx ty tw th))
  /\ (is_numeral tx && is_numeral ty && is_numeral tw && is_numeral th = true ->
      Float.is_finite (numeral_float tx) && Float.is_finite (numeral_float ty)
      && Float.is_finite (numeral_float tw) && Float.is_finite (numeral_float th)
      = true ->
      parse_rect_string (PStr (l +:+ rect_body tx ty tw th +:+ r))
      = Ok (Float.trunc (numeral_float tx), Float.trunc (numeral_float ty),
            Float.trunc (numeral_float tw), Float.trunc (numeral_float th))).
Proof.
  intros Hl Hr Hx Hy Hw Hh.
  assert (parse_rect_string (PStr (l +:+ rect_body tx ty tw th +:+ r))
          = parse_rect_string (PStr (rect_text tx ty tw th))) as Heq.
  { unfold rect_text. by rewrite !parse_rect_string_components. }
  split; [exact Heq|].
  rewrite !andb_true_iff. intros [[[Nx Ny] Nw] Nh] [[[Fx Fy] Fw] Fh].
  rewrite Heq, parse_rect_string_plain by done. by rewrite !to_int_finite.
Qed.

Lemma parse_rect_string_brace_layers_witness :
  Str.all_chars is_brace "{{{" = true /\ Str.all_chars is_brace "}}}" = true
  /\ is_component "1" = true /\ is_component "2" = true
  /\ is_component "3" = true /\ is_component "4" = true
  /\ parse_rect_string (PStr "{{{1,2},{3,4}}}") = Ok (1, 2, 3, 4).
Proof.
  refine (conj eq_refl (conj eq_refl (conj eq_refl (conj eq_refl
           (conj eq_refl (conj eq_refl _)))))).
  exact (proj2 (parse_rect_string_brace_layers "{{{" "}}}" "1" "2" "3" "4"
                   eq_refl eq_refl eq_refl eq_refl eq_refl eq_refl)
                eq_refl eq_refl).
Defined.

(** The same with the outer braces missing, and with braces that do not
    match. *)
Example parse_rect_string_missing_braces :
  parse_rect_string (PStr "{1,2},{3,4}") = Ok (1, 2, 3, 4)
  /\ parse_rect_string (PStr "1,2},{3,4") = Ok (1, 2, 3, 4)
  /\ parse_rect_string (PStr "}{1,2},{3,4}{{") = Ok (1, 2, 3, 4).
Proof.
  split; [|split].
  - exact (eq_trans (parse_rect_string_components "{" "}" "1" "2" "3" "4"
                       eq_refl eq_refl eq_refl eq_refl eq_refl eq_refl) eq_refl).
  - exact (eq_trans (parse_rect_string_components "" "" "1" "2" "3" "4"
                       eq_refl eq_refl eq_refl eq_refl eq_refl eq_refl) eq_refl).
  - exact (eq_trans (parse_rect_string_components "}{" "}{{" "1" "2" "3" "4"
                       eq_refl eq_refl eq_refl eq_refl eq_refl eq_refl) eq_refl).
Qed.

(** Truncation is not rounding, and a float is not the numeral: the
    components are rounded to binary64 before their integer part is
    taken. *)
Example parse_rect_string_rounding :
  parse_rect_string (PStr "{{0.9,1.5},{2.5,3.999}}") = Ok (0, 1, 2, 3)
  /\ parse_rect_string (PStr "{{9007199254740993,0.99999999999999999999},{1,1}}")
     = Ok (9007199254740992, 1, 1, 1).
Proof. split; by vm_compute. Qed.

(** ** [parse_plist] *)
Section PlistFacts.

(** The frames of a document that is a mapping. *)
Lemma select_frames_dict (d : list (string * PValue)) :
  select_frames (PDict d)
  = match Dict.get "frames" d with
    | Some payload => Ok payload
    | None =>
        match Dict.get "metadata" d with
        | None => Raise unsupported
        | Some metadata =>
            let* nested := contains "frames" metadata in
            if nested then getitem metadata "frames" else Raise unsupported
        end
    end.
Proof.
  unfold select_frames, contains at 1 2, getitem at 1 2, Dict.mem.
  destruct (Dict.get "frames" d); simpl; [done|].
  destruct (Dict.get "metadata" d) as [metadata|]; simpl; [|done].
  by destruct (contains "frames" metadata) as [[]|].
Qed.

Lemma getitem_not_unsupported (v : PValue) (key : string) :
  getitem v key <> Raise unsupported.
Proof.
  destruct v; simpl; try done. by destruct (Dict.get key items).
Qed.

Lemma contains_not_unsupported (v : PValue) (key : string) :
  contains key v <> Raise unsupported.
Proof. by destruct v. Qed.

Lemma select_frames_unsupported (d : list (string * PValue)) :
  select_frames (PDict d) = Raise unsupported
  <-> Dict.get "frames" d = None
      /\ match Dict.get "metadata" d with
         | None => True
         | Some metadata => contains "frames" metadata = Ok false
         end.
Proof.
  rewrite select_frames_dict.
  destruct (Dict.get "frames" d) as [payload|].
  { split; [done|]. by intros [? _]. }
  destruct (Dict.get "metadata" d) as [metadata|]; [|done].
  pose proof (contains_not_unsupported metadata "frames") as Hc.
  pose proof (getitem_not_unsupported metadata "frames") as Hg.
  destruct (contains "frames" metadata) as [[]|e]; simpl; split;
    try done; try (by intros [_ ?]).
  intros [= ->]. by destruct Hc.
Qed.

(** Documents that are not mappings of mappings: the tests of line 56 and
    58 are memberships, whatever the value is. *)
Example select_frames_other_documents :
  select_frames (PArray [PStr "sprites"]) = Raise unsupported
  /\ select_frames (PDict [("metadata", PStr "frames.png")])
     = Raise (Exn TypeError "indices must be integers")
  /\ select_frames (PDict [("metadata", PInt 3)])
     = Raise (Exn TypeError "argument is not iterable")
  /\ select_frames (PDict [("metadata", PDict [("frames", PInt 3)])]) = Ok (PInt 3).
Proof. repeat split. Qed.

End PlistFacts.

(** ** The loop of [split_sprites] *)
Section ScriptFacts.

Context `{Env}.

Implicit Types (img : Image) (files : gmap string Image).
Implicit Types (items : list (string * PValue)).
Implicit Types (os : list (string * outcome Image)) (o : outcome Image).

(** What [extract_sprite] can do: fail and leave the files as they are,
    or save the cropped sprite under the derived name. *)
Lemma extract_sprite_cases img dir files name frame_str :
  (exists e, extract_sprite img dir files name frame_str = (files, Failed e))
  \/ (exists sprite,
        extract_sprite img dir files name frame_str
        = (<[Pathlib.joinpath dir (sprite_filename_of name) := sprite]> files,
           Saved (sprite_filename_of name) sprite)).
Proof.
  unfold extract_sprite, save.
  destruct (parse_rect_string frame_str) as [[[[x y] w] h]|e]; [|by eauto].
  destruct (crop img _) as [sprite|e]; [|by eauto].
  destruct (write_error sprite _ files) as [e|]; by eauto.
Qed.

Lemma process_sprite_skipped img dir files name data :
  snd (process_sprite img dir files name data) = Skipped
  <-> frame_str_of data = None.
Proof.
  unfold process_sprite. destruct (frame_str_of data) as [frame_str|].
  - destruct (extract_sprite_cases img dir files name frame_str)
      as [[e ->]|[sprite ->]]; by split.
  - by split.
Qed.

(** An entry that is not saved leaves the files as they were. *)
Lemma process_sprite_files img dir files name data :
  is_saved (name, snd (process_sprite img dir files name data)) = false ->
  fst (process_sprite img dir files name data) = files.
Proof.
  unfold process_sprite. destruct (frame_str_of data) as [frame_str|]; [|done].
  destruct (extract_sprite_cases img dir files name frame_str)
    as [[e ->]|[sprite ->]]; by simpl.
Qed.

Lemma process_frames_cons img dir files name data items :
  process_frames img dir files ((name, data) :: items)
  = (fst (process_frames img dir (fst (process_sprite img dir files name data)) items),
     (name, snd (process_sprite img dir files name data))
       :: snd (process_frames img dir (fst (process_sprite img dir files name data)) items)).
Proof.
  cbn [process_frames].
  destruct (process_sprite img dir files name data) as [files1 o]. cbn [fst snd].
  by destruct (process_frames img dir files1 items).
Qed.

Lemma process_frames_app img dir files items1 items2 :
  process_frames img dir files (items1 ++ items2)
  = (fst (process_frames img dir (fst (process_frames img dir files items1)) items2),
     snd (process_frames img dir files items1)
       ++ snd (process_frames img dir (fst (process_frames img dir files items1)) items2)).
Proof.
  revert files. induction items1 as [|[name data] items1 IH]; intros files.
  - simpl. by destruct (process_frames img dir files items2).
  - rewrite <- app_comm_cons, !process_frames_cons. simpl. by rewrite IH.
Qed.

(** One entry per item, under the item's name and in the items' order. *)
Lemma process_frames_names img dir files items :
  List.map fst (snd (process_frames img dir files items)) = List.map fst items.
Proof.
  revert files. induction items as [|[name data] items IH]; intros files; [done|].
  rewrite process_frames_cons. simpl. by rewrite IH.
Qed.

(** The entries that are not skipped are those of the items with a
    rectangle string. *)
Lemma process_frames_records img dir files items :
  List.map fst (List.filter is_result
                            (snd (process_frames img dir files items)))
  = List.map fst (List.filter has_frame items).
Proof.
  revert files. induction items as [|[name data] items IH]; intros files; [done|].
  rewrite process_frames_cons. cbn [snd List.filter].
  pose proof (process_sprite_skipped img dir files name data) as Hs.
  unfold has_frame at 1. cbn [snd is_skipped].
  destruct (snd (process_sprite img dir files name data)) as [f sprite|e|];
    destruct (frame_str_of data) as [frame_str|]; simpl; rewrite ?IH; try done.
  - by destruct Hs as [_ Hs]; specialize (Hs eq_refl).
  - by destruct Hs as [_ Hs]; specialize (Hs eq_refl).
  - by destruct Hs as [Hs _]; specialize (Hs eq_refl).
Qed.

(** The files at the end are the files at the start with the saved sprites
    written in the order of the entries. *)
Lemma process_frames_written img dir files items :
  fst (process_frames img dir files items)
  = written dir (snd (process_frames img dir files items)) files.
Proof.
  revert files. induction items as [|[name data] items IH]; intros files; [done|].
  rewrite process_frames_cons. cbn [fst snd]. rewrite IH.
  unfold written at 2. cbn [List.fold_left]. fold (written dir).
  f_equal. unfold process_sprite.
  destruct (frame_str_of data) as [frame_str|]; [|done].
  destruct (extract_sprite_cases img dir files name frame_str)
    as [[e ->]|[sprite ->]]; done.
Qed.

(** A run whose preparations succeed: every item is processed, and the
    run returns. *)
Lemma split_sprites_run plist_path png_path files0 items img :
  mkdir (output_dir_of plist_path) = Ok tt ->
  parse_plist plist_path = Ok (PDict items) ->
  Image_open png_path = Ok img ->
  let dir := output_path_of plist_path in
  let os := snd (process_frames img dir files0 items) in
  split_sprites plist_path png_path files0
  = Run (fst (process_frames img dir files0 items))
        ([Reading_plist plist_path; Reading_PNG png_path;
          Output_directory (output_dir_of plist_path)]
           ++ List.map (line_of) os
           ++ [Done (List.length (List.filter (is_saved) os))
                    (output_dir_of plist_path)])
        os (Ok tt).
Proof.
  intros Hm Hp Hi. unfold split_sprites. rewrite Hm, Hp, Hi.
  by destruct (process_frames img _ files0 items).
Qed.

(** A run whose preparations fail: nothing is processed. *)
Lemma split_sprites_fatal plist_path png_path files0 e :
  parse_plist plist_path = Raise e ->
  let r := split_sprites plist_path png_path files0 in
  is_ok (status r) = false
  /\ (mkdir (output_dir_of plist_path) = Ok tt -> status r = Raise e)
  /\ entries r = [] /\ files r = files0.
Proof.
  intros Hp. unfold split_sprites. rewrite Hp.
  by destruct (mkdir _) as [[]|].
Qed.

End ScriptFacts.

(** ** The console *)
Section ConsoleFacts.

Context `{Env}.

Implicit Types (img : Image) (files : gmap string Image).
Implicit Types (items : list (string * PValue)).
Implicit Types (printed : list line).

Lemma print_taken {A : Type} (console : Console.t A) (shown : list A) (l : A) :
  console shown l = None ->
  Console.print console shown l = (shown ++ [l], Ok tt).
Proof. intros Hc. unfold Console.print. by rewrite Hc. Qed.

Lemma print_refused {A : Type} (console : Console.t A) (shown shown1 : list A)
    (l : A) (e : exn) :
  Console.print console shown l = (shown1, Raise e) ->
  console shown l = Some e /\ shown1 = shown.
Proof.
  unfold Console.print. destruct (console shown l) as [e'|]; [|done].
  by intros [= -> ->].
Qed.

Lemma print_cases {A : Type} (console : Console.t A) (shown : list A) (l : A) :
  Console.print console shown l = (shown ++ [l], Ok tt)
  \/ exists e, console shown l = Some e
               /\ Console.print console shown l = (shown, Raise e).
Proof.
  unfold Console.print. destruct (console shown l) as [e|]; [right|left]; eauto.
Qed.

Lemma prints_taken {A : Type} (console : Console.t A) (shown ls : list A) :
  (forall shown l, console shown l = None) ->
  Console.prints console shown ls = (shown ++ ls, Ok tt).
Proof.
  intros Hc. revert shown. induction ls as [|l ls IH]; intros shown.
  - simpl. by rewrite List.app_nil_r.
  - cbn [Console.prints]. rewrite print_taken by done. rewrite IH.
    by rewrite <- List.app_assoc.
Qed.

(** The calls show the lines up to the first that the console refuses. *)
Lemma prints_spec {A : Type} (console : Console.t A) (shown ls : list A) :
  let r := Console.prints console shown ls in
  exists ls1 ls2,
    ls = ls1 ++ ls2 /\ r.1 = shown ++ ls1
    /\ match r.2 with
       | Ok _ => ls2 = []
       | Raise e => exists shown' l, console shown' l = Some e
       end.
Proof.
  revert shown. induction ls as [|l ls IH]; intros shown.
  - exists [], []. simpl. by rewrite List.app_nil_r.
  - cbn [Console.prints].
    destruct (print_cases console shown l) as [->|(e' & He' & ->)].
    + destruct (IH (shown ++ [l])) as (ls1 & ls2 & -> & Hshown & Hs).
      exists (l :: ls1), ls2. split; [done|].
      split; [by rewrite Hshown, <- List.app_assoc|done].
    + exists [], (l :: ls). cbn [fst snd]. split; [done|].
      split; [by rewrite List.app_nil_r|eauto].
Qed.

(** What an iteration does to the files and how the entry ends does not
    depend on the console. *)
Lemma console_process_sprite_entry (console : Console.t line)
    img dir files printed name data :
  let r := Console.process_sprite console img dir files printed name data in
  (r.1.1.1, r.1.2) = process_sprite img dir files name data.
Proof.
  unfold Console.process_sprite.
  destruct (process_sprite img dir files name data) as [files1 o].
  destruct o as [f sprite|e|].
  - destruct (print_cases console printed (line_of (name, Saved f sprite)))
      as [->|(e & _ & ->)]; [done|].
    by destruct (Console.print console printed (Error_processing name e)).
  - by destruct (Console.print console printed (Error_processing name e)).
  - destruct (print_cases console printed (line_of (name, @Skipped Image)))
      as [->|(e & _ & ->)]; [done|].
    by destruct (Console.print console printed (Error_processing name e)).
Qed.

(** An iteration shows one line, the entry's or the handler's, unless the
    console refuses the handler's. *)
Lemma console_process_sprite_lines (console : Console.t line)
    img dir files printed name data :
  let r := Console.process_sprite console img dir files printed name data in
  match r.2 with
  | Ok _ =>
      exists l, r.1.1.2 = printed ++ [l]
                /\ (is_saved_line l = true -> is_saved (name, r.1.2) = true)
  | Raise e =>
      r.1.1.2 = printed /\ exists shown l, console shown l = Some e
  end.
Proof.
  unfold Console.process_sprite.
  destruct (process_sprite img dir files name data) as [files1 o].
  destruct o as [f sprite|e|].
  - destruct (print_cases console printed (line_of (name, Saved f sprite)))
      as [->|(e & _ & ->)]; [by eexists|].
    destruct (print_cases console printed (Error_processing name e))
      as [->|(e' & He' & ->)]; [by eexists|]. simpl. eauto.
  - destruct (print_cases console printed (Error_processing name e))
      as [->|(e' & He' & ->)]; [by eexists|]. simpl. eauto.
  - destruct (print_cases console printed (line_of (name, @Skipped Image)))
      as [->|(e & _ & ->)]; [by eexists|].
    destruct (print_cases console printed (Error_processing name e))
      as [->|(e' & He' & ->)]; [by eexists|]. simpl. eauto.
Qed.

(** When the console takes every line, an iteration shows the line of its
    entry. *)
Lemma console_process_sprite_taken (console : Console.t line)
    img dir files printed name data :
  (forall shown l, console shown l = None) ->
  Console.process_sprite console img dir files printed name data
  = (fst (process_sprite img dir files name data),
     printed ++ [line_of (name, snd (process_sprite img dir files name data))],
     snd (process_sprite img dir files name data), Ok tt).
Proof.
  intros Hc. unfold Console.process_sprite.
  destruct (process_sprite img dir files name data) as [files1 o].
  destruct o as [f sprite|e|]; by rewrite print_taken.
Qed.

(** The loop on any console: the items it went through are processed as
    on a console that takes every line; it stops only when the console
    refuses a line of the handler. *)
Lemma console_process_frames_spec (console : Console.t line)
    img dir files printed items :
  let r := Console.process_frames console img dir files printed items in
  exists processed rest ls,
    items = processed ++ rest
    /\ r.1.1.1 = fst (process_frames img dir files processed)
    /\ r.1.2 = snd (process_frames img dir files processed)
    /\ r.1.1.2 = printed ++ ls
    /\ (List.length (List.filter is_saved_line ls)
        <= List.length (List.filter is_saved r.1.2))%nat
    /\ match r.2 with
       | Ok _ => rest = [] /\ List.length ls = List.length items
       | Raise e => exists shown l, console shown l = Some e
       end.
Proof.
  revert files printed.
  induction items as [|[name data] items IH]; intros files printed.
  - exists [], [], []. simpl. by rewrite List.app_nil_r.
  - cbn [Console.process_frames].
    pose proof (console_process_sprite_entry console img dir files printed name data)
      as Hentry.
    pose proof (console_process_sprite_lines console img dir files printed name data)
      as Hlines.
    destruct (Console.process_sprite console img dir files printed name data)
      as [[[files1 printed1] o] s].
    cbn [fst snd] in Hentry, Hlines. destruct s as [[]|e].
    + destruct Hlines as (l & -> & Hl).
      specialize (IH files1 (printed ++ [l])).
      destruct (Console.process_frames console img dir files1 (printed ++ [l]) items)
        as [[[files2 printed2] os] s].
      cbn [fst snd] in IH |- *.
      destruct IH as (processed & rest & ls & -> & -> & -> & -> & Hsaved & Hs).
      exists ((name, data) :: processed), rest, (l :: ls).
      rewrite process_frames_cons, <- Hentry. cbn [fst snd].
      split; [done|]. split; [done|]. split; [done|].
      split; [by rewrite <- List.app_assoc|]. split.
      * cbn [List.filter]. destruct (is_saved_line l) eqn:El.
        -- rewrite (Hl eq_refl). simpl. lia.
        -- destruct (is_saved (name, o)); simpl; lia.
      * destruct s as [[]|e]; [|done]. destruct Hs as [-> Hlen].
        split; [done|]. rewrite List.app_nil_r in *. simpl. by rewrite Hlen.
    + destruct Hlines as (-> & Hrefused).
      exists [(name, data)], items, []. cbn [fst snd].
      rewrite process_frames_cons, <- Hentry. cbn [fst snd process_frames].
      split; [done|]. split; [done|]. split; [done|].
      split; [by rewrite List.app_nil_r|]. split; [simpl; lia|done].
Qed.

Lemma console_process_frames_taken (console : Console.t line)
    img dir files printed items :
  (forall shown l, console shown l = None) ->
  Console.process_frames console img dir files printed items
  = (fst (process_frames img dir files items),
     printed ++ List.map line_of (snd (process_frames img dir files items)),
     snd (process_frames img dir files items), Ok tt).
Proof.
  intros Hc. revert files printed.
  induction items as [|[name data] items IH]; intros files printed.
  - simpl. by rewrite List.app_nil_r.
  - cbn [Console.process_frames]. rewrite console_process_sprite_taken by done.
    rewrite IH, process_frames_cons. cbn [fst snd List.map].
    by rewrite <- List.app_assoc.
Qed.

(** On a console that takes every line the run is [split_sprites]. *)
Lemma console_split_sprites_taken (console : Console.t line)
    plist_path png_path files0 :
  (forall shown l, console shown l = None) ->
  Console.split_sprites console plist_path png_path files0
  = split_sprites plist_path png_path files0.
Proof.
  intros Hc. unfold Console.split_sprites, split_sprites.
  destruct (mkdir _) as [[]|]; [|done].
  rewrite prints_taken by done.
  destruct (parse_plist plist_path) as [frames|]; [|done].
  destruct (Image_open png_path) as [img|]; [|done].
  destruct frames as [| | | | | | |items]; try done.
  rewrite console_process_frames_taken by done.
  destruct (process_frames img _ files0 items) as [files1 os]. cbn [fst snd].
  rewrite print_taken by done. by rewrite <- List.app_assoc.
Qed.

(** A run whose preparations succeed, on any console. *)
Lemma console_split_sprites_run (console : Console.t line)
    plist_path png_path files0 items img :
  mkdir (output_dir_of plist_path) = Ok tt ->
  parse_plist plist_path = Ok (PDict items) ->
  Image_open png_path = Ok img ->
  let r := Console.split_sprites console plist_path png_path files0 in
  let dir := output_path_of plist_path in
  exists processed rest,
    items = processed ++ rest
    /\ files r = fst (process_frames img dir files0 processed)
    /\ entries r = snd (process_frames img dir files0 processed)
    /\ (List.length (List.filter is_saved_line (stdout r))
        <= List.length (List.filter is_saved (entries r)))%nat
    /\ match status r with
       | Ok _ =>
           rest = []
           /\ List.length (stdout r) = (4 + List.length items)%nat
           /\ List.last (stdout r) (Done 0 "")
              = Done (List.length (List.filter is_saved (entries r)))
                     (output_dir_of plist_path)
       | Raise e => exists shown l, console shown l = Some e
       end.
Proof.
  intros Hm Hp Hi. unfold Console.split_sprites. rewrite Hm, Hp, Hi.
  set (dir := output_path_of plist_path). set (out := output_dir_of plist_path).
  pose proof (prints_spec console []
                [Reading_plist plist_path; Reading_PNG png_path;
                 Output_directory out]) as (ls1 & ls2 & Hls & Hshown & Hs).
  destruct (Console.prints console []
              [Reading_plist plist_path; Reading_PNG png_path; Output_directory out])
    as [head s].
  cbn [fst snd] in Hshown, Hs. subst head. destruct s as [[]|e].
  2:{ exists [], items. cbn [files entries stdout status process_frames fst snd].
      split; [done|]. split; [done|]. split; [done|]. split; [|done].
      assert (List.filter is_saved_line (ls1 ++ ls2) = []) as Hnone
        by (by rewrite <- Hls).
      rewrite List.filter_app in Hnone. apply List.app_eq_nil in Hnone as [Hnone _].
      cbn [app]. by rewrite Hnone. }
  subst ls2. rewrite List.app_nil_r in Hls. subst ls1.
  pose proof (console_process_frames_spec console img dir files0
                ([] ++ [Reading_plist plist_path; Reading_PNG png_path;
                        Output_directory out]) items) as Hloop.
  destruct (Console.process_frames console img dir files0 _ items)
    as [[[files1 printed] os] s].
  cbn [fst snd] in Hloop.
  destruct Hloop as (processed & rest & ls & -> & -> & -> & -> & Hsaved & Hs).
  exists processed, rest. destruct s as [[]|e].
  - destruct Hs as [-> Hlen]. rewrite List.app_nil_r in *.
    destruct (print_cases console
                (([] ++ [Reading_plist plist_path; Reading_PNG png_path;
                         Output_directory out]) ++ ls)
                (Done (List.length
                         (List.filter is_saved
                            (snd (process_frames img dir files0 processed)))) out))
      as [->|(e & He & ->)]; cbn [files entries stdout status].
    + split; [done|]. split; [done|]. split; [done|]. split.
      * rewrite !List.filter_app. cbn. rewrite List.app_nil_r. done.
      * split; [done|]. split; [|by rewrite List.last_last].
        rewrite !List.length_app. cbn. lia.
    + split; [done|]. split; [done|]. split; [done|]. split; [|by eauto].
      rewrite !List.filter_app. cbn. done.
  - cbn [files entries stdout status].
    split; [done|]. split; [done|]. split; [done|]. split; [|done].
    rewrite !List.filter_app. cbn. done.
Qed.

End ConsoleFacts.

(** ** Entries that fail and entries that are saved *)
Section EntryFacts.

Context `{Env}.

Implicit Types (img : Image) (files : gmap string Image).

(** The three failures of an entry: the rectangle string, the crop, the
    save. *)
Lemma process_sprite_failed img dir files name data frame_str e :
  frame_str_of data = Some frame_str ->
  parse_rect_string frame_str = Raise e
  \/ (exists x y w h,
        parse_rect_string frame_str = Ok (x, y, w, h)
        /\ (crop img (x, y, x + w, y + h) = Raise e
            \/ exists sprite,
                 crop img (x, y, x + w, y + h) = Ok sprite
                 /\ write_error sprite
                      (Pathlib.joinpath dir (sprite_filename_of name)) files
                    = Some e)) ->
  process_sprite img dir files name data = (files, Failed e).
Proof.
  intros Hd Hcause. unfold process_sprite, extract_sprite, save. rewrite Hd.
  destruct Hcause as [->|(x & y & w & h & -> & [->|(sprite & -> & ->)])]; done.
Qed.

Lemma process_sprite_saved img dir files name data frame_str x y w h sprite :
  frame_str_of data = Some frame_str ->
  parse_rect_string frame_str = Ok (x, y, w, h) ->
  crop img (x, y, x + w, y + h) = Ok sprite ->
  write_error sprite (Pathlib.joinpath dir (sprite_filename_of name)) files = None ->
  process_sprite img dir files name data
  = (<[Pathlib.joinpath dir (sprite_filename_of name) := sprite]> files,
     Saved (sprite_filename_of name) sprite).
Proof.
  intros Hd Hp Hc Hw. unfold process_sprite, extract_sprite, save.
  by rewrite Hd, Hp, Hc, Hw.
Qed.

End EntryFacts.

(** C1, as amended.  When the preparations of a run succeed (the output
    directory, the frames of the document, the image), nothing but the
    console stops the run: it returns, or it raises an exception that
    [print] raised.  On a console that takes every line the run returns,
    and it records exactly one result, saved or failed, for every entry
    of the frames that has a rectangle string, under the entry's name and
    in the order of the frames.  An entry whose rectangle string is
    malformed, whose crop raises or whose save raises is recorded as
    failed with that exception, nothing is written for it, and the
    entries before and after it end as in the run without it, with the
    same files; an entry for which the three succeed is recorded as saved
    and its file holds the sprite. *)
Theorem split_sprites_result_per_record `{Env} (console : Console.t line)
    (plist_path png_path : string) (files0 : gmap string Image)
    (items : list (string * PValue)) (img : Image) :
  mkdir (output_dir_of plist_path) = Ok tt ->
  parse_plist plist_path = Ok (PDict items) ->
  Image_open png_path = Ok img ->
  let r := Console.split_sprites console plist_path png_path files0 in
  let dir := output_path_of plist_path in
  let results := List.filter is_result (entries r) in
  let records := List.filter has_frame items in
  (status r = Ok tt
   \/ exists shown l e, console shown l = Some e /\ status r = Raise e)
  /\ ((forall shown l, console shown l = None) ->
      status r = Ok tt
      /\ List.length results = List.length records
      /\ List.map fst results = List.map fst records
      /\ (forall pre name data post frame_str,
            items = pre ++ (name, data) :: post ->
            frame_str_of data = Some frame_str ->
            let before := process_frames img dir files0 pre in
            let path := Pathlib.joinpath dir (sprite_filename_of name) in
            (forall e,
               parse_rect_string frame_str = Raise e
               \/ (exists x y w h,
                     parse_rect_string frame_str = Ok (x, y, w, h)
                     /\ (crop img (x, y, x + w, y + h) = Raise e
                         \/ exists sprite,
                              crop img (x, y, x + w, y + h) = Ok sprite
                              /\ write_error sprite path (fst before) = Some e)) ->
               let after := process_frames img dir (fst before) post in
               entries r = snd before ++ (name, Failed e) :: snd after
               /\ files r = fst after
               /\ process_frames img dir files0 (pre ++ post)
                  = (files r, snd before ++ snd after))
            /\ (forall x y w h sprite,
                  parse_rect_string frame_str = Ok (x, y, w, h) ->
                  crop img (x, y, x + w, y + h) = Ok sprite ->
                  write_error sprite path (fst before) = None ->
                  let after :=
                    process_frames img dir (<[path := sprite]> (fst before)) post in
                  entries r
                  = snd before
                      ++ (name, Saved (sprite_filename_of name) sprite) :: snd after
                  /\ files r = fst after))).
Proof.
  intros Hm Hp Hi r dir results records. split.
  - destruct (console_split_sprites_run console _ _ files0 _ _ Hm Hp Hi)
      as (processed & rest & _ & _ & _ & _ & Hs).
    fold r in Hs. destruct (status r) as [[]|e]; [by left|].
    destruct Hs as (shown & l & He). right. by exists shown, l, e.
  - intros Hc. subst r results records.
    rewrite (console_split_sprites_taken console) by done.
    rewrite (split_sprites_run _ _ _ _ _ Hm Hp Hi). cbn [status entries files].
    fold dir. pose proof (process_frames_records img dir files0 items) as Hrec.
    split; [done|]. split; [|split; [done|]].
    { by rewrite <- (length_map fst), Hrec, length_map. }
    intros pre name data post frame_str -> Hd.
    set (before := process_frames img dir files0 pre). split.
    + intros e Hcause.
      pose proof (process_sprite_failed img dir (fst before) name data frame_str e
                    Hd Hcause) as Hfail.
      rewrite !process_frames_app, process_frames_cons. fold before.
      rewrite Hfail. cbn [fst snd]. done.
    + intros x y w h sprite Hparse Hcrop Hw.
      pose proof (process_sprite_saved img dir (fst before) name data frame_str
                    x y w h sprite Hd Hparse Hcrop Hw) as Hsaved.
      rewrite !process_frames_app, process_frames_cons. fold before.
      rewrite Hsaved. cbn [fst snd]. done.
Qed.

Lemma split_sprites_result_per_record_witness :
  let E := Demo.env_of Demo.mixed in
  let r := @Console.split_sprites E Console.quiet "sheet.plist" "sheet.png" ∅ in
  @mkdir E (@output_dir_of E "sheet.plist") = Ok tt
  /\ (exists items, @parse_plist E "sheet.plist" = Ok (PDict items))
  /\ @Image_open E "sheet.png" = Ok Demo.sheet
  /\ status r = Ok tt
  /\ List.map fst (List.filter is_result (entries r))
     = ["first.png"; "broken.png"; "last.png"]
  /\ exists first last,
       entries r
       = [("first.png", Saved "first.png" first);
          ("broken.png",
           Failed (Exn ValueError "not enough values to unpack (expected 2, got 1)"));
          ("nokey.png", Skipped);
          ("last.png", Saved "last.png" last)].
Proof.
  intros E r.
  pose proof (@split_sprites_result_per_record E Console.quiet
                "sheet.plist" "sheet.png" ∅ _ Demo.sheet eq_refl eq_refl eq_refl)
    as [_ Hrun].
  destruct (Hrun (fun _ _ => eq_refl)) as (Hs & _ & Hn & Hentry).
  split; [done|]. split; [by eexists|]. split; [done|]. split; [exact Hs|].
  split; [exact Hn|].
  destruct (Hentry [("first.png", PDict [("frame", PStr "{{0,0},{8,8}}")])]
              "broken.png" (PDict [("frame", PStr "{{0,0},{8}}")])
              [("nokey.png", PDict [("offset", PStr "{0,0}")]);
               ("last.png", PStr "{{8,0},{8,8}}")]
              (PStr "{{0,0},{8}}") eq_refl eq_refl) as [Hfail _].
  destruct (Hfail (Exn ValueError "not enough values to unpack (expected 2, got 1)")
              (or_introl eq_refl)) as (Hentries & _).
  eexists _, _. exact Hentries.
Defined.

(** C1, the claim as it was stated.  On a console that is closed after
    four lines, the failure of the second entry stops the run: the line of
    the handler cannot be printed, the exception leaves the loop, and the
    last entry of the frames, which has a rectangle string, gets no
    result. *)
Lemma split_sprites_console_refuses :
  let E := Demo.env_of Demo.mixed in
  let r := @Console.split_sprites E (Console.closed_after 4)
             "sheet.plist" "sheet.png" ∅ in
  @parse_plist E "sheet.plist"
  = Ok (PDict [("first.png", PDict [("frame", PStr "{{0,0},{8,8}}")]);
               ("broken.png", PDict [("frame", PStr "{{0,0},{8}}")]);
               ("nokey.png", PDict [("offset", PStr "{0,0}")]);
               ("last.png", PStr "{{8,0},{8,8}}")])
  /\ status r = Raise (Exn OSError "Broken pipe")
  /\ stdout r = [Reading_plist "sheet.plist"; Reading_PNG "sheet.png";
                 Output_directory Demo.output_dir; Saved_line "first.png"]
  /\ List.map fst (List.filter is_result (entries r)) = ["first.png"; "broken.png"]
  /\ files r !! @Pathlib.joinpath Pathlib.Posix Demo.output_path "first.png" <> None
  /\ files r !! @Pathlib.joinpath Pathlib.Posix Demo.output_path "last.png" = None.
Proof.
  intros E r. split; [reflexivity|]. split; [by vm_compute|].
  split; [by vm_compute|]. split; [by vm_compute|]. split; by vm_compute.
Qed.

(** C3, as amended.  For a document that is a mapping, [parse_plist]
    raises "Unsupported plist format" exactly when the mapping has no key
    [frames] and either no key [metadata] or a [metadata] value that does
    not contain [frames]: the keys are looked for, their values are not
    required to be mappings.  When it raises, the run is aborted: no entry
    is processed, no file is written and the run ends with that error. *)
Theorem parse_plist_unsupported `{Env} (plist_path : string)
    (d : list (string * PValue)) :
  plistlib_load plist_path = Ok (PDict d) ->
  (parse_plist plist_path = Raise unsupported
   <-> Dict.get "frames" d = None
       /\ match Dict.get "metadata" d with
          | None => True
          | Some metadata => contains "frames" metadata = Ok false
          end)
  /\ (parse_plist plist_path = Raise unsupported ->
      forall png_path files0,
        let r := split_sprites plist_path png_path files0 in
        is_ok (status r) = false
        /\ (mkdir (output_dir_of plist_path) = Ok tt -> status r = Raise unsupported)
        /\ entries r = [] /\ files r = files0).
Proof.
  intros Hl. split.
  - unfold parse_plist. rewrite Hl. cbn [bind]. apply select_frames_unsupported.
  - intros Hp png_path files0. by apply split_sprites_fatal.
Qed.

Lemma parse_plist_unsupported_witness :
  let doc := PDict [("texture", PStr "sheet.png")] in
  let E := Demo.env_of doc in
  @plistlib_load E "sheet.plist" = Ok doc
  /\ @parse_plist E "sheet.plist" = Raise unsupported
  /\ status (Demo.split_sprites doc) = Raise unsupported
  /\ entries (Demo.split_sprites doc) = [].
Proof.
  intros doc E.
  pose proof (@parse_plist_unsupported E "sheet.plist" _ eq_refl) as [Hiff Hrun].
  assert (@parse_plist E "sheet.plist" = Raise unsupported) as Hp
    by (by apply Hiff).
  destruct (Hrun Hp "sheet.png" ∅) as (_ & Hs & He & _).
  split; [done|]. split; [exact Hp|]. split; [exact (Hs eq_refl)|exact He].
Defined.

(** C3, as stated, fails: a document whose key [frames] holds a string has
    no key path that resolves to a mapping, yet [parse_plist] does not
    raise "Unsupported plist format"; it returns the string, and the run
    is aborted later by another error, when the frames are iterated. *)
Lemma parse_plist_frames_not_a_mapping :
  let doc := PDict [("frames", PStr "{{0,0},{8,8}}")] in
  flat_mapping doc = false /\ nested_mapping doc = false
  /\ @parse_plist (Demo.env_of doc) "sheet.plist" = Ok (PStr "{{0,0},{8,8}}")
  /\ status (Demo.split_sprites doc)
     = Raise (Exn AttributeError "object has no attribute 'items'").
Proof. by vm_compute. Qed.

(** C4.  A flat document, with the frames under [frames], and a nested
    one, with the same frames under [metadata] and then [frames], parse to
    the same frames.  The flat layout is tried first: a document with a
    key [frames] parses to its value whatever [metadata] holds. *)
Theorem parse_plist_flat_nested `{Env} (flat_path nested_path : string)
    (flat nested metadata : list (string * PValue)) (payload : PValue) :
  plistlib_load flat_path = Ok (PDict flat) ->
  Dict.get "frames" flat = Some payload ->
  plistlib_load nested_path = Ok (PDict nested) ->
  Dict.get "frames" nested = None ->
  Dict.get "metadata" nested = Some (PDict metadata) ->
  Dict.get "frames" metadata = Some payload ->
  parse_plist flat_path = Ok payload
  /\ parse_plist nested_path = Ok payload
  /\ parse_plist nested_path = parse_plist flat_path.
Proof.
  intros Hf Hff Hn Hnf Hnm Hmf.
  assert (parse_plist flat_path = Ok payload) as H1.
  { unfold parse_plist. rewrite Hf. cbn [bind].
    by rewrite select_frames_dict, Hff. }
  assert (parse_plist nested_path = Ok payload) as H2.
  { unfold parse_plist. rewrite Hn. cbn [bind].
    rewrite select_frames_dict, Hnf, Hnm. unfold contains, getitem, Dict.mem.
    by rewrite Hmf. }
  by rewrite H1, H2.
Qed.

Lemma parse_plist_flat_nested_witness :
  let payload := PDict [("a", PDict [("frame", PStr "{{0,0},{10,10}}")])] in
  let E := Demo.env (Demo.two_layouts payload) in
  @parse_plist E "flat.plist" = Ok payload
  /\ @parse_plist E "nested.plist" = Ok payload.
Proof.
  intros payload E.
  pose proof (@parse_plist_flat_nested E "flat.plist" "nested.plist" _ _ _ payload
                eq_refl eq_refl eq_refl eq_refl eq_refl eq_refl) as (H1 & H2 & _).
  by split.
Defined.

(** A document with both layouts: the flat one is used. *)
Example parse_plist_flat_first :
  let doc := PDict [("metadata", PDict [("frames", PStr "nested")]);
                    ("frames", PStr "flat")] in
  @parse_plist (Demo.env_of doc) "sheet.plist" = Ok (PStr "flat").
Proof. reflexivity. Qed.

(** The specification's examples: a flat document with one frame, and a
    run over two frames of a 64 by 32 sheet. *)
Example parse_plist_one_frame :
  let doc := PDict [("frames", PDict [("a", PDict [("frame", PStr "{{0,0},{10,10}}")])])] in
  @parse_plist (Demo.env_of doc) "sheet.plist"
  = Ok (PDict [("a", PDict [("frame", PStr "{{0,0},{10,10}}")])])
  /\ parse_rect_string (PStr "{{0,0},{10,10}}") = Ok (0, 0, 10, 10).
Proof. split; reflexivity. Qed.

Example split_sprites_hero :
  let r := Demo.split_sprites Demo.hero in
  status r = Ok tt
  /\ List.map line_of (entries r) = [Saved_line "hero_0.png"; Saved_line "hero_1.png"]
  /\ stdout r = [Reading_plist "sheet.plist"; Reading_PNG "sheet.png";
                 Output_directory Demo.output_dir;
                 Saved_line "hero_0.png"; Saved_line "hero_1.png";
                 Done 2 Demo.output_dir].
Proof. by vm_compute. Qed.



(** ** File names *)
Section PathFacts.

Lemma length_app (a b : string) :
  String.length (a +:+ b) = (String.length a + String.length b)%nat.
Proof. induction a as [|x a IH]; [done|]. rewrite app_cons. simpl. by rewrite IH. Qed.




Lemma name_kept (file : string) :
  file <> "" -> file <> "." ->
  negb (String.eqb file "" || String.eqb file ".") = true.
Proof.
  intros H1%String.eqb_neq H2%String.eqb_neq. by rewrite H1, H2.
Qed.

Lemma app_not_empty_l (a b : string) : a <> "" -> a +:+ b <> "".
Proof. by destruct a. Qed.





(** *** POSIX paths *)




End PathFacts.

Section WindowsFacts.

(** *** Windows paths *)


Lemma replace_char_clean (old new : ascii) (s : string) :
  no_char old s = true -> Str.replace_char old new s = s.
Proof.
  unfold no_char. induction s as [|x s IH]; [done|]. simpl.
  rewrite andb_true_iff, negb_true_iff. intros [-> Hs]. by rewrite IH.
Qed.

(** A string that does not begin with two backslashes has no extended
    prefix and no UNC drive: a drive letter with its colon, then the
    root. *)
Lemma splitroot_windows_plain (part : string) :
  String.prefix (String Pathlib.backslash (String Pathlib.backslash "")) part = false ->
  Pathlib.splitroot_windows part
  = let sep := String Pathlib.backslash "" in
    let first := String.substring 0 1 part in
    let second := String.substring 1 1 part in
    let third := String.substring 2 1 part in
    let '(drv, part, first) :=
      if String.eqb second ":" && Pathlib.is_drive_letter first
      then (String.substring 0 2 part, Str.drop 2 part, third)
      else ("", part, first) in
    let '(root, part) :=
      if String.eqb first sep
      then (first, Str.lstrip_by (Ascii.eqb Pathlib.backslash) part)
      else ("", part) in
    (drv, root, part).
Proof.
  intros Hp. unfold Pathlib.splitroot_windows.
  assert (String.eqb (String.substring 1 1 part) (String Pathlib.backslash "")
          && String.eqb (String.substring 0 1 part) (String Pathlib.backslash "")
          = false) as Hboth.
  { destruct part as [|a [|b part]]; try done. simpl in *.
    destruct (ascii_dec Pathlib.backslash a) as [<-|Ha].
    - destruct (ascii_dec Pathlib.backslash b) as [<-|Hb]; [by rewrite prefix_nil in Hp|].
      apply Ascii.eqb_neq in Hb. rewrite Ascii.eqb_sym in Hb. by rewrite Hb.
    - apply Ascii.eqb_neq in Ha. rewrite Ascii.eqb_sym in Ha. rewrite Ha.
      by rewrite andb_false_r. }
  rewrite Hboth. cbv beta iota zeta. rewrite Hboth. cbn [andb].
  cbv beta iota zeta.
  destruct (String.eqb (String.substring 1 1 part) ":"
            && Pathlib.is_drive_letter (String.substring 0 1 part));
    destruct (String.eqb _ (String Pathlib.backslash "")); reflexivity.
Qed.

Lemma no_double_backslash (a : ascii) (s : string) :
  Ascii.eqb a Pathlib.backslash = false ->
  String.prefix (String Pathlib.backslash (String Pathlib.backslash "")) (String a s)
  = false.
Proof. intros Ha. by apply prefix_head_ne. Qed.


Lemma not_prefix_head (c a : ascii) (d : string) :
  String.prefix (String c "") (String a d) = false -> Ascii.eqb a c = false.
Proof.
  simpl. destruct (ascii_dec c a) as [<-|Hne].
  - by rewrite prefix_nil.
  - intros _. apply Ascii.eqb_neq. congruence.
Qed.


Lemma substring_0_0 (s : string) : String.substring 0 0 s = "".
Proof. by destruct s. Qed.

Lemma substring_0_1 (a : ascii) (s : string) :
  String.substring 0 1 (String a s) = String a "".
Proof. simpl. by rewrite substring_0_0. Qed.





End WindowsFacts.

Section PathComponentFacts.

(** *** The components of a path *)

Lemma all_chars_drop (p : ascii -> bool) (n : nat) (s : string) :
  Str.all_chars p s = true -> Str.all_chars p (Str.drop n s) = true.
Proof.
  revert n. induction s as [|x s IH]; intros [|n]; simpl; try done.
  rewrite andb_true_iff. intros [_ Hs]. auto.
Qed.

Lemma all_chars_lstrip (p q : ascii -> bool) (s : string) :
  Str.all_chars p s = true -> Str.all_chars p (Str.lstrip_by q s) = true.
Proof.
  induction s as [|x s IH]; simpl; [done|].
  rewrite andb_true_iff. intros [Hx Hs]. destruct (q x); [auto|].
  simpl. by rewrite Hx, Hs.
Qed.

Lemma all_chars_substring (p : ascii -> bool) (n m : nat) (s : string) :
  Str.all_chars p s = true -> Str.all_chars p (String.substring n m s) = true.
Proof.
  revert n m. induction s as [|x s IH]; intros [|n] [|m]; simpl; try done.
  - rewrite !andb_true_iff. intros [Hx Hs]. auto.
  - rewrite !andb_true_iff. intros [Hx Hs]. auto.
  - rewrite !andb_true_iff. intros [Hx Hs]. auto.
Qed.

Lemma all_chars_replaced (p : ascii -> bool) (old new : ascii) (s : string) :
  p new = true -> (forall c, Ascii.eqb c old = false -> p c = true) ->
  Str.all_chars p (Str.replace_char old new s) = true.
Proof.
  intros Hnew Hp. induction s as [|x s IH]; [done|]. simpl.
  rewrite IH, andb_true_r. destruct (Ascii.eqb x old) eqn:Hx; auto.
Qed.

(** The pieces of a string are made of its characters, and the separator
    is in none. *)
Lemma split_pieces_chars (p : ascii -> bool) (sep : string) (k : nat) (s : string) :
  Str.all_chars p s = true ->
  Forall (fun piece => Str.all_chars p piece = true) (Str.split_from sep k s).
Proof.
  revert k. induction s as [|c s IH]; intros k Hs.
  - by repeat constructor.
  - simpl in Hs. apply andb_true_iff in Hs as [Hc Hs].
    destruct k as [|k]; [|by apply IH]. cbn [Str.split_from].
    destruct (String.prefix sep (String c s)).
    + constructor; [done|]. by apply IH.
    + specialize (IH 0%nat Hs). destruct (Str.split_from sep 0 s) as [|piece ps].
      * constructor; [|done]. simpl. by rewrite Hc.
      * inversion IH as [|? ? Hpiece Hps]; subst. constructor; [|done].
        simpl. by rewrite Hc, Hpiece.
Qed.

Lemma split_pieces_no_sep (c0 : ascii) (k : nat) (s : string) :
  Forall (fun piece => no_char c0 piece = true) (Str.split_from (String c0 "") k s).
Proof.
  revert k. induction s as [|c s IH]; intros k.
  - by repeat constructor.
  - destruct k as [|k]; [|apply IH]. cbn [Str.split_from].
    destruct (String.prefix (String c0 "") (String c s)) eqn:Hp.
    + constructor; [done|]. apply IH.
    + apply not_prefix_head in Hp.
      specialize (IH 0%nat). destruct (Str.split_from (String c0 "") 0 s) as [|piece ps].
      * constructor; [|done]. unfold no_char. simpl. by rewrite Hp.
      * inversion IH as [|? ? Hpiece Hps]; subst. constructor; [|done].
        unfold no_char in *. simpl. by rewrite Hp, Hpiece.
Qed.

Lemma Forall_filtered {A : Type} (P : A -> Prop) (f : A -> bool) (l : list A) :
  Forall P l -> Forall P (List.filter f l).
Proof.
  induction 1 as [|x l Hx _ IH]; [constructor|]. simpl.
  destruct (f x); [by constructor|done].
Qed.

(** What follows the anchor of a Windows path is made of the characters
    of the path. *)
Lemma splitroot_windows_chars (p : ascii -> bool) (part : string) :
  p Pathlib.backslash = true ->
  Str.all_chars p part = true ->
  Str.all_chars p (Pathlib.splitroot_windows part).2 = true.
Proof.
  intros Hbs Hpart. unfold Pathlib.splitroot_windows.
  assert (forall b : bool,
            Str.all_chars p
              (if b then Pathlib.split_extended_path part else ("", part)).2 = true)
    as Hsplit.
  { intros []; [|done]. unfold Pathlib.split_extended_path.
    destruct (String.prefix Pathlib.ext_namespace_prefix part); [|done].
    destruct (String.prefix _ (Str.drop 4 part)); cbn [snd].
    - cbn [Str.all_chars]. rewrite Hbs. cbn [andb]. by do 2 apply all_chars_drop.
    - by apply all_chars_drop. }
  match goal with
  | |- context [if ?c then Pathlib.split_extended_path part else _] =>
      specialize (Hsplit c);
      destruct (if c then Pathlib.split_extended_path part else ("", part))
        as [prefix part']
  end.
  cbn [snd] in Hsplit. cbv zeta.
  destruct (_ && _ && _).
  - destruct (Str.find Pathlib.backslash 2 part') as [index|].
    + destruct (decide _).
      * destruct (_ && _); destruct (String.eqb _ _); cbn [snd];
          auto using all_chars_drop, all_chars_lstrip.
      * cbn [snd]. by apply all_chars_drop.
    + destruct (_ && _); destruct (String.eqb _ _); cbn [snd];
        auto using all_chars_drop, all_chars_lstrip.
  - destruct (_ && _); destruct (String.eqb _ _); cbn [snd];
      auto using all_chars_drop, all_chars_lstrip.
Qed.

Section Flavour.

Context {fl : Pathlib.flavour}.

(** No component of a path holds a separator. *)
Lemma path_components (s : string) :
  Forall (fun x => Str.all_chars (fun c => negb (Pathlib.is_sep c)) x = true)
         (Pathlib.tail (Pathlib.Path s)).
Proof.
  unfold Pathlib.Path. destruct s as [|a s]; [constructor|].
  destruct (Pathlib.splitroot (String a s)) as [[drv root] rel] eqn:Hroot.
  cbn [Pathlib.tail]. apply Forall_filtered. unfold Str.split.
  destruct fl.
  - eapply Forall_impl; [apply (split_pieces_no_sep "/")|]. done.
  - assert (Str.all_chars (fun c => negb (Ascii.eqb c "/")) rel = true) as Hrel.
    { unfold Pathlib.splitroot in Hroot.
      pose proof (splitroot_windows_chars (fun c => negb (Ascii.eqb c "/"))
                    (Str.replace_char "/" Pathlib.backslash (String a s))
                    eq_refl) as Hchars.
      rewrite Hroot in Hchars. apply Hchars. apply all_chars_replaced; [done|].
      intros c Hc. by rewrite Hc. }
    pose proof (split_pieces_chars _ (String (@Pathlib.sep Pathlib.Windows) "") 0 rel Hrel)
      as H1.
    pose proof (split_pieces_no_sep (@Pathlib.sep Pathlib.Windows) 0 rel) as H2.
    revert H1 H2. generalize (Str.split_from (String (@Pathlib.sep Pathlib.Windows) "") 0 rel).
    intros l H1. induction H1 as [|x l Hx _ IH]; intros H2; [constructor|].
    inversion H2 as [|? ? Hx2 Hl2]; subst. constructor; [|by apply IH].
    clear IH H2 Hl2. unfold no_char in Hx2. cbn [Pathlib.is_sep].
    induction x as [|c x IHx]; [done|]. simpl in *.
    apply andb_true_iff in Hx as [Hc Hx]. apply andb_true_iff in Hx2 as [Hc2 Hx2].
    rewrite IHx by done. rewrite andb_true_r.
    apply negb_true_iff in Hc, Hc2. unfold Pathlib.sep in Hc2.
    by rewrite Hc, Hc2.
Qed.

Lemma name_no_sep (p : Pathlib.path) :
  Forall (fun x => Str.all_chars (fun c => negb (Pathlib.is_sep c)) x = true)
         (Pathlib.tail p) ->
  Str.all_chars (fun c => negb (Pathlib.is_sep c)) (Pathlib.name p) = true.
Proof.
  unfold Pathlib.name. induction 1 as [|x l Hx Hl IH]; [done|].
  cbn [List.last]. by destruct l.
Qed.

Lemma stem_no_sep (p : Pathlib.path) :
  Forall (fun x => Str.all_chars (fun c => negb (Pathlib.is_sep c)) x = true)
         (Pathlib.tail p) ->
  Str.all_chars (fun c => negb (Pathlib.is_sep c)) (Pathlib.stem p) = true.
Proof.
  intros Hp%name_no_sep. unfold Pathlib.stem.
  destruct (Str.rfind "." (Pathlib.name p)) as [i|]; [|done].
  destruct (_ && _); [by apply all_chars_substring|done].
Qed.

Lemma sprite_filename_no_sep (name : string) :
  Str.all_chars (fun c => negb (Pathlib.is_sep c)) (sprite_filename_of name) = true.
Proof.
  unfold sprite_filename_of. rewrite all_chars_app.
  rewrite (stem_no_sep _ (path_components name)). by destruct fl.
Qed.

Lemma sprite_filename_not_dot (name : string) :
  sprite_filename_of name <> "" /\ sprite_filename_of name <> ".".
Proof.
  unfold sprite_filename_of. destruct (Pathlib.stem _) as [|x [|y s]]; done.
Qed.

(** A file name without separators and without a drive is a path of one
    component, and joining it to a directory adds that component. *)
Lemma path_of_file (f : string) :
  Str.all_chars (fun c => negb (Pathlib.is_sep c)) f = true ->
  f <> "" -> f <> "." ->
  Pathlib.drv (Pathlib.Path f) = "" ->
  Pathlib.Path f = Pathlib.Parsed "" "" [f].
Proof.
  intros Hf H1 H2. unfold Pathlib.Path. destruct f as [|a f]; [done|].
  simpl in Hf. apply andb_true_iff in Hf as [Ha Hf]. apply negb_true_iff in Ha.
  unfold Pathlib.splitroot. destruct fl.
  - cbn [Pathlib.is_sep] in *. intros _. unfold Pathlib.splitroot_posix.
    rewrite substring_0_1. cbn [String.eqb]. rewrite Ha. cbn [Pathlib.sep].
    rewrite (split_last "/" "").
    + cbn [List.filter]. by rewrite name_kept.
    + simpl. by rewrite Ha.
  - cbn [Pathlib.is_sep] in *. apply orb_false_iff in Ha as [Ha1 Ha2].
    assert (no_char "/" (String a f) = true /\ no_char Pathlib.backslash (String a f) = true)
      as [Hs Hb].
    { unfold no_char. simpl. rewrite Ha1, Ha2. cbn [negb andb].
      split; (eapply all_chars_impl; [|exact Hf]); intros c Hc;
        apply negb_true_iff, orb_false_iff in Hc as [Hc1 Hc2];
        by rewrite ?Hc1, ?Hc2. }
    rewrite replace_char_clean by done.
    rewrite splitroot_windows_plain by (by apply no_double_backslash).
    cbv zeta. rewrite substring_0_1.
    destruct (String.eqb (String.substring 1 1 (String a f)) ":"
              && Pathlib.is_drive_letter (String a "")).
    + destruct (String.eqb _ _); cbn [Pathlib.drv]; by destruct f.
    + cbn [String.eqb]. rewrite Ha2. intros _. cbn [Pathlib.sep].
      rewrite (split_last Pathlib.backslash "") by done.
      cbn [List.filter]. by rewrite name_kept.
Qed.

Lemma truediv_file (p : Pathlib.path) (f : string) :
  Pathlib.Path f = Pathlib.Parsed "" "" [f] ->
  Pathlib.truediv p f
  = Pathlib.Parsed (Pathlib.drv p) (Pathlib.root p) (Pathlib.tail p ++ [f]).
Proof. intros Hf. unfold Pathlib.truediv. by rewrite Hf. Qed.

End Flavour.

Lemma posix_no_drive (s : string) : Pathlib.drv (@Pathlib.Path Pathlib.Posix s) = "".
Proof.
  unfold Pathlib.Path. destruct s as [|a s]; [done|].
  unfold Pathlib.splitroot, Pathlib.splitroot_posix.
  destruct (String.eqb _ _); [|done]. by destruct (Nat.eqb _ _).
Qed.

End PathComponentFacts.

(** ** Saved sprites *)
Section SaveFacts.

Context `{Env}.

Implicit Types (img : Image) (files : gmap string Image).
Implicit Types (items : list (string * PValue)).


Lemma process_frames_length img dir files items :
  List.length (snd (process_frames img dir files items)) = List.length items.
Proof.
  by rewrite <- (length_map fst), process_frames_names, length_map.
Qed.


End SaveFacts.

Section NameFacts.






End NameFacts.


(** Only the last suffix is an extension, and a leading dot starts none. *)
Example sprite_filename_examples :
  List.map (@sprite_filename_of Pathlib.Posix)
    ["hero_0.png"; "idle/1"; "idle_1"; "a/b/c.tar.gz"; ".hidden"; "a/"; "";
     "sprites\hero.png"; "a:b.png"]
  = ["hero_0.png"; "1.png"; "idle_1.png"; "c.tar.png"; ".hidden.png"; "a.png"; ".png";
     "sprites\hero.png"; "a:b.png"].
Proof. reflexivity. Qed.

(** On Windows a backslash separates components too, and a drive is no
    part of the name. *)
Example sprite_filename_windows :
  List.map (@sprite_filename_of Pathlib.Windows)
    ["hero_0.png"; "idle/1"; "sprites\hero.png"; "a:b.png"; "C:\sheets\a.b.png";
     "a/D:x.png"]
  = ["hero_0.png"; "1.png"; "hero.png"; "b.png"; "a.b.png"; "D:x.png"].
Proof. reflexivity. Qed.


(** ** Cropping *)
Section CropFacts.

Lemma length_concat_rows {A : Type} (rows : list (list A)) (n : nat) :
  Forall (fun row => List.length row = n) rows ->
  List.length (List.concat rows) = (List.length rows * n)%nat.
Proof.
  induction 1 as [|row rows Hrow _ IH]; [done|].
  simpl. rewrite List.length_app, IH, Hrow. lia.
Qed.

Lemma lookup_map {A B : Type} (f : A -> B) (l : list A) (i : nat) :
  List.map f l !! i = f <$> (l !! i).
Proof. revert i. induction l as [|a l IH]; intros [|i]; simpl; auto. Qed.

Lemma Forall_map_all {A B : Type} (f : A -> B) (P : B -> Prop) (l : list A) :
  (forall a, P (f a)) -> Forall P (List.map f l).
Proof. intros Hf. induction l; simpl; constructor; auto. Qed.

Lemma getpixel_outside (im : Pillow.bitmap) (i j : Z) :
  i < 0 \/ j < 0 \/ Pillow.height im <= j
  \/ Forall (fun row => Z.of_nat (List.length row) <= i) im ->
  Pillow.getpixel im i j = Pillow.transparent.
Proof.
  unfold Pillow.getpixel, Pillow.height.
  destruct (Z.leb_spec 0 i) as [Hi|Hi], (Z.leb_spec 0 j) as [Hj|Hj];
    cbn [andb]; try done.
  intros [?|[?|[Hh|Hw]]]; try lia.
  - rewrite lookup_ge_None_2; [done|]. lia.
  - destruct (im !! Z.to_nat j) as [row|] eqn:Hrow; [|done].
    rewrite lookup_ge_None_2; [done|].
    rewrite Forall_forall in Hw.
    specialize (Hw row (list_elem_of_lookup_2 _ _ _ Hrow)). lia.
Qed.

Lemma getpixel_crop (im : Pillow.bitmap) (x y w h i j : Z) (sprite : Pillow.bitmap) :
  Pillow.crop im (x, y, x + w, y + h) = Ok sprite ->
  0 <= i < w -> 0 <= j < h ->
  Pillow.getpixel sprite i j = Pillow.getpixel im (x + i) (y + j).
Proof.
  intros [= <-] Hi Hj. unfold Pillow.getpixel at 1.
  destruct (Z.leb_spec 0 i); [|lia]. destruct (Z.leb_spec 0 j); [|lia].
  cbn [andb]. rewrite !Z.add_simpl_l.
  rewrite lookup_map, lookup_seqZ_lt by lia. cbn [fmap option_fmap option_map].
  rewrite lookup_map, lookup_seqZ_lt by lia. cbn [fmap option_fmap option_map].
  simpl. by rewrite !Z2Nat.id by lia.
Qed.

End CropFacts.

(** C6.  Against the crop described by the specification: a rect with
    positive width and height is cropped without an exception wherever it
    lies; the buffer has [w] columns and [h] rows, [w * h] pixels; its
    pixels are those of the image at the same place, and the places
    outside the image are transparent.  The script hands every rect to
    the crop as it is: the entry fails only if the save is refused. *)
Theorem crop_beyond_bounds {fl : Pathlib.flavour}
    (im : Pillow.bitmap) (x y w h : Z) :
  0 < w -> 0 < h ->
  exists sprite,
    Pillow.crop im (x, y, x + w, y + h) = Ok sprite
    /\ Pillow.width sprite = w /\ Pillow.height sprite = h
    /\ Forall (fun row => Z.of_nat (List.length row) = w) sprite
    /\ Z.of_nat (Pillow.pixel_count sprite) = w * h
    /\ (forall i j, 0 <= i < w -> 0 <= j < h ->
          Pillow.getpixel sprite i j = Pillow.getpixel im (x + i) (y + j))
    /\ (forall i j,
          i < 0 \/ j < 0 \/ Pillow.height im <= j
          \/ Forall (fun row => Z.of_nat (List.length row) <= i) im ->
          Pillow.getpixel im i j = Pillow.transparent)
    /\ (forall Image_open write_error plistlib_load home mkdir
               dir files name frame_str,
          parse_rect_string frame_str = Ok (x, y, w, h) ->
          let E := pillow_env Image_open write_error plistlib_load home mkdir in
          let path := Pathlib.joinpath dir (sprite_filename_of name) in
          @extract_sprite E im dir files name frame_str
          = match write_error sprite path files with
            | Some e => (files, Failed e)
            | None => (<[path := sprite]> files, Saved (sprite_filename_of name) sprite)
            end).
Proof.
  intros Hw Hh. eexists. split; [reflexivity|].
  rewrite !Z.add_simpl_l.
  set (row := fun j : Z =>
                List.map (fun i => Pillow.getpixel im (x + i) (y + j)) (seqZ 0 w)).
  assert (forall j, List.length (row j) = Z.to_nat w) as Hrow.
  { intros j. unfold row. by rewrite length_map, length_seqZ. }
  assert (Forall (fun r => List.length r = Z.to_nat w) (List.map row (seqZ 0 h)))
    as Hrows.
  { by apply Forall_map_all. }
  repeat apply conj.
  - unfold Pillow.width. rewrite (seqZ_cons 0 h) by done. simpl.
    rewrite Hrow. lia.
  - unfold Pillow.height. rewrite length_map, length_seqZ. lia.
  - eapply Forall_impl; [exact Hrows|]. simpl. intros r ->. lia.
  - unfold Pillow.pixel_count. rewrite (length_concat_rows _ _ Hrows).
    rewrite length_map, length_seqZ. lia.
  - intros i j Hi Hj. apply (getpixel_crop im x y w h); [|done..].
    unfold Pillow.crop. by rewrite !Z.add_simpl_l.
  - apply getpixel_outside.
  - intros open refuse load hm mk dir files name frame_str Hp.
    cbn zeta. unfold extract_sprite, save. rewrite Hp. cbn [crop pillow_env].
    unfold Pillow.crop. rewrite !Z.add_simpl_l. fold row.
    cbn [write_error pillow_env].
    by destruct (refuse _ _ files).
Qed.

(** A rect of 8 by 8 pixels that reaches 4 pixels beyond the right edge
    and 4 beyond the lower edge of the 64 by 32 sheet. *)
Lemma crop_beyond_bounds_witness :
  0 < 8 /\ 0 < 8
  /\ exists sprite,
       Pillow.crop Demo.sheet (60, 28, 68, 36) = Ok sprite
       /\ Pillow.width sprite = 8 /\ Pillow.height sprite = 8
       /\ Pillow.getpixel sprite 3 3 = (63, 31, 0, 255)
       /\ Pillow.getpixel sprite 4 3 = Pillow.transparent.
Proof.
  split; [done|]. split; [done|].
  destruct (@crop_beyond_bounds Pathlib.Posix Demo.sheet 60 28 8 8
              ltac:(done) ltac:(done))
    as (sprite & Hc & Hw & Hh & _ & _ & Hpx & _).
  exists sprite. split; [exact Hc|]. split; [exact Hw|]. split; [exact Hh|].
  split.
  - exact (eq_trans (Hpx 3 3 ltac:(done) ltac:(done)) eq_refl).
  - exact (eq_trans (Hpx 4 3 ltac:(done) ltac:(done)) eq_refl).
Defined.

(** ** Rects without pixels *)
Section EmptyFacts.



End EmptyFacts.



(** * Further properties *)

(** ** Rectangle strings that are not well formed *)
Section RectEdgeFacts.

Lemma lstrip_by_all (p : ascii -> bool) (r : string) :
  Str.all_chars p r = true -> Str.lstrip_by p r = "".
Proof.
  induction r as [|x r IH]; simpl; [done|].
  rewrite andb_true_iff. intros [-> Hr]. auto.
Qed.

Lemma rstrip_by_app_all (p : ascii -> bool) (a r : string) :
  Str.all_chars p r = true -> Str.rstrip_by p (a +:+ r) = Str.rstrip_by p a.
Proof.
  intros Hr. induction a as [|x a IH].
  - by apply rstrip_by_all.
  - rewrite app_cons. simpl. by rewrite IH.
Qed.

(** What is stripped around a string does not depend on what is around
    it. *)
Lemma strip_by_around (p : ascii -> bool) (l s r : string) :
  Str.all_chars p l = true -> Str.all_chars p r = true ->
  Str.strip_by p (l +:+ s +:+ r) = Str.strip_by p s.
Proof.
  intros Hl Hr. unfold Str.strip_by. rewrite lstrip_by_app by done.
  induction s as [|c s IH].
  - change ("" +:+ r) with r. by rewrite lstrip_by_all.
  - rewrite app_cons. simpl. destruct (p c); [exact IH|].
    rewrite <- app_cons. by apply rstrip_by_app_all.
Qed.

Lemma split_no_sep (sep t : string) :
  occurs sep t = false -> Str.split sep t = [t].
Proof.
  unfold Str.split. induction t as [|c t IH]; [done|].
  cbn [occurs Str.split_from]. rewrite orb_false_iff. intros [-> Ht].
  by rewrite (IH Ht).
Qed.

Lemma split_three (c0 : ascii) (sep' a b c : string) :
  no_char c0 a = true -> no_char c0 b = true -> no_char c0 c = true ->
  Str.split (String c0 sep')
            (a +:+ String c0 sep' +:+ b +:+ String c0 sep' +:+ c)
  = [a; b; c].
Proof.
  intros Ha Hb Hc. unfold Str.split.
  rewrite (split_from_piece _ _ _ _ "" [b; c]); [by rewrite app_nil_r|done|].
  rewrite split_from_sep. f_equal. by apply split_two.
Qed.

Lemma no_brace_no_close (t : string) :
  Str.all_chars (fun c => negb (is_brace c)) t = true -> no_char "}" t = true.
Proof.
  apply all_chars_impl. intros c. unfold is_brace, Str.in_chars. simpl.
  destruct (Ascii.eqb c "{"), (Ascii.eqb c "}"); done.
Qed.

(** The two pairs of a rectangle string, each non-empty and without
    braces: the string is cut at the separator, each pair at its commas. *)
Lemma parse_rect_string_pairs (l r p0 p1 : string) :
  Str.all_chars is_brace l = true -> Str.all_chars is_brace r = true ->
  p0 <> "" -> p1 <> "" ->
  Str.all_chars (fun c => negb (is_brace c)) p0 = true ->
  Str.all_chars (fun c => negb (is_brace c)) p1 = true ->
  parse_rect_string (PStr (l +:+ (p0 +:+ "},{" +:+ p1) +:+ r))
  = (let* (x, y) := unpack2_float (Str.split "," p0) in
     let* (w, h) := unpack2_float (Str.split "," p1) in
     let* ix := Float.to_int x in
     let* iy := Float.to_int y in
     let* iw := Float.to_int w in
     let* ih := Float.to_int h in
     Ok (ix, iy, iw, ih)).
Proof.
  intros Hl Hr N0 N1 H0 H1. unfold parse_rect_string, Str.strip.
  change (Str.in_chars "{}") with is_brace. rewrite strip_by_around by done.
  assert (Str.strip_by is_brace (p0 +:+ "},{" +:+ p1) = p0 +:+ "},{" +:+ p1) as ->.
  { unfold Str.strip_by.
    assert (Str.lstrip_by is_brace (p0 +:+ "},{" +:+ p1) = p0 +:+ "},{" +:+ p1) as ->.
    { destruct p0 as [|c p0]; [done|]. rewrite app_cons. simpl in *.
      apply andb_true_iff in H0 as [Hc _]. apply negb_true_iff in Hc.
      by rewrite Hc. }
    pose proof (rstrip_by_clean is_brace p1 "" H1 eq_refl) as Hp1.
    rewrite app_nil_r in Hp1. destruct p1 as [|d p1]; [done|].
    rewrite <- app_assoc. rewrite (rstrip_by_app _ _ _ _ _ Hp1).
    by rewrite app_assoc. }
  rewrite (split_two "}" ",{") by (by apply no_brace_no_close).
  by rewrite !strip_by_clean.
Qed.

End RectEdgeFacts.

(** X1.  The braces around a rectangle string never matter, whatever the
    string is: with any braces added before and after it,
    [parse_rect_string] returns the same tuple or raises the same
    exception. *)
Theorem parse_rect_string_any_braces (l s r : string) :
  Str.all_chars is_brace l = true -> Str.all_chars is_brace r = true ->
  parse_rect_string (PStr (l +:+ s +:+ r)) = parse_rect_string (PStr s).
Proof.
  intros Hl Hr. unfold parse_rect_string, Str.strip. change (Str.in_chars "{}") with is_brace.
  by rewrite strip_by_around.
Qed.

Lemma parse_rect_string_any_braces_witness :
  Str.all_chars is_brace "}{" = true /\ Str.all_chars is_brace "{{{" = true
  /\ parse_rect_string (PStr "}{{1,2},{3,4}{{{") = Ok (1, 2, 3, 4)
  /\ parse_rect_string (PStr "}{1;2{{{")
     = Raise (Exn ValueError "Cannot parse rect string: 1;2").
Proof.
  refine (conj eq_refl (conj eq_refl (conj _ _))).
  - exact (eq_trans (parse_rect_string_any_braces "}{" "{1,2},{3,4}" "{{{"
                       eq_refl eq_refl) eq_refl).
  - exact (eq_trans (parse_rect_string_any_braces "}{" "1;2" "{{{"
                       eq_refl eq_refl) eq_refl).
Defined.

(** X2.  A string in which, once its outer braces are stripped, the
    separator between the two pairs does not occur is rejected: the
    [ValueError] of line 75, whose message ends with the stripped
    string. *)
Theorem parse_rect_string_no_separator (s : string) :
  occurs "},{" (Str.strip "{}" s) = false ->
  parse_rect_string (PStr s)
  = Raise (Exn ValueError ("Cannot parse rect string: " +:+ Str.strip "{}" s)).
Proof.
  intros Hs. unfold parse_rect_string. by rewrite (split_no_sep _ _ Hs).
Qed.

Lemma parse_rect_string_no_separator_witness :
  occurs "},{" (Str.strip "{}" "{{1,2,3,4}}") = false
  /\ parse_rect_string (PStr "{{1,2,3,4}}")
     = Raise (Exn ValueError "Cannot parse rect string: 1,2,3,4")
  /\ parse_rect_string (PStr "")
     = Raise (Exn ValueError "Cannot parse rect string: ").
Proof.
  refine (conj eq_refl (conj _ _)).
  - exact (parse_rect_string_no_separator "{{1,2,3,4}}" eq_refl).
  - exact (parse_rect_string_no_separator "" eq_refl).
Defined.

(** X3.  A string with three pairs instead of two is rejected in the same
    way: for three non-empty pairs without braces,
    ["{{P},{Q},{R}}"] raises the [ValueError] of line 75. *)
Theorem parse_rect_string_three_pairs (p q r : string) :
  p <> "" -> r <> "" ->
  Str.all_chars (fun c => negb (is_brace c)) p = true ->
  Str.all_chars (fun c => negb (is_brace c)) q = true ->
  Str.all_chars (fun c => negb (is_brace c)) r = true ->
  parse_rect_string (PStr ("{{" +:+ p +:+ "},{" +:+ q +:+ "},{" +:+ r +:+ "}}"))
  = Raise (Exn ValueError
             ("Cannot parse rect string: " +:+ p +:+ "},{" +:+ q +:+ "},{" +:+ r)).
Proof.
  intros Np Nr Hp Hq Hr. unfold parse_rect_string, Str.strip. change (Str.in_chars "{}") with is_brace.
  replace ("{{" +:+ p +:+ "},{" +:+ q +:+ "},{" +:+ r +:+ "}}")
    with ("{{" +:+ (p +:+ "},{" +:+ q +:+ "},{" +:+ r) +:+ "}}")
    by (by rewrite !app_assoc).
  rewrite strip_by_around by done.
  assert (Str.strip_by is_brace (p +:+ "},{" +:+ q +:+ "},{" +:+ r)
          = p +:+ "},{" +:+ q +:+ "},{" +:+ r) as ->.
  { unfold Str.strip_by.
    assert (Str.lstrip_by is_brace (p +:+ "},{" +:+ q +:+ "},{" +:+ r)
            = p +:+ "},{" +:+ q +:+ "},{" +:+ r) as ->.
    { destruct p as [|c p]; [done|]. rewrite app_cons. simpl in *.
      apply andb_true_iff in Hp as [Hc _]. apply negb_true_iff in Hc.
      by rewrite Hc. }
    pose proof (rstrip_by_clean is_brace r "" Hr eq_refl) as Hr'.
    rewrite app_nil_r in Hr'. destruct r as [|d r]; [done|].
    rewrite <- !app_assoc. rewrite (rstrip_by_app _ _ _ _ _ Hr').
    by rewrite !app_assoc. }
  by rewrite (split_three "}" ",{") by (by apply no_brace_no_close).
Qed.

Lemma parse_rect_string_three_pairs_witness :
  parse_rect_string (PStr "{{1,2},{3,4},{5,6}}")
  = Raise (Exn ValueError "Cannot parse rect string: 1,2},{3,4},{5,6").
Proof.
  exact (parse_rect_string_three_pairs "1,2" "3,4" "5,6"
           ltac:(done) ltac:(done) eq_refl eq_refl eq_refl).
Defined.

(** ** Components *)
Section ComponentFacts.

Lemma component_not_brace (t : string) :
  is_component t = true -> Str.all_chars (fun c => negb (is_brace c)) t = true.
Proof. apply all_chars_impl. exact component_no_brace. Qed.

Lemma component_not_comma (t : string) :
  is_component t = true -> no_char "," t = true.
Proof. apply all_chars_impl. exact component_no_comma. Qed.

Lemma pair_not_brace (a b : string) :
  is_component a = true -> is_component b = true ->
  Str.all_chars (fun c => negb (is_brace c)) (a +:+ "," +:+ b) = true.
Proof.
  intros Ha Hb. rewrite !all_chars_app.
  by rewrite (component_not_brace a Ha), (component_not_brace b Hb).
Qed.

Lemma binary_round_aux_opp (m e : Z) (l : location) :
  binary_round_aux Float.prec Float.emax true m e l
  = SFopp (binary_round_aux Float.prec Float.emax false m e l).
Proof.
  unfold binary_round_aux.
  destruct (shr_fexp _ _ m e l) as [mrs e1].
  destruct (shr_fexp _ _ _ e1 loc_Exact) as [mrs' e2].
  destruct (shr_m mrs'); try done. by destruct (e2 <=? _).
Qed.

Lemma of_decimal_opp (m e : Z) :
  Float.of_decimal true m e = SFopp (Float.of_decimal false m e).
Proof.
  unfold Float.of_decimal. destruct (m =? 0); [done|].
  unfold SFdiv. destruct (SFdiv_core_binary _ _ _ _ _ _) as [[mz ez] lz].
  apply binary_round_aux_opp.
Qed.

(** The sign of a rounded number is the sign that was asked for. *)
Lemma binary_round_aux_sign (s : bool) (m e : Z) (l : location) :
  match binary_round_aux Float.prec Float.emax s m e l with
  | S754_zero s' | S754_infinity s' | S754_finite s' _ _ => s' = s
  | S754_nan => True
  end.
Proof.
  unfold binary_round_aux.
  destruct (shr_fexp _ _ m e l) as [mrs e1].
  destruct (shr_fexp _ _ _ e1 loc_Exact) as [mrs' e2].
  destruct (shr_m mrs'); try done. by destruct (e2 <=? _).
Qed.

Lemma trunc_nonneg (f : spec_float) :
  match f with
  | S754_zero s | S754_infinity s | S754_finite s _ _ => s = false
  | S754_nan => True
  end ->
  0 <= Float.trunc f.
Proof.
  destruct f as [s|s| |s m e]; simpl; try done. intros ->. simpl.
  destruct (0 <=? e).
  - by apply Z.shiftl_nonneg.
  - by apply Z.shiftr_nonneg.
Qed.

Lemma numeral_float_nonneg (t : string) : 0 <= Float.trunc (numeral_float t).
Proof.
  apply trunc_nonneg. unfold numeral_float.
  destruct (Str.span Float.is_digit t) as [ip r].
  unfold Float.of_decimal. destruct (_ =? 0); [done|].
  unfold SFdiv. cbn [xorb].
  destruct (SFdiv_core_binary _ _ _ _ _ _) as [[mz ez] lz].
  apply binary_round_aux_sign.
Qed.

Lemma trunc_opp (f : spec_float) : Float.trunc (SFopp f) = - Float.trunc f.
Proof. destruct f as [s|s| |[] m e]; simpl; try done; lia. Qed.

Lemma to_int_opp (f : spec_float) :
  Float.to_int (SFopp f) = (let* z := Float.to_int f in Ok (- z)).
Proof.
  destruct f as [s|s| |s m e]; try done.
  change (Ok (Float.trunc (SFopp (S754_finite s m e)))
          = Ok (- Float.trunc (S754_finite s m e))).
  by rewrite trunc_opp.
Qed.

(** [float] of a numeral with a minus sign. *)
Lemma of_str_minus (t : string) :
  is_numeral t = true ->
  Float.of_str ("-" +:+ t) = Ok (SFopp (numeral_float t)).
Proof.
  intros Ht. pose proof (numeral_chars t Ht) as Hch.
  assert (Str.all_chars (fun c => negb (Float.is_space c)) t = true) as Hsp.
  { eapply all_chars_impl; [|exact Hch].
    intros c Hc. by destruct (digit_or_point_plain c Hc) as (_ & -> & _). }
  assert (Str.all_chars (fun c => negb (Ascii.eqb c "_")) t = true) as Hu.
  { eapply all_chars_impl; [|exact Hch].
    intros c Hc. by destruct (digit_or_point_plain c Hc) as (_ & _ & -> & _). }
  unfold Float.of_str, Float.strip_space.
  rewrite strip_by_clean by (change ("-" +:+ t) with (String "-" t); simpl; done).
  change ("-" +:+ t) with (String "-" t).
  unfold Float.of_stripped. cbn [Float.underscores_ok Float.remove_underscores].
  change (Ascii.eqb "-" "_") with false. cbn [negb andb].
  rewrite underscores_ok_plain, remove_underscores_plain by done.
  pose proof (read_number_numeral t Ht) as Hread.
  pose proof (numeral_not_empty t Ht) as Hne.
  destruct t as [|c t']; [done|]. simpl in Hch.
  apply andb_true_iff in Hch as [Hc _].
  destruct (digit_or_point_plain c Hc) as (_ & _ & _ & Hm & Hp & Hl & Hi & Hn).
  unfold Float.read_number in *. cbn [Float.read_sign].
  assert (Float.read_sign (String c t') = (false, String c t')) as Hsign.
  { unfold Float.read_sign.
    destruct c as [[] [] [] [] [] [] [] []]; try done; by vm_compute in Hm, Hp. }
  rewrite Hsign in Hread.
  assert (String.eqb (Str.lower (String c t')) "inf" = false) as Einf
    by (simpl; by rewrite Hl, Hi).
  assert (String.eqb (Str.lower (String c t')) "infinity" = false) as Einfinity
    by (simpl; by rewrite Hl, Hi).
  assert (String.eqb (Str.lower (String c t')) "nan" = false) as Enan
    by (simpl; by rewrite Hl, Hn).
  rewrite Einf, Einfinity, Enan in *. cbn [orb] in *.
  destruct (Str.span Float.is_digit (String c t')) as [ip r1].
  destruct (match r1 with
            | String "." r' => Str.span Float.is_digit r'
            | _ => ("", r1)
            end) as [fp r2].
  destruct ip, fp; try done;
    destruct (Float.read_exponent r2) as [e|]; try done;
    injection Hread as <-; by rewrite of_decimal_opp.
Qed.

Lemma of_str_signed (minus : bool) (t : string) :
  is_numeral t = true ->
  Float.of_str (signed minus t)
  = Ok (if minus then SFopp (numeral_float t) else numeral_float t).
Proof.
  intros Ht. destruct minus; [by apply of_str_minus|by apply of_str_numeral].
Qed.

Lemma signed_component (minus : bool) (t : string) :
  is_numeral t = true -> is_component (signed minus t) = true.
Proof.
  intros Ht. pose proof (numeral_component t Ht) as Hc.
  destruct minus; [|done]. unfold signed, is_component in *.
  rewrite all_chars_app. by rewrite Hc.
Qed.

Lemma to_int_signed (minus : bool) (f : spec_float) :
  Float.to_int (if minus then SFopp f else f)
  = (let* z := Float.to_int f in Ok (cond_Zopp minus z)).
Proof.
  destruct minus; [apply to_int_opp|]. by destruct (Float.to_int f).
Qed.

End ComponentFacts.

(** X4.  A pair must hold exactly two values: with one numeral in a pair,
    or with three, [parse_rect_string] raises the [ValueError] of the
    unpacking, whatever the other pair is. *)
Theorem parse_rect_string_pair_arity (ta tb tc tw th : string) :
  is_numeral ta = true -> is_numeral tb = true -> is_numeral tc = true ->
  is_numeral tw = true -> is_numeral th = true ->
  let short := Exn ValueError "not enough values to unpack (expected 2, got 1)" in
  let long := Exn ValueError "too many values to unpack (expected 2)" in
  parse_rect_string (PStr ("{{" +:+ (ta +:+ "},{" +:+ tw +:+ "," +:+ th) +:+ "}}"))
  = Raise short
  /\ parse_rect_string (PStr ("{{" +:+ ((tw +:+ "," +:+ th) +:+ "},{" +:+ ta) +:+ "}}"))
     = Raise short
  /\ parse_rect_string
       (PStr ("{{" +:+ ((ta +:+ "," +:+ tb +:+ "," +:+ tc) +:+ "},{" +:+ tw +:+ "," +:+ th)
              +:+ "}}"))
     = Raise long
  /\ parse_rect_string
       (PStr ("{{" +:+ ((tw +:+ "," +:+ th) +:+ "},{" +:+ ta +:+ "," +:+ tb +:+ "," +:+ tc)
              +:+ "}}"))
     = Raise long.
Proof.
  intros Ha Hb Hc Hw Hh short long.
  pose proof (numeral_component _ Ha) as Ca. pose proof (numeral_component _ Hb) as Cb.
  pose proof (numeral_component _ Hc) as Cc. pose proof (numeral_component _ Hw) as Cw.
  pose proof (numeral_component _ Hh) as Ch.
  pose proof (numeral_not_empty _ Ha) as Na. pose proof (numeral_not_empty _ Hw) as Nw.
  assert (Str.split "," ta = [ta]) as Sa
    by (apply (split_last "," ""); by apply component_not_comma).
  assert (Str.split "," (tw +:+ "," +:+ th) = [tw; th]) as Sw
    by (apply (split_two "," ""); by apply component_not_comma).
  assert (Str.split "," (ta +:+ "," +:+ tb +:+ "," +:+ tc) = [ta; tb; tc]) as Sabc
    by (apply (split_three "," ""); by apply component_not_comma).
  assert (Str.all_chars (fun c => negb (is_brace c)) (ta +:+ "," +:+ tb +:+ "," +:+ tc)
          = true) as Babc.
  { rewrite !all_chars_app.
    by rewrite (component_not_brace ta Ca), (component_not_brace tb Cb),
      (component_not_brace tc Cc). }
  repeat apply conj.
  - rewrite parse_rect_string_pairs;
      auto using component_not_brace, pair_not_brace, app_not_empty_l.
    rewrite Sa. unfold unpack2_float. by rewrite of_str_numeral.
  - rewrite parse_rect_string_pairs;
      auto using component_not_brace, pair_not_brace, app_not_empty_l.
    rewrite Sa, Sw. unfold unpack2_float. by rewrite !of_str_numeral.
  - rewrite parse_rect_string_pairs;
      auto using component_not_brace, pair_not_brace, app_not_empty_l.
    rewrite Sabc. unfold unpack2_float. by rewrite !of_str_numeral.
  - rewrite parse_rect_string_pairs;
      auto using component_not_brace, pair_not_brace, app_not_empty_l.
    rewrite Sabc, Sw. unfold unpack2_float. by rewrite !of_str_numeral.
Qed.

Lemma parse_rect_string_pair_arity_witness :
  parse_rect_string (PStr "{{1},{2,3}}")
  = Raise (Exn ValueError "not enough values to unpack (expected 2, got 1)")
  /\ parse_rect_string (PStr "{{1,4,5},{2,3}}")
     = Raise (Exn ValueError "too many values to unpack (expected 2)").
Proof.
  pose proof (parse_rect_string_pair_arity "1" "4" "5" "2" "3"
                eq_refl eq_refl eq_refl eq_refl eq_refl) as (H1 & _ & H3 & _).
  split; [exact H1|exact H3].
Defined.

(** X5.  A string of the shape ["{{X,Y},{W,H}}"], whatever the four
    components are as long as they hold no brace and no comma, parses
    exactly when each component is accepted by [float] and the float by
    [int], that is, is a number and neither an infinity nor a NaN. *)
Theorem parse_rect_string_accepts (tx ty tw th : string) :
  is_component tx = true -> is_component ty = true ->
  is_component tw = true -> is_component th = true ->
  is_ok (parse_rect_string (PStr (rect_text tx ty tw th)))
  = converts tx && converts ty && converts tw && converts th.
Proof.
  intros Hx Hy Hw Hh. unfold rect_text.
  rewrite parse_rect_string_components by done.
  unfold converts, int_of_float_str, unpack2_float.
  destruct (Float.of_str tx) as [fx|]; [|done]. cbn [bind].
  destruct (Float.of_str ty) as [fy|]; cbn [bind].
  2:{ by destruct (Float.to_int fx). }
  destruct (Float.of_str tw) as [fw|]; cbn [bind].
  2:{ destruct (Float.to_int fx), (Float.to_int fy); done. }
  destruct (Float.of_str th) as [fh|]; cbn [bind].
  2:{ destruct (Float.to_int fx), (Float.to_int fy), (Float.to_int fw); done. }
  destruct (Float.to_int fx), (Float.to_int fy), (Float.to_int fw),
    (Float.to_int fh); done.
Qed.

Lemma parse_rect_string_accepts_witness :
  is_ok (parse_rect_string (PStr "{{-1e2, +.5 },{1_000,0x10}}")) = false
  /\ is_ok (parse_rect_string (PStr "{{-1e2, +.5 },{1_000,16}}")) = true
  /\ is_ok (parse_rect_string (PStr "{{1,2},{inf,4}}")) = false.
Proof.
  split; [|split].
  - exact (eq_trans (parse_rect_string_accepts "-1e2" " +.5 " "1_000" "0x10"
                       eq_refl eq_refl eq_refl eq_refl) eq_refl).
  - exact (eq_trans (parse_rect_string_accepts "-1e2" " +.5 " "1_000" "16"
                       eq_refl eq_refl eq_refl eq_refl) eq_refl).
  - exact (eq_trans (parse_rect_string_accepts "1" "2" "inf" "4"
                       eq_refl eq_refl eq_refl eq_refl) eq_refl).
Defined.

(** X6.  A minus sign before a numeral negates the integer: the integer
    part is taken toward zero on both sides of zero.  For numerals with
    or without a minus sign, [parse_rect_string] returns the integers of
    the unsigned string with the signs put back. *)
Theorem parse_rect_string_signed (sx sy sw sh : bool) (tx ty tw th : string) :
  is_numeral tx = true -> is_numeral ty = true ->
  is_numeral tw = true -> is_numeral th = true ->
  parse_rect_string
    (PStr (rect_text (signed sx tx) (signed sy ty) (signed sw tw) (signed sh th)))
  = (let* (x, y, w, h) := parse_rect_string (PStr (rect_text tx ty tw th)) in
     Ok (cond_Zopp sx x, cond_Zopp sy y, cond_Zopp sw w, cond_Zopp sh h)).
Proof.
  intros Hx Hy Hw Hh. unfold rect_text.
  rewrite !parse_rect_string_components
    by auto using signed_component, numeral_component.
  unfold unpack2_float. rewrite !of_str_signed, !of_str_numeral by done.
  cbn [bind]. rewrite !to_int_signed.
  destruct (Float.to_int (numeral_float tx)); [|done].
  destruct (Float.to_int (numeral_float ty)); [|done].
  destruct (Float.to_int (numeral_float tw)); [|done].
  by destruct (Float.to_int (numeral_float th)).
Qed.

Lemma parse_rect_string_signed_witness :
  parse_rect_string (PStr "{{-3.9,2.5},{-0.5,4.1}}") = Ok (-3, 2, 0, 4).
Proof.
  exact (eq_trans (parse_rect_string_signed true false true false
                     "3.9" "2.5" "0.5" "4.1" eq_refl eq_refl eq_refl eq_refl)
                  eq_refl).
Defined.

(** X7.  The rect of a string whose components are non-negative numerals
    has no negative part: when [parse_rect_string] returns, x, y, width
    and height are all at least 0. *)
Theorem parse_rect_string_nonneg (tx ty tw th : string) (x y w h : Z) :
  is_numeral tx = true -> is_numeral ty = true ->
  is_numeral tw = true -> is_numeral th = true ->
  parse_rect_string (PStr (rect_text tx ty tw th)) = Ok (x, y, w, h) ->
  0 <= x /\ 0 <= y /\ 0 <= w /\ 0 <= h.
Proof.
  intros Hx Hy Hw Hh. rewrite parse_rect_string_plain by done.
  pose proof (numeral_float_nonneg tx). pose proof (numeral_float_nonneg ty).
  pose proof (numeral_float_nonneg tw). pose proof (numeral_float_nonneg th).
  destruct (numeral_float tx), (numeral_float ty), (numeral_float tw),
    (numeral_float th); simpl; try done; intros [= <- <- <- <-]; done.
Qed.

Lemma parse_rect_string_nonneg_witness :
  parse_rect_string (PStr "{{0.4,7},{12.75,3}}") = Ok (0, 7, 12, 3)
  /\ (0 <= 0 /\ 0 <= 7 /\ 0 <= 12 /\ 0 <= 3).
Proof.
  split; [reflexivity|].
  exact (parse_rect_string_nonneg "0.4" "7" "12.75" "3" 0 7 12 3
           eq_refl eq_refl eq_refl eq_refl eq_refl).
Defined.

(** ** Integers *)
Section IntegerFacts.

Lemma digits2_log2 (p : positive) : Zpos (digits2_pos p) = Z.log2 (Zpos p) + 1.
Proof.
  induction p as [p IH|p IH|]; simpl; try done.
  - rewrite Pos2Z.inj_succ. destruct p; simpl in *; lia.
  - rewrite Pos2Z.inj_succ. destruct p; simpl in *; lia.
Qed.

Lemma digits2_bound (p : positive) :
  Zpos p < 2 ^ 53 -> 1 <= Zpos (digits2_pos p) <= 53.
Proof.
  intros Hp. rewrite digits2_log2.
  pose proof (Z.log2_nonneg (Zpos p)).
  assert (Z.log2 (Zpos p) < 53) by (apply Z.log2_lt_pow2; lia). lia.
Qed.

Lemma div_eucl_1 (a : Z) : Z.div_eucl a 1 = (a, 0).
Proof.
  pose proof (Z.div_1_r a) as Hq. pose proof (Z.mod_1_r a) as Hr.
  unfold Z.div, Z.modulo in *. destruct (Z.div_eucl a 1) as [q r].
  simpl in *. by subst.
Qed.

(** The float of an integer below 2^53 is the integer. *)
Lemma of_decimal_integer (p : positive) :
  Zpos p < 2 ^ 53 ->
  let d := Zpos (digits2_pos p) in
  Float.of_decimal false (Zpos p) 0
  = S754_finite false (Z.to_pos (Zpos p * 2 ^ (53 - d))) (d - 53).
Proof.
  intros Hp d. pose proof (digits2_bound p Hp) as Hd. fold d in Hd.
  unfold Float.of_decimal.
  change (Zpos p =? 0) with false. change (0 <=? 0) with true. cbn iota.
  rewrite Z.pow_0_r, Z.mul_1_r. change (Z.to_pos (Zpos p)) with p.
  change (Z.to_pos 1) with 1%positive.
  unfold SFdiv, SFdiv_core_binary.
  change (Zdigits2 (Zpos p)) with d. change (Zdigits2 1) with 1.
  assert (Z.min (fexp Float.prec Float.emax (d + 0 - (1 + 0))) (0 - 0) = d - 54) as ->.
  { unfold fexp, emin, Float.prec, Float.emax. lia. }
  replace (0 - 0 - (d - 54)) with (54 - d) by lia.
  set (q := Z.to_pos (Zpos p * 2 ^ (53 - d))).
  assert (0 < Zpos p * 2 ^ (53 - d)) as Hq
    by (apply Z.mul_pos_pos; [lia|apply Z.pow_pos_nonneg; lia]).
  assert (Z.shiftl (Zpos p) (54 - d) = Zpos (q~0)) as Hshift.
  { rewrite Z.shiftl_mul_pow2 by lia. change (Zpos q~0) with (2 * Zpos q).
    unfold q. rewrite Z2Pos.id by done.
    replace (54 - d) with (Z.succ (53 - d)) by lia.
    rewrite Z.pow_succ_r by lia. lia. }
  destruct (54 - d) as [|k|k] eqn:Hk; try lia. rewrite <- Hk in *.
  rewrite Hshift, div_eucl_1.
  change (new_location 1 0) with loc_Exact. cbn [xorb].
  assert (Zpos (digits2_pos q) = 53) as Hdq.
  { rewrite digits2_log2. unfold q. rewrite Z2Pos.id by done.
    rewrite Z.log2_mul_pow2 by lia. pose proof (digits2_log2 p). lia. }
  unfold binary_round_aux, shr_fexp.
  change (Zdigits2 (Zpos q~0)) with (Zpos (Pos.succ (digits2_pos q))).
  rewrite Pos2Z.inj_succ, Hdq.
  assert (fexp Float.prec Float.emax (Z.succ 53 + (d - 54)) - (d - 54) = 1) as ->.
  { unfold fexp, emin, Float.prec, Float.emax. lia. }
  cbn [shr shr_record_of_loc].
  change (SpecFloat.iter_pos shr_1 1
            {| shr_m := Zpos q~0; shr_r := false; shr_s := false |})
    with {| shr_m := Zpos q; shr_r := false; shr_s := false |}.
  cbn [loc_of_shr_record round_nearest_even shr_m].
  change (Zdigits2 (Zpos q)) with (Zpos (digits2_pos q)). rewrite Hdq.
  assert (fexp Float.prec Float.emax (53 + (d - 54 + 1)) - (d - 54 + 1) = 0) as ->.
  { unfold fexp, emin, Float.prec, Float.emax. lia. }
  cbn [shr shr_m].
  assert ((d - 54 + 1 <=? Float.emax - Float.prec) = true) as ->.
  { apply Z.leb_le. unfold Float.prec, Float.emax. lia. }
  f_equal. lia.
Qed.

Lemma trunc_of_integer (p : positive) :
  Zpos p < 2 ^ 53 ->
  Float.to_int (Float.of_decimal false (Zpos p) 0) = Ok (Zpos p).
Proof.
  intros Hp. rewrite of_decimal_integer by done.
  pose proof (digits2_bound p Hp) as Hd.
  set (d := Zpos (digits2_pos p)) in *.
  assert (0 < Zpos p * 2 ^ (53 - d)) as Hq
    by (apply Z.mul_pos_pos; [lia|apply Z.pow_pos_nonneg; lia]).
  cbn [Float.to_int Float.trunc cond_Zopp]. f_equal.
  rewrite Z2Pos.id by done.
  destruct (Z.leb_spec 0 (d - 53)).
  - replace (d - 53) with 0 by lia. replace (53 - d) with 0 by lia.
    rewrite Z.shiftl_0_r. simpl. lia.
  - rewrite Z.shiftr_div_pow2 by lia. replace (- (d - 53)) with (53 - d) by lia.
    apply Z.div_mul. apply Z.pow_nonzero; lia.
Qed.

Lemma digit_value_range (c : ascii) :
  Float.is_digit c = true -> 0 <= Float.digit_value c <= 9.
Proof. destruct c as [[] [] [] [] [] [] [] []]; vm_compute; intuition congruence. Qed.

Lemma digits_value_nonneg (t : string) (acc : Z) :
  Str.all_chars Float.is_digit t = true -> 0 <= acc ->
  0 <= Float.digits_value acc t.
Proof.
  revert acc. induction t as [|c t IH]; intros acc Ht Hacc; simpl in *; [done|].
  apply andb_true_iff in Ht as [Hc Ht]. apply IH; [done|].
  pose proof (digit_value_range c Hc). lia.
Qed.

Lemma is_integer_numeral (t : string) :
  is_integer t = true ->
  is_numeral t = true
  /\ numeral_float t = Float.of_decimal false (Float.digits_value 0 t) 0.
Proof.
  unfold is_integer. rewrite andb_true_iff. intros [Hd Hne].
  unfold is_numeral, numeral_float. rewrite (span_all _ _ Hd).
  by rewrite app_nil_r.
Qed.

(** [int(float(t))] of an integer numeral below 2^53 is the integer. *)
Lemma int_of_integer (t : string) :
  is_integer t = true -> Float.digits_value 0 t < 2 ^ 53 ->
  Float.to_int (numeral_float t) = Ok (Float.digits_value 0 t).
Proof.
  intros Ht Hlt. destruct (is_integer_numeral t Ht) as [_ ->].
  unfold is_integer in Ht. apply andb_true_iff in Ht as [Hd _].
  pose proof (digits_value_nonneg t 0 Hd ltac:(done)) as Hn.
  destruct (Float.digits_value 0 t) as [|p|p]; [done| |lia].
  by apply trunc_of_integer.
Qed.

End IntegerFacts.

(** X8.  Integer components are read exactly: for four numerals without
    a point, each below 2^53, [parse_rect_string] returns the four
    integers they write; the detour through [float] loses nothing. *)
Theorem parse_rect_string_integers (tx ty tw th : string) :
  is_integer tx = true -> is_integer ty = true ->
  is_integer tw = true -> is_integer th = true ->
  Float.digits_value 0 tx < 2 ^ 53 -> Float.digits_value 0 ty < 2 ^ 53 ->
  Float.digits_value 0 tw < 2 ^ 53 -> Float.digits_value 0 th < 2 ^ 53 ->
  parse_rect_string (PStr (rect_text tx ty tw th))
  = Ok (Float.digits_value 0 tx, Float.digits_value 0 ty,
        Float.digits_value 0 tw, Float.digits_value 0 th).
Proof.
  intros Hx Hy Hw Hh Bx By Bw Bh.
  rewrite parse_rect_string_plain by (by apply is_integer_numeral).
  by rewrite !int_of_integer.
Qed.

Lemma parse_rect_string_integers_witness :
  parse_rect_string (PStr "{{1024,0},{9007199254740991,007}}")
  = Ok (1024, 0, 9007199254740991, 7).
Proof.
  exact (parse_rect_string_integers "1024" "0" "9007199254740991" "007"
           eq_refl eq_refl eq_refl eq_refl eq_refl eq_refl eq_refl eq_refl).
Defined.

(** ** The files of a run *)
Section FilesFacts.

Context `{Env}.

Implicit Types (img : Image) (files : gmap string Image).
Implicit Types (items : list (string * PValue)).

(** The files that differ after the entries have been processed are
    sprite files of the entries. *)
Lemma process_frames_changes img dir files items path :
  fst (process_frames img dir files items) !! path <> files !! path ->
  exists name data,
    In (name, data) items
    /\ path = Pathlib.joinpath dir (sprite_filename_of name).
Proof.
  revert files. induction items as [|[name data] items IH]; intros files; [done|].
  rewrite process_frames_cons. cbn [fst]. intros Hne.
  destruct (decide (path = Pathlib.joinpath dir (sprite_filename_of name)))
    as [->|Hpath].
  { exists name, data. split; [by left|done]. }
  destruct (IH (fst (process_sprite img dir files name data))) as (n & d & Hin & ->).
  - intros Heq. apply Hne. rewrite Heq. unfold process_sprite.
    destruct (frame_str_of data) as [frame_str|]; [|done].
    destruct (extract_sprite_cases img dir files name frame_str)
      as [[e ->]|[sprite ->]]; [done|].
    cbn [fst]. by rewrite lookup_insert_ne.
  - exists n, d. split; [by right|done].
Qed.

Lemma written_lookup dir (os : list (string * outcome Image)) files path :
  written dir os files !! path
  = match saved_at dir path os with
    | Some sprite => Some sprite
    | None => files !! path
    end.
Proof.
  revert files. induction os as [|[name o] os IH]; intros files; [done|].
  change (written dir ((name, o) :: os) files)
    with (written dir os
            match o with
            | Saved f sprite => <[Pathlib.joinpath dir f := sprite]> files
            | _ => files
            end).
  rewrite IH. cbn [saved_at].
  destruct (saved_at dir path os) as [sprite|]; [done|].
  destruct o as [f sprite|e|]; try done.
  destruct (String.eqb_spec (Pathlib.joinpath dir f) path) as [<-|Hne].
  - by rewrite lookup_insert_eq.
  - by rewrite lookup_insert_ne.
Qed.

(** On any console, the files that a run changes are sprite files of the
    frames. *)
Lemma console_split_sprites_changes (console : Console.t line)
    plist_path png_path path files0 :
  files (Console.split_sprites console plist_path png_path files0) !! path
  <> files0 !! path ->
  exists items name data,
    parse_plist plist_path = Ok (PDict items)
    /\ In (name, data) items
    /\ path = Pathlib.joinpath (output_path_of plist_path) (sprite_filename_of name).
Proof.
  unfold Console.split_sprites. destruct (mkdir _) as [[]|]; [|done].
  destruct (Console.prints console [] _) as [head [[]|]]; [|done].
  destruct (parse_plist plist_path) as [frames|]; [|done].
  destruct (Image_open png_path) as [img|]; [|done].
  destruct frames as [| | | | | | |items]; try done.
  pose proof (console_process_frames_spec console img (output_path_of plist_path)
                files0 head items) as Hloop.
  destruct (Console.process_frames console img _ files0 head items)
    as [[[files1 printed] os] s].
  cbn [fst snd] in Hloop.
  destruct Hloop as (processed & rest & ls & -> & -> & _).
  intros Hne.
  assert (fst (process_frames img (output_path_of plist_path) files0 processed) !! path
          <> files0 !! path) as Hchanged.
  { destruct s as [[]|e]; [|done].
    by destruct (Console.print console printed _). }
  destruct (process_frames_changes img _ files0 processed path Hchanged)
    as (name & data & Hin & ->).
  exists (processed ++ rest), name, data. split; [done|]. split; [|done].
  apply List.in_or_app. by left.
Qed.

(** A run that raises has processed no entry and written no file. *)
Lemma split_sprites_aborted plist_path png_path files0 e :
  status (split_sprites plist_path png_path files0) = Raise e ->
  files (split_sprites plist_path png_path files0) = files0
  /\ entries (split_sprites plist_path png_path files0) = [].
Proof.
  unfold split_sprites. destruct (mkdir _) as [[]|]; [|done].
  destruct (parse_plist plist_path) as [frames|]; [|done].
  destruct (Image_open png_path) as [img|]; [|done].
  destruct frames as [| | | | | | |items]; try done.
  by destruct (process_frames img _ files0 items).
Qed.

End FilesFacts.

(** X9.  A run writes sprite files and nothing else, on any console: a
    path whose content differs after the run is the output directory
    joined with the file name of one of the frames.  Such a file name
    ends with [".png"] and holds no separator, whatever the sprite name
    is.  When it has no drive either, which no name has on a POSIX system,
    joining it to a directory adds one component to the directory: the
    file lies in the output directory and nowhere else.  (On Windows a
    file name that begins with a drive letter and a colon is joined as a
    path on that drive.) *)
Theorem split_sprites_writes_only_sprites `{Env} (console : Console.t line)
    (plist_path png_path path : string) (files0 : gmap string Image) :
  let r := Console.split_sprites console plist_path png_path files0 in
  files r !! path <> files0 !! path ->
  exists items name data,
    let f := sprite_filename_of name in
    parse_plist plist_path = Ok (PDict items)
    /\ In (name, data) items
    /\ path = Pathlib.joinpath (output_path_of plist_path) f
    /\ plain f = true
    /\ ends_with ".png" f
    /\ (os_name = Pathlib.Posix -> Pathlib.drv (Pathlib.Path f) = "")
    /\ (Pathlib.drv (Pathlib.Path f) = "" ->
        forall dir : Pathlib.path,
          Pathlib.truediv dir f
          = Pathlib.Parsed (Pathlib.drv dir) (Pathlib.root dir)
                           (Pathlib.tail dir ++ [f])).
Proof.
  intros r Hne.
  destruct (console_split_sprites_changes console plist_path png_path path files0 Hne)
    as (items & name & data & Hp & Hin & ->).
  exists items, name, data. cbv zeta.
  pose proof (sprite_filename_no_sep name) as Hplain.
  destruct (sprite_filename_not_dot name) as [H1 H2].
  repeat split; try done.
  - by exists (Pathlib.stem (Pathlib.Path name)).
  - intros Hos. generalize (sprite_filename_of name). rewrite Hos.
    apply posix_no_drive.
  - intros Hdrv dir. apply truediv_file. by apply path_of_file.
Qed.

Lemma split_sprites_writes_only_sprites_witness :
  let doc := PDict [("frames", PDict [("../../etc/passwd", PStr "{{0,0},{8,8}}")])] in
  let r := @Console.split_sprites (Demo.env_of doc) Console.quiet
             "sheet.plist" "sheet.png" ∅ in
  let path := @Pathlib.joinpath Pathlib.Posix Demo.output_path "passwd.png" in
  files r !! path <> (∅ : gmap string Pillow.bitmap) !! path
  /\ exists name,
       path = @Pathlib.joinpath Pathlib.Posix Demo.output_path
                (@sprite_filename_of Pathlib.Posix name)
       /\ @plain Pathlib.Posix (@sprite_filename_of Pathlib.Posix name) = true.
Proof.
  intros doc r path.
  assert (files r !! path <> (∅ : gmap string Pillow.bitmap) !! path) as Hne
    by (by vm_compute).
  split; [exact Hne|].
  destruct (@split_sprites_writes_only_sprites (Demo.env_of doc) Console.quiet
              "sheet.plist" "sheet.png" path ∅ Hne)
    as (items & name & data & _ & _ & Hpath & Hplain & _).
  exists name. split; [exact Hpath|exact Hplain].
Defined.

(** The file name of a sprite can escape the output directory on Windows:
    a name whose last component begins with a drive is written on that
    drive. *)
Example sprite_file_on_another_drive :
  @Pathlib.joinpath Pathlib.Windows
    (@Pathlib.Path Pathlib.Windows "C:\Users\u\Documents\MHwPlistSplitter\sheet")
    (@sprite_filename_of Pathlib.Windows "a/D:x.png")
  = "D:x.png".
Proof. reflexivity. Qed.

(** X10.  After a run that was not aborted, every path holds the sprite
    of the last entry saved at that path, and what it held before when no
    entry was saved there: later entries win over earlier ones, and files
    with other names are left alone. *)
Theorem split_sprites_last_saved `{Env}
    (plist_path png_path path : string) (files0 : gmap string Image) :
  let r := split_sprites plist_path png_path files0 in
  status r = Ok tt ->
  files r !! path
  = match saved_at (output_path_of plist_path) path (entries r) with
    | Some sprite => Some sprite
    | None => files0 !! path
    end.
Proof.
  unfold split_sprites. destruct (mkdir _) as [[]|]; [|done].
  destruct (parse_plist plist_path) as [frames|]; [|done].
  destruct (Image_open png_path) as [img|]; [|done].
  destruct frames as [| | | | | | |items]; try done.
  pose proof (process_frames_written img (output_path_of plist_path) files0 items)
    as Hw.
  destruct (process_frames img _ files0 items) as [files1 os].
  cbn [files entries fst snd] in *. intros _. rewrite Hw. apply written_lookup.
Qed.

Lemma split_sprites_last_saved_witness :
  let doc := PDict [("frames",
               PDict [("idle/1.png", PStr "{{0,0},{8,8}}");
                      ("run/1.png", PStr "{{8,0},{4,4}}")])] in
  let r := Demo.split_sprites doc in
  let path := @Pathlib.joinpath Pathlib.Posix Demo.output_path "1.png" in
  status r = Ok tt
  /\ files r !! path
     = match @saved_at _ Pathlib.Posix Demo.output_path path (entries r) with
       | Some sprite => Some sprite
       | None => (∅ : gmap string Pillow.bitmap) !! path
       end.
Proof.
  intros doc r path. refine (conj eq_refl _).
  exact (@split_sprites_last_saved (Demo.env_of doc)
           "sheet.plist" "sheet.png" path ∅ eq_refl).
Defined.

(** ** Entries and documents of other types *)

(** X11.  The rectangle of an entry has to be a string.  When the value
    chosen for an entry (the value of [frame], else of [textureRect], else
    the entry's own value) is a number, a boolean, an array, a date, bytes
    or a mapping, the entry fails with an [AttributeError] or a
    [TypeError]: it is recorded as failed and no file is written.  A
    [frame] value of the wrong type is not replaced by a usable
    [textureRect]. *)
Theorem process_sprite_not_a_string `{Env} (img : Image) (dir : Pathlib.path)
    (files : gmap string Image) (name : string) (data v : PValue) :
  frame_str_of data = Some v ->
  (forall s, v <> PStr s) ->
  exists e,
    process_sprite img dir files name data = (files, Failed e)
    /\ (cls_of e = AttributeError \/ cls_of e = TypeError).
Proof.
  intros Hv Hs. unfold process_sprite, extract_sprite. rewrite Hv.
  destruct v; try (eexists; split; [reflexivity|]; simpl; by auto).
  by destruct (Hs s).
Qed.

Lemma process_sprite_not_a_string_witness :
  let E := Demo.env_of Demo.mixed in
  let data := PDict [("frame", PArray [PInt 0; PInt 0; PInt 8; PInt 8]);
                     ("textureRect", PStr "{{0,0},{8,8}}")] in
  frame_str_of data = Some (PArray [PInt 0; PInt 0; PInt 8; PInt 8])
  /\ exists e,
       @process_sprite E Demo.sheet Demo.output_path ∅ "a.png" data = (∅, Failed e).
Proof.
  intros E data. refine (conj eq_refl _).
  destruct (@process_sprite_not_a_string E Demo.sheet Demo.output_path ∅ "a.png"
              data _ eq_refl ltac:(done)) as (e & He & _).
  by exists e.
Defined.

(** X12.  A document whose root is not a mapping is never accepted:
    [parse_plist] raises, either "Unsupported plist format" or the
    [TypeError] of the subscript or of the membership test, and the run is
    aborted with no entry processed and no file written.  This holds also
    for an array or a string in which [frames] occurs. *)
Theorem parse_plist_root_not_a_mapping `{Env}
    (plist_path png_path : string) (files0 : gmap string Image) (doc : PValue) :
  plistlib_load plist_path = Ok doc ->
  is_dict doc = false ->
  let r := split_sprites plist_path png_path files0 in
  (exists e, parse_plist plist_path = Raise e
             /\ (e = unsupported \/ cls_of e = TypeError))
  /\ is_ok (status r) = false /\ entries r = [] /\ files r = files0.
Proof.
  intros Hl Hd r.
  assert (exists e, parse_plist plist_path = Raise e
                    /\ (e = unsupported \/ cls_of e = TypeError)) as (e & He & Hc).
  { unfold parse_plist. rewrite Hl. cbn [bind]. unfold select_frames.
    destruct doc as [s|z|x|b|bs|d|elems|items]; try done;
      try (eexists; split; [reflexivity|]; simpl; by auto).
    - cbn [contains bind getitem].
      destruct (String.index 0 "frames" s);
        [eexists; split; [reflexivity|]; simpl; by auto|].
      destruct (String.index 0 "metadata" s);
        eexists; (split; [reflexivity|]); simpl; by auto.
    - cbn [contains bind getitem].
      destruct (existsb _ elems);
        [eexists; split; [reflexivity|]; simpl; by auto|].
      destruct (existsb _ elems);
        eexists; (split; [reflexivity|]); simpl; by auto. }
  split; [by exists e|].
  destruct (split_sprites_fatal plist_path png_path files0 e He) as (Hs & _ & Hen & Hf).
  done.
Qed.

Lemma parse_plist_root_not_a_mapping_witness :
  let doc := PArray [PStr "frames"; PDict [("a.png", PStr "{{0,0},{8,8}}")]] in
  let r := Demo.split_sprites doc in
  is_ok (status r) = false /\ entries r = [] /\ files r = ∅.
Proof.
  intros doc r.
  exact (proj2 (@parse_plist_root_not_a_mapping (Demo.env_of doc)
                  "sheet.plist" "sheet.png" ∅ doc eq_refl eq_refl)).
Defined.

(** ** The summary of a run *)
Section SummaryFacts.

Lemma saved_lines {A : Type} (os : list (string * outcome A)) :
  List.filter is_saved_line (List.map line_of os)
  = List.map line_of (List.filter is_saved os).
Proof.
  induction os as [|[name [f sprite|e|]] os IH]; simpl; by rewrite ?IH.
Qed.

Lemma saved_are_results {A : Type} (os : list (string * outcome A)) :
  (List.length (List.filter is_saved os)
   <= List.length (List.filter is_result os))%nat.
Proof.
  induction os as [|[name [f sprite|e|]] os IH]; simpl; lia.
Qed.

End SummaryFacts.

(** X13.  The summary of a run that returns, on any console, when the
    preparations succeed: every entry of the frames was processed, the run
    showed four lines and one more for every entry, and the last line is
    the summary.  Its count is the number of entries saved, since it is
    incremented before the line of the entry is printed: it is at most the
    number of entries that have a rectangle string and at least the number
    of "Saved:" lines shown, and it is that number when the console takes
    every line. *)
Theorem split_sprites_summary `{Env} (console : Console.t line)
    (plist_path png_path : string) (files0 : gmap string Image)
    (items : list (string * PValue)) (img : Image) :
  mkdir (output_dir_of plist_path) = Ok tt ->
  parse_plist plist_path = Ok (PDict items) ->
  Image_open png_path = Ok img ->
  let r := Console.split_sprites console plist_path png_path files0 in
  status r = Ok tt ->
  let count := List.length (List.filter is_saved (entries r)) in
  let saved_lines := List.length (List.filter is_saved_line (stdout r)) in
  List.map fst (entries r) = List.map fst items
  /\ List.length (stdout r) = (4 + List.length items)%nat
  /\ List.last (stdout r) (Done 0 "") = Done count (output_dir_of plist_path)
  /\ (saved_lines <= count)%nat
  /\ (count <= List.length (List.filter has_frame items))%nat
  /\ ((forall shown l, console shown l = None) -> saved_lines = count).
Proof.
  intros Hm Hp Hi r Hs count saved.
  destruct (console_split_sprites_run console _ _ files0 _ _ Hm Hp Hi)
    as (processed & rest & Hitems & _ & Hentries & Hsaved & Hrun).
  fold r in Hentries, Hsaved, Hrun. rewrite Hs in Hrun.
  destruct Hrun as (-> & Hlen & Hlast). rewrite List.app_nil_r in Hitems.
  subst processed count saved.
  split; [by rewrite Hentries, process_frames_names|].
  split; [done|]. split; [done|]. split; [done|]. split.
  - etrans; [apply saved_are_results|]. rewrite Hentries.
    by rewrite <- (length_map fst), process_frames_records, length_map.
  - intros Hc. subst r. rewrite (console_split_sprites_taken console) by done.
    rewrite (split_sprites_run _ _ _ _ _ Hm Hp Hi). cbn [stdout entries].
    cbn [app List.filter is_saved_line]. rewrite List.filter_app, saved_lines.
    cbn [List.filter is_saved_line]. by rewrite List.app_nil_r, length_map.
Qed.

Lemma split_sprites_summary_witness :
  let E := Demo.env_of Demo.mixed in
  let r := @Console.split_sprites E Console.quiet "sheet.plist" "sheet.png" ∅ in
  @mkdir E (@output_dir_of E "sheet.plist") = Ok tt
  /\ status r = Ok tt
  /\ List.length (stdout r) = 8%nat
  /\ List.last (stdout r) (Done 0 "") = Done 2 Demo.output_dir.
Proof.
  intros E r.
  pose proof (@split_sprites_summary E Console.quiet "sheet.plist" "sheet.png" ∅ _
                Demo.sheet eq_refl eq_refl eq_refl eq_refl)
    as (_ & Hlen & Hlast & _).
  split; [done|]. split; [done|]. split; [exact Hlen|exact Hlast].
Defined.



(** ** [main] *)
Section MainFacts.

Lemma script_no_error (ls : list line) :
  List.filter is_error_event (List.map Script ls) = [].
Proof. induction ls as [|l ls IH]; [done|exact IH]. Qed.

(** On a console that takes every line, [Console.main] is [main]. *)
Lemma console_main_taken `{Env} `{Desktop} (console : Console.t event)
    (help : bool) (files0 : gmap string Image) :
  (forall shown ev, console shown ev = None) ->
  Console.main console help files0 = main help files0.
Proof.
  intros Hc. unfold Console.main, main, Console.print_and_return.
  destruct help; [by rewrite print_taken|].
  rewrite prints_taken by done.
  destruct (pick_file "Select plist file" plist_filetypes) as [plist_path|e];
    [|done].
  destruct (String.eqb plist_path ""); [by rewrite print_taken|].
  rewrite print_taken by done.
  destruct (pick_file "Select PNG file" png_filetypes) as [png_path|e];
    [|by rewrite <- !List.app_assoc].
  destruct (String.eqb png_path "");
    [rewrite print_taken by done; by rewrite <- !List.app_assoc|].
  rewrite print_taken by done.
  rewrite console_split_sprites_taken by (intros shown l; apply Hc).
  destruct (status (split_sprites plist_path png_path files0)) as [[]|e].
  - by rewrite <- !List.app_assoc.
  - rewrite print_taken by done. by rewrite <- !List.app_assoc.
Qed.

End MainFacts.


(** X14.  [main] does nothing before both files are chosen.  The PNG
    dialog is opened only after a plist path was chosen; [split_sprites]
    is run only when both dialogs returned a path that is not empty, and
    then on those two paths and the files as they were; and when it is not
    run, because help was asked for, a dialog was cancelled or a dialog
    could not be shown, no file changes and no line of the script is
    printed. *)
Theorem main_needs_both_files `{Env} `{Desktop}
    (help : bool) (files0 : gmap string Image) :
  let m := main help files0 in
  (In (Dialog "Select PNG file") (trace m) ->
   help = false
   /\ exists plist_path,
        pick_file "Select plist file" plist_filetypes = Ok plist_path
        /\ plist_path <> "")
  /\ (forall r, script_run m = Some r ->
        help = false
        /\ exists plist_path png_path,
             pick_file "Select plist file" plist_filetypes = Ok plist_path
             /\ plist_path <> ""
             /\ pick_file "Select PNG file" png_filetypes = Ok png_path
             /\ png_path <> ""
             /\ r = split_sprites plist_path png_path files0
             /\ final_files m = files r)
  /\ (script_run m = None ->
      final_files m = files0 /\ forall l, ~ In (Script l) (trace m)).
Proof.
  unfold main. destruct help.
  { cbn. split; [by intros [|[]]|]. split; [done|]. intros _. split; [done|].
    by intros l [|[]]. }
  destruct (pick_file "Select plist file" plist_filetypes) as [plist_path|e].
  2:{ cbn. split; [intros Hin; by repeat destruct Hin as [|Hin]|].
      split; [done|]. intros _. split; [done|].
      intros l Hin; by repeat destruct Hin as [|Hin]. }
  destruct (String.eqb_spec plist_path "") as [->|Hplist].
  { cbn. split; [intros Hin; by repeat destruct Hin as [|Hin]|].
    split; [done|]. intros _. split; [done|].
    intros l Hin; by repeat destruct Hin as [|Hin]. }
  split; [intros _; split; [done|]; by exists plist_path|].
  destruct (pick_file "Select PNG file" png_filetypes) as [png_path|e].
  2:{ cbn. split; [done|]. intros _. split; [done|].
      intros l Hin; by repeat destruct Hin as [|Hin]. }
  destruct (String.eqb_spec png_path "") as [->|Hpng].
  { cbn. split; [done|]. intros _. split; [done|].
    intros l Hin; by repeat destruct Hin as [|Hin]. }
  destruct (status (split_sprites plist_path png_path files0)) as [[]|e];
    (split; [|done]); intros r [= <-]; (split; [done|]);
    by exists plist_path, png_path.
Qed.

Lemma main_needs_both_files_witness :
  let E := Demo.env_of Demo.mixed in
  let m := @main E User.cancels false ∅ in
  script_run m = None
  /\ final_files m = ∅
  /\ ~ In (Dialog "Select PNG file") (trace m).
Proof.
  intros E m.
  pose proof (@main_needs_both_files E User.cancels false ∅) as (Hpng & _ & Hnone).
  refine (conj eq_refl _). split; [exact (proj1 (Hnone eq_refl))|].
  intros Hin. by destruct (Hpng Hin) as (_ & plist_path & [= <-] & Hne).
Defined.

(** X15.  Once the command line is parsed, and on a console that takes
    every line, the exit status of [main] is 0 or 1.  It is 0 with no
    error shown, and it is 1 with exactly one error shown, as the last
    event: the traceback of a dialog that raised or the report of the
    exception [split_sprites] raised.  When the status is 1 no file has
    been written. *)
Theorem main_exit_code `{Env} `{Desktop} (console : Console.t event)
    (help : bool) (files0 : gmap string Image) :
  (forall shown ev, console shown ev = None) ->
  let m := Console.main console help files0 in
  (exit_code m = 0 /\ List.filter is_error_event (trace m) = [])
  \/ (exit_code m = 1
      /\ final_files m = files0
      /\ exists ev,
           is_error_event ev = true
           /\ last (trace m) = Some ev
           /\ List.filter is_error_event (trace m) = [ev]).
Proof.
  intros Hc m. subst m. rewrite console_main_taken by done.
  unfold main. destruct help; [by left|].
  destruct (pick_file "Select plist file" plist_filetypes) as [plist_path|e].
  2:{ right. split; [done|]. split; [done|]. by exists (Traceback e). }
  destruct (String.eqb plist_path ""); [by left|].
  destruct (pick_file "Select PNG file" png_filetypes) as [png_path|e].
  2:{ right. split; [done|]. split; [done|]. by exists (Traceback e). }
  destruct (String.eqb png_path ""); [by left|].
  destruct (status (split_sprites plist_path png_path files0)) as [[]|e] eqn:Hs.
  - left. split; [done|]. cbn [trace].
    rewrite !List.filter_app, script_no_error. done.
  - right. split; [done|]. cbn [final_files].
    split; [by apply (split_sprites_aborted _ _ _ e)|].
    exists (Printed_error e). split; [done|]. cbn [trace]. split.
    + by rewrite last_snoc.
    + rewrite !List.filter_app, script_no_error. done.
Qed.

Lemma main_exit_code_witness :
  let E := Demo.env_of (PArray [PStr "frames"]) in
  let m := @Console.main E (User.picks "sheet.plist" "sheet.png") Console.quiet
             false ∅ in
  exit_code m = 1 /\ final_files m = ∅.
Proof.
  intros E m.
  destruct (@main_exit_code E (User.picks "sheet.plist" "sheet.png") Console.quiet
              false ∅ (fun _ _ => eq_refl)) as [[H0 _]|(H1 & Hfiles & _)].
  - by vm_compute in H0.
  - split; [exact H1|exact Hfiles].
Defined.

(** X16.  The failures of entries do not change the exit status.  On a
    console that takes every line, when both files are chosen and the
    preparations of the run succeed, [main] ends with status 0 however
    many entries fail: every failed entry is reported by a line of its
    own, the last event is the summary line with the number of saved
    sprites, and the files are those the loop leaves. *)
Theorem main_entry_failures `{Env} `{Desktop} (console : Console.t event)
    (files0 : gmap string Image) (plist_path png_path : string)
    (items : list (string * PValue)) (img : Image) :
  (forall shown ev, console shown ev = None) ->
  pick_file "Select plist file" plist_filetypes = Ok plist_path ->
  plist_path <> "" ->
  pick_file "Select PNG file" png_filetypes = Ok png_path ->
  png_path <> "" ->
  mkdir (output_dir_of plist_path) = Ok tt ->
  parse_plist plist_path = Ok (PDict items) ->
  Image_open png_path = Ok img ->
  let m := Console.main console false files0 in
  let dir := output_path_of plist_path in
  let os := snd (process_frames img dir files0 items) in
  exit_code m = 0
  /\ (forall name e, In (name, Failed e) os ->
        In (Script (Error_processing name e)) (trace m))
  /\ last (trace m)
     = Some (Script (Done (List.length (List.filter is_saved os))
                          (output_dir_of plist_path)))
  /\ final_files m = fst (process_frames img dir files0 items).
Proof.
  intros Hc Hplist Hp Hpng Hq Hm Hparse Hi m dir os. subst m.
  rewrite console_main_taken by done.
  unfold main. rewrite Hplist, Hpng.
  destruct (String.eqb_spec plist_path ""); [done|].
  destruct (String.eqb_spec png_path ""); [done|].
  rewrite (split_sprites_run _ _ _ _ _ Hm Hparse Hi).
  cbn [status stdout files exit_code trace final_files]. fold dir os.
  split; [done|]. split; [|split; [|done]].
  - intros name e Hin. rewrite !List.in_app_iff. right. right.
    apply List.in_map. rewrite !List.in_app_iff. right. left.
    by apply (List.in_map line_of) in Hin.
  - rewrite !List.map_app, !List.app_assoc. cbn [List.map]. by rewrite last_snoc.
Qed.

Lemma main_entry_failures_witness :
  let E := Demo.env_of Demo.mixed in
  let m := @Console.main E (User.picks "sheet.plist" "sheet.png") Console.quiet
             false ∅ in
  exit_code m = 0
  /\ (exists e, In (Script (Error_processing "broken.png" e)) (trace m))
  /\ last (trace m) = Some (Script (Done 2 Demo.output_dir)).
Proof.
  intros E m.
  pose proof (@main_entry_failures E (User.picks "sheet.plist" "sheet.png")
                Console.quiet ∅ "sheet.plist" "sheet.png" _ Demo.sheet
                (fun _ _ => eq_refl)
                eq_refl ltac:(done) eq_refl ltac:(done) eq_refl eq_refl eq_refl)
    as (Hexit & Hfail & Hlast & _).
  split; [exact Hexit|]. split; [|exact Hlast].
  eexists. apply Hfail. right. left. reflexivity.
Defined.

(** On a console that is closed when a failure is to be reported, [main]
    ends with status 1 after a sprite was written: the exception of the
    handler's [print] leaves [split_sprites], and the report of [main]
    cannot be printed either. *)
Example main_console_refuses :
  let m := @Console.main (Demo.env_of Demo.mixed)
             (User.picks "sheet.plist" "sheet.png") (Console.closed_after 11)
             false ∅ in
  exit_code m = 1
  /\ last (trace m) = Some (Traceback (Exn OSError "Broken pipe"))
  /\ final_files m !! @Pathlib.joinpath Pathlib.Posix Demo.output_path "first.png"
     <> None.
Proof.
  intros m. split; [by vm_compute|]. split; by vm_compute.
Qed.
